(** * Column-mapping tools of the data integration agent

    A shallow embedding of [src/data_integration_agent/tools.py]: the
    mapping inference ([suggest_column_mappings], [_similar_names]), the
    approval step ([approve_mappings]), the SQL synthesis
    ([generate_transformation_sql]) and the execution step
    ([execute_transformation]); further the token authentication of
    [src/data_integration_agent/server.py] and the folder download of
    [src/fetch_data.py].

    Conventions of the embedding.
    - Python [str] is [string] (ASCII); [str.lower] lowers [A-Z].
    - A Python [float] confidence is an exact rational [Q].  Every
      confidence the code stores went through [round(_, 2)], so it is a
      number of hundredths; the only place where binary rounding noise
      can be seen is a decimal tie inside [round], and there the choice
      is left to the oracle [float_tie_up] of the environment.
    - A Python dict iterated in insertion order is an association list
      with unique keys ([dict_set]); the session stores, which are only
      read by key, are [gmap string _].
    - A tool call returns an [outcome]: the returned value or the raised
      exception, together with the new [World] (session state and audit
      log). *)

From Stdlib Require Import String Ascii List ZArith QArith Qround Lia Lqa Bool DecimalString.
From stdpp Require Import gmap strings.
Import ListNotations.

Local Open Scope string_scope.
Local Open Scope list_scope.

(** ** Python string operations *)

Module Py.

Definition lower_ascii (c : ascii) : ascii :=
  let n := nat_of_ascii c in
  if Nat.leb 65 n && Nat.leb n 90 then ascii_of_nat (n + 32) else c.

(** [s.lower()] *)
Fixpoint lower (s : string) : string :=
  match s with
  | EmptyString => EmptyString
  | String c s' => String (lower_ascii c) (lower s')
  end.

(** [s.startswith(p)] *)
Definition startswith (s p : string) : bool := String.prefix p s.

(** [s[n:]] for [0 <= n] *)
Fixpoint drop (n : nat) (s : string) : string :=
  match n, s with
  | O, _ => s
  | S _, EmptyString => EmptyString
  | S k, String _ s' => drop k s'
  end.

(** [s[:n]] for [0 <= n] *)
Fixpoint take (n : nat) (s : string) : string :=
  match n, s with
  | O, _ => EmptyString
  | S _, EmptyString => EmptyString
  | S k, String c s' => String c (take k s')
  end.

(** [s.endswith(x)] *)
Definition endswith (s x : string) : bool :=
  let n := String.length s in
  let k := String.length x in
  Nat.leb k n && String.eqb (drop (n - k) s) x.

(** [s[:-k]] for [0 < k]: everything but the last [k] characters (the
    empty string when [s] is shorter than [k]). *)
Definition drop_last (k : nat) (s : string) : string :=
  take (String.length s - k) s.

(** [sub in s] *)
Fixpoint contains (sub s : string) : bool :=
  String.prefix sub s ||
  match s with
  | EmptyString => false
  | String _ s' => contains sub s'
  end.

(** [s.replace(old, new)] for a non-empty [old]: the occurrences of
    [old], found from left to right without overlap, are replaced.
    [skip] counts the characters of a matched occurrence that are still
    to be passed over. *)
Fixpoint replace_from (old new : string) (skip : nat) (s : string) : string :=
  match s with
  | EmptyString => EmptyString
  | String c s' =>
      match skip with
      | S k => replace_from old new k s'
      | O =>
          if String.prefix old s
          then new ++ replace_from old new (String.length old - 1) s'
          else String c (replace_from old new 0 s')
      end
  end.

Definition replace (s old new : string) : string := replace_from old new 0 s.

(** [sep.join(l)] *)
Fixpoint join (sep : string) (l : list string) : string :=
  match l with
  | [] => EmptyString
  | [x] => x
  | x :: l' => x ++ sep ++ join sep l'
  end.

(** Truth value of an [Optional[str]]: [None] and the empty string are
    false. *)
Definition truthy (o : option string) : bool :=
  match o with
  | Some (String _ _) => true
  | _ => false
  end.

(** [x or default] on an [Optional[str]] *)
Definition or_else (o : option string) (default : string) : string :=
  match o with
  | Some (String c s) => String c s
  | _ => default
  end.

(** The line feed of the triple-quoted templates. *)
Definition nl : string := String (ascii_of_nat 10) EmptyString.

End Py.

(** ** Name similarity *)

Definition prefixes : list string := ["src_"; "tgt_"; "dim_"; "fact_"; "stg_"].
Definition suffixes : list string :=
  ["_id"; "_key"; "_code"; "_date"; "_amt"; "_amount"].

(** Body of [for prefix in prefixes]. *)
Definition strip_prefix_step (n : string * string) (prefix : string)
  : string * string :=
  (Py.replace (fst n) prefix EmptyString, Py.replace (snd n) prefix EmptyString).

(** Body of [for suffix in suffixes]. *)
Definition strip_suffix_step (n : string * string) (suffix : string)
  : string * string :=
  if Py.endswith (fst n) suffix && Py.endswith (snd n) suffix
  then (Py.drop_last (String.length suffix) (fst n),
        Py.drop_last (String.length suffix) (snd n))
  else n.

(** The two names after both loops of [_similar_names]. *)
Definition normalized_names (name1 name2 : string) : string * string :=
  let n := (Py.lower name1, Py.lower name2) in
  let n := fold_left strip_prefix_step prefixes n in
  fold_left strip_suffix_step suffixes n.

Definition _similar_names (name1 name2 : string) : bool :=
  let '(n1, n2) := normalized_names name1 name2 in
  String.eqb n1 n2 || Py.contains n1 n2 || Py.contains n2 n1.

(** The reading of the specification: a prefix is stripped where the name
    starts with it, a suffix where both names end with it. *)
Definition strip_leading (s prefix : string) : string :=
  if Py.startswith s prefix then Py.drop (String.length prefix) s else s.

Definition spec_normalized_names (name1 name2 : string) : string * string :=
  let n1 := fold_left strip_leading prefixes (Py.lower name1) in
  let n2 := fold_left strip_leading prefixes (Py.lower name2) in
  fold_left strip_suffix_step suffixes (n1, n2).

Definition spec_similar_names (name1 name2 : string) : bool :=
  let '(n1, n2) := spec_normalized_names name1 name2 in
  String.eqb n1 n2 || Py.contains n1 n2 || Py.contains n2 n1.


(** ** Values, outcomes and the data model *)

(** The JSON-like values that appear in payloads and flat reply dicts. *)
#[warnings="-register-all"]
Inductive pyval :=
| PNone
| PBool (b : bool)
| PInt (z : Z)
| PFloat (q : Q)
| PStr (s : string)
| PList (l : list pyval)
| PDict (d : list (string * pyval)).

Definition pydict := list (string * pyval).

(** [d.get(k)] on a dict kept as an association list. *)
Fixpoint dict_get {V} (k : string) (d : list (string * V)) : option V :=
  match d with
  | [] => None
  | (k', v) :: d' => if String.eqb k k' then Some v else dict_get k d'
  end.

(** [d[k] = v]: an existing key keeps its place, a new one goes last. *)
Fixpoint dict_set {V} (k : string) (v : V) (d : list (string * V))
  : list (string * V) :=
  match d with
  | [] => [(k, v)]
  | (k', v') :: d' =>
      if String.eqb k k' then (k', v) :: d' else (k', v') :: dict_set k v d'
  end.

Definition dict_keys {V} (d : list (string * V)) : list string := map fst d.

(** What a call does: it returns a value or raises. *)
Inductive outcome (A : Type) :=
| Returned (a : A)
| Raised (exn : string).
Arguments Returned {A} a.
Arguments Raised {A} exn.

Definition bind {A B} (o : outcome A) (k : A -> outcome B) : outcome B :=
  match o with
  | Returned a => k a
  | Raised e => Raised e
  end.

Notation "'do' x <- o ; k" := (bind o (fun x => k))
  (at level 10, x name, o at level 100, k at level 200).

(** A tool returns either a dict tagged with the key [error] or its
    regular result. *)
Inductive reply (R : Type) :=
| Error (d : pydict)
| Result (r : R).
Arguments Error {R} d.
Arguments Result {R} r.

Record Column := {
  col_name : string;
  col_type : string;
  col_nullable : bool;
  col_position : Z
}.

Record Table := {
  table_name : string;
  columns : list Column
}.

Record SchemaInfo := {
  dataset_id : string;
  project_id : option string;
  tables : list Table;
  table_count : nat
}.

Record Mapping := {
  target_column : string;
  target_type : string;
  source_column : option string;
  source_type : option string;
  confidence : Q;
  transformation : option string;
  status : string
}.

(** The parts of the guardrail reports that the tools read. *)
Record ConfidenceAnalysis := {
  recommendation : pyval;
  analysis_detail : pydict
}.

Record RiskAssessment := {
  risk_level : string;
  risk_factors : pyval;
  mitigations : pyval;
  risk_recommendation : pyval
}.

Record SuggestResult := {
  r_source_table : string;
  r_target_table : string;
  r_mappings : list Mapping;
  r_mapping_count : nat;
  r_unmapped_count : nat;
  r_average_confidence : Q;
  r_validation_error : option string;
  r_hallucinated_columns : option (list string);
  r_explanations : list pyval;
  r_confidence_analysis : ConfidenceAnalysis;
  r_recommendation : pyval;
  r_risk_assessment : RiskAssessment
}.

Record GeneratedSql := {
  g_source_table : string;
  g_target_table : string;
  insert_sql : string;
  merge_sql : string;
  column_count : nat;
  mapped_count : nat;
  sql_warnings : list string;
  g_risk_assessment : RiskAssessment;
  generated_at : string
}.

Record AuditEvent := {
  category : string;
  event_type : string;
  payload : pydict;
  event_risk : string
}.

(** [tool_context.state]: a key that was never written is [None]. *)
Record State := {
  source_schema : option SchemaInfo;
  target_schema : option SchemaInfo;
  suggested_mappings : option (gmap string SuggestResult);
  approved_mappings : option (gmap string SuggestResult);
  generated_sql : option (gmap string GeneratedSql)
}.

Record World := {
  state : State;
  audit : list AuditEvent
}.

Definition empty_state : State :=
  {| source_schema := None; target_schema := None; suggested_mappings := None;
     approved_mappings := None; generated_sql := None |}.

Definition initial_world : World := {| state := empty_state; audit := [] |}.

(** What the tools take from outside [tools.py]: the process environment,
    the clock, the resolution of decimal ties by binary floats, and the
    guardrail functions of the module [guardrails], which is not part of
    the sources at hand. *)
Record Env := {
  environ : string -> option string;
  utcnow_isoformat : string;
  float_tie_up : Q -> bool;
  validate_mapping_output :
    list Mapping -> list string -> list string -> bool * string * list string;
  generate_mapping_explanation : Mapping -> pyval;
  validate_confidence_threshold : list Mapping -> ConfidenceAnalysis;
  generate_risk_assessment : string -> pydict -> RiskAssessment;
  validate_sql_query : string -> bool * string * list string
}.

(** Modelled from the spec: [guardrails.log_audit_event], absent from the
    sources; the audit log is append-only and one call records one event
    with its category, event type, payload and risk level. *)
Definition log_audit_event (cat ev : string) (p : pydict) (risk : string)
  (w : World) : World :=
  {| state := state w;
     audit := audit w ++ [{| category := cat; event_type := ev; payload := p;
                             event_risk := risk |}] |}.

Definition set_state (st : State) (w : World) : World :=
  {| state := st; audit := audit w |}.

(** ** Rounding *)

(** The integer nearest to [x]; an exact tie goes where [tie_up] says. *)
Definition round_half (tie_up : Q -> bool) (x : Q) : Z :=
  let f := Qfloor x in
  match (x - inject_Z f ?= 1 # 2)%Q with
  | Lt => f
  | Gt => (f + 1)%Z
  | Eq => if tie_up x then (f + 1)%Z else f
  end.

(** [round(x, 2)] *)
Definition round2 (tie_up : Q -> bool) (x : Q) : Q :=
  Qmake (round_half tie_up (x * 100)) 100.

(** [f"{x*100:.0f}"] for [0 <= x] *)
Definition format_percent (tie_up : Q -> bool) (x : Q) : string :=
  NilZero.string_of_int (Z.to_int (round_half tie_up (x * 100))).

Definition Qgt_bool (a b : Q) : bool := negb (Qle_bool a b).

(** ** Schema snapshots *)

(** One row of the [INFORMATION_SCHEMA.COLUMNS] query. *)
Record Row := {
  row_table_name : string;
  row_column_name : string;
  row_data_type : string;
  row_is_nullable : string;
  row_ordinal_position : Z
}.

Definition column_of_row (row : Row) : Column :=
  {| col_name := row_column_name row;
     col_type := row_data_type row;
     col_nullable := String.eqb (row_is_nullable row) "YES";
     col_position := row_ordinal_position row |}.

(** Body of [for row in results]. *)
Definition add_row (tbls : list (string * Table)) (row : Row)
  : list (string * Table) :=
  let t :=
    match dict_get (row_table_name row) tbls with
    | Some t => t
    | None => {| table_name := row_table_name row; columns := [] |}
    end in
  dict_set (row_table_name row)
    {| table_name := table_name t; columns := columns t ++ [column_of_row row] |}
    tbls.

Definition group_rows (rows : list Row) : list Table :=
  map snd (fold_left add_row rows []).

(** [{col["name"]: col for col in table["columns"]}] *)
Definition dict_of_columns (cols : list Column) : list (string * Column) :=
  fold_left (fun d c => dict_set (col_name c) c d) cols [].

(** The loop that looks a table up in a snapshot: the first table of that
    name, or [None]. *)
Fixpoint find_columns (tbls : list Table) (name : string)
  : option (list (string * Column)) :=
  match tbls with
  | [] => None
  | t :: rest =>
      if String.eqb (table_name t) name
      then Some (dict_of_columns (columns t))
      else find_columns rest name
  end.

(** ** The rule cascade *)

(** The [if]/[elif] chain on the two names; [None] is [continue]. *)
Definition rule_confidence (source_name target_name : string) : option Q :=
  let s := Py.lower source_name in
  let t := Py.lower target_name in
  if String.eqb s t then Some 0.95%Q
  else if Py.contains s t || Py.contains t s then Some 0.75%Q
  else if _similar_names source_name target_name then Some 0.60%Q
  else None.

Definition cast_template (target_type : string) : string :=
  "CAST({source} AS " ++ target_type ++ ")".

(** Confidence and transform of one source column for one target column,
    after the adjustment for type compatibility. *)
Definition candidate (source_name : string) (source_col : Column)
  (target_name : string) (target_col : Column) : option (Q * option string) :=
  match rule_confidence source_name target_name with
  | None => None
  | Some confidence =>
      if negb (String.eqb (col_type source_col) (col_type target_col))
      then Some ((confidence - 0.1)%Q, Some (cast_template (col_type target_col)))
      else Some (confidence, None)
  end.

(** [best_match], [best_confidence], [transformation] *)
Definition best : Type := option string * Q * option string.

Definition no_match : best := (None, 0%Q, None).

(** Body of [for source_name, source_col in source_cols.items()]. *)
Definition best_step (target_name : string) (target_col : Column)
  (acc : best) (item : string * Column) : best :=
  let '(_, best_confidence, _) := acc in
  match candidate (fst item) (snd item) target_name target_col with
  | None => acc
  | Some (confidence, transform) =>
      if Qgt_bool confidence best_confidence
      then (Some (fst item), confidence, transform)
      else acc
  end.

Definition best_of (source_cols : list (string * Column))
  (target_name : string) (target_col : Column) : best :=
  fold_left (best_step target_name target_col) source_cols no_match.

Definition is_mapped (m : Mapping) : bool := Py.truthy (source_column m).

(** [sum(m["confidence"] for m in mappings if m["source_column"])] *)
Definition sum_confidence (mappings : list Mapping) : Q :=
  fold_left Qplus (map confidence (List.filter is_mapped mappings)) 0%Q.

Definition count_mapped (mappings : list Mapping) : nat :=
  length (List.filter is_mapped mappings).

Definition count_unmapped (mappings : list Mapping) : nat :=
  length (List.filter (fun m => negb (is_mapped m)) mappings).

(** The key under which the three stores file a table pair. *)
Definition mapping_key (source_table target_table : string) : string :=
  source_table ++ "_to_" ++ target_table.

Definition with_source_schema (v : SchemaInfo) (st : State) : State :=
  {| source_schema := Some v; target_schema := target_schema st;
     suggested_mappings := suggested_mappings st;
     approved_mappings := approved_mappings st;
     generated_sql := generated_sql st |}.

Definition with_target_schema (v : SchemaInfo) (st : State) : State :=
  {| source_schema := source_schema st; target_schema := Some v;
     suggested_mappings := suggested_mappings st;
     approved_mappings := approved_mappings st;
     generated_sql := generated_sql st |}.

Definition with_suggested (v : gmap string SuggestResult) (st : State) : State :=
  {| source_schema := source_schema st; target_schema := target_schema st;
     suggested_mappings := Some v;
     approved_mappings := approved_mappings st;
     generated_sql := generated_sql st |}.

Definition with_approved (v : gmap string SuggestResult) (st : State) : State :=
  {| source_schema := source_schema st; target_schema := target_schema st;
     suggested_mappings := suggested_mappings st;
     approved_mappings := Some v;
     generated_sql := generated_sql st |}.

Definition with_generated (v : gmap string GeneratedSql) (st : State) : State :=
  {| source_schema := source_schema st; target_schema := target_schema st;
     suggested_mappings := suggested_mappings st;
     approved_mappings := approved_mappings st;
     generated_sql := Some v |}.

(** [state.get(key, {})] on a store *)
Definition store_of {V} (o : option (gmap string V)) : gmap string V :=
  match o with
  | Some m => m
  | None => ∅
  end.

(** [str(x)] of an optional string inside an f-string *)
Definition fmt_opt (o : option string) : string :=
  match o with
  | Some s => s
  | None => "None"
  end.

Definition pint (n : nat) : pyval := PInt (Z.of_nat n).

(** ** The tools *)

Section Tools.

Context (E : Env).

Definition env_project_id : option string :=
  match environ E "BQ_PROJECT_ID" with
  | Some v => Some v
  | None => environ E "GOOGLE_CLOUD_PROJECT"
  end.

Definition environ_get (k default : string) : string :=
  match environ E k with
  | Some v => v
  | None => default
  end.

Definition schema_info_of (dataset : string) (rows : list Row) : SchemaInfo :=
  let tbls := group_rows rows in
  {| dataset_id := dataset; project_id := env_project_id;
     tables := tbls; table_count := length tbls |}.

(** [client] is what the warehouse did for the call.  [Raised exn]:
    building [bigquery.Client(project=project_id)], which stands before
    the [try], raised [exn].  [Returned (inl e)]: the client was built and
    [client.query(query).result()], inside the [try], raised an exception
    of text [e].  [Returned (inr rows)]: the query gave [rows]. *)
Definition get_source_schema (dataset : string)
  (client : outcome (string + list Row))
  (w : World) : outcome (reply SchemaInfo) * World :=
  match client with
  | Raised exn => (Raised exn, w)
  | Returned (inr rows) =>
      let schema_info := schema_info_of dataset rows in
      (Returned (Result schema_info),
       set_state (with_source_schema schema_info (state w)) w)
  | Returned (inl e) =>
      (Returned (Error [("error", PStr e); ("dataset_id", PStr dataset)]), w)
  end.

Definition get_target_schema (dataset : string)
  (client : outcome (string + list Row))
  (w : World) : outcome (reply SchemaInfo) * World :=
  match client with
  | Raised exn => (Raised exn, w)
  | Returned (inr rows) =>
      let schema_info := schema_info_of dataset rows in
      (Returned (Result schema_info),
       set_state (with_target_schema schema_info (state w)) w)
  | Returned (inl e) =>
      (Returned (Error [("error", PStr e); ("dataset_id", PStr dataset)]), w)
  end.

(** The dict [mapping] built for one target column.  [source_cols[best_match]]
    raises [KeyError] on a missing key. *)
Definition mapping_for (source_cols : list (string * Column))
  (target : string * Column) : outcome Mapping :=
  let '(target_name, target_col) := target in
  let '(best_match, best_confidence, transformation) :=
    best_of source_cols target_name target_col in
  do source_type <-
    (if Py.truthy best_match
     then match dict_get (fmt_opt best_match) source_cols with
          | Some c => Returned (Some (col_type c))
          | None => Raised "KeyError"
          end
     else Returned None);
  Returned
    {| target_column := target_name;
       target_type := col_type target_col;
       source_column := best_match;
       source_type := source_type;
       confidence := round2 (float_tie_up E) best_confidence;
       transformation := transformation;
       status := if Py.truthy best_match then "suggested" else "unmapped" |}.

(** [for target_name, target_col in target_cols.items(): ... mappings.append(mapping)] *)
Fixpoint build_mappings (source_cols target_cols : list (string * Column))
  : outcome (list Mapping) :=
  match target_cols with
  | [] => Returned []
  | target :: rest =>
      do m <- mapping_for source_cols target;
      do ms <- build_mappings source_cols rest;
      Returned (m :: ms)
  end.

Definition average_confidence (mappings : list Mapping) : Q :=
  round2 (float_tie_up E)
    (sum_confidence mappings / inject_Z (Z.of_nat (Nat.max (count_mapped mappings) 1)))%Q.

Definition suggest_column_mappings (source_table target_table : string)
  (w : World) : outcome (reply SuggestResult) * World :=
  match source_schema (state w), target_schema (state w) with
  | Some source_schema, Some target_schema =>
      match find_columns (tables source_schema) source_table with
      | Some ((_ :: _) as source_cols) =>
          match find_columns (tables target_schema) target_table with
          | Some ((_ :: _) as target_cols) =>
              match build_mappings source_cols target_cols with
              | Raised e => (Raised e, w)
              | Returned mappings =>
                  let avg := average_confidence mappings in
                  let '(is_valid, error_msg, hallucinated) :=
                    validate_mapping_output E mappings
                      (dict_keys source_cols) (dict_keys target_cols) in
                  let w1 :=
                    if is_valid then w
                    else log_audit_event "MAPPING" "HALLUCINATION_PREVENTED"
                           [("source_table", PStr source_table);
                            ("target_table", PStr target_table);
                            ("hallucinated", PList (map PStr hallucinated))]
                           "HIGH" w in
                  let confidence_analysis :=
                    validate_confidence_threshold E mappings in
                  let risk_assessment :=
                    generate_risk_assessment E "MAPPING_SUGGEST"
                      [("average_confidence", PFloat avg);
                       ("unmapped_count", pint (count_unmapped mappings))] in
                  let result :=
                    {| r_source_table := source_table;
                       r_target_table := target_table;
                       r_mappings := mappings;
                       r_mapping_count := count_mapped mappings;
                       r_unmapped_count := count_unmapped mappings;
                       r_average_confidence := avg;
                       r_validation_error :=
                         if is_valid then None else Some error_msg;
                       r_hallucinated_columns :=
                         if is_valid then None else Some hallucinated;
                       r_explanations :=
                         map (generate_mapping_explanation E) mappings;
                       r_confidence_analysis := confidence_analysis;
                       r_recommendation := recommendation confidence_analysis;
                       r_risk_assessment := risk_assessment |} in
                  let w2 :=
                    log_audit_event "MAPPING" "MAPPINGS_SUGGESTED"
                      [("source_table", PStr source_table);
                       ("target_table", PStr target_table);
                       ("mapping_count", pint (r_mapping_count result));
                       ("avg_confidence", PFloat avg);
                       ("recommendation", r_recommendation result)]
                      (risk_level risk_assessment) w1 in
                  let suggested := store_of (suggested_mappings (state w2)) in
                  (Returned (Result result),
                   set_state
                     (with_suggested
                        (<[mapping_key source_table target_table := result]> suggested)
                        (state w2)) w2)
              end
          | _ =>
              (Returned (Error
                 [("error", PStr ("Target table '" ++ target_table
                                  ++ "' not found in schema."))]), w)
          end
      | _ =>
          (Returned (Error
             [("error", PStr ("Source table '" ++ source_table
                              ++ "' not found in schema."))]), w)
      end
  | _, _ =>
      (Returned (Error
         [("error", PStr "Schema information not available. Run get_source_schema and get_target_schema first.");
          ("source_table", PStr source_table);
          ("target_table", PStr target_table)]), w)
  end.

(** Rows of the table shown to the reviewer. *)
Definition review_row (m : Mapping) : pyval :=
  PDict
    [("target", PStr (target_column m));
     ("source", PStr (Py.or_else (source_column m) "(unmapped)"));
     ("confidence",
      PStr (if Qeq_bool (confidence m) 0 then "N/A"
            else format_percent (float_tie_up E) (confidence m) ++ "%"));
     ("transform", PStr (Py.or_else (transformation m) "direct"));
     ("status", PStr (status m))].

(** The arrow of the review title, in UTF-8. *)
Definition arrow : string :=
  String (ascii_of_nat 226) (String (ascii_of_nat 134)
    (String (ascii_of_nat 146) EmptyString)).

Definition confirmation_payload (source_table target_table : string)
  (mapping_data : SuggestResult) : pydict :=
  let risk_assessment :=
    generate_risk_assessment E "MAPPING_APPROVE"
      [("average_confidence", PFloat (r_average_confidence mapping_data));
       ("unmapped_count", pint (r_unmapped_count mapping_data))] in
  [("title", PStr ("Column Mapping Approval: " ++ source_table ++ " " ++ arrow
                   ++ " " ++ target_table));
   ("summary",
    PDict
      [("total_columns", pint (length (r_mappings mapping_data)));
       ("mapped", pint (r_mapping_count mapping_data));
       ("unmapped", pint (r_unmapped_count mapping_data));
       ("avg_confidence",
        PStr (format_percent (float_tie_up E) (r_average_confidence mapping_data)
              ++ "%"))]);
   ("risk_assessment",
    PDict
      [("risk_level", PStr (risk_level risk_assessment));
       ("risk_factors", risk_factors risk_assessment);
       ("mitigations", mitigations risk_assessment);
       ("recommendation", risk_recommendation risk_assessment)]);
   ("confidence_analysis",
    PDict (("recommendation", recommendation (r_confidence_analysis mapping_data))
           :: analysis_detail (r_confidence_analysis mapping_data)));
   ("mappings", PList (map review_row (r_mappings mapping_data)));
   ("explanations", PList (r_explanations mapping_data))].

Definition approval_hint : string :=
  "Review the proposed column mappings below. Approve to proceed with SQL generation, or reject to modify mappings.".

(** [request_confirmation] is the method of the tool context that puts
    the payload before the reviewer and returns the decision. *)
Definition approve_mappings (request_confirmation : string -> pydict -> bool)
  (source_table target_table : string) (w : World)
  : outcome (reply pydict) * World :=
  let suggested := store_of (suggested_mappings (state w)) in
  let key := mapping_key source_table target_table in
  match suggested !! key with
  | None =>
      (Returned (Error
         [("error", PStr ("No suggested mappings found for " ++ source_table
                          ++ " -> " ++ target_table
                          ++ ". Run suggest_column_mappings first."));
          ("source_table", PStr source_table);
          ("target_table", PStr target_table)]), w)
  | Some mapping_data =>
      let approved :=
        request_confirmation approval_hint
          (confirmation_payload source_table target_table mapping_data) in
      if approved then
        let approved_store := store_of (approved_mappings (state w)) in
        let w1 :=
          set_state (with_approved (<[key := mapping_data]> approved_store)
                       (state w)) w in
        let w2 :=
          log_audit_event "MAPPING" "MAPPINGS_APPROVED"
            [("source_table", PStr source_table);
             ("target_table", PStr target_table);
             ("mapping_count", pint (r_mapping_count mapping_data));
             ("avg_confidence", PFloat (r_average_confidence mapping_data))]
            "LOW" w1 in
        (Returned (Result
           [("status", PStr "approved");
            ("source_table", PStr source_table);
            ("target_table", PStr target_table);
            ("mapping_count", pint (r_mapping_count mapping_data));
            ("message", PStr "Mappings approved. Ready to generate transformation SQL.");
            ("audit_trail", PStr ("Approved at " ++ utcnow_isoformat E))]), w2)
      else
        let w1 :=
          log_audit_event "MAPPING" "MAPPINGS_REJECTED"
            [("source_table", PStr source_table);
             ("target_table", PStr target_table)]
            "LOW" w in
        (Returned (Result
           [("status", PStr "rejected");
            ("source_table", PStr source_table);
            ("target_table", PStr target_table);
            ("message", PStr "Mappings rejected. Please provide feedback for adjustments.");
            ("audit_trail", PStr ("Rejected at " ++ utcnow_isoformat E))]), w1)
  end.

(** One entry of [select_columns]. *)
Definition select_column (m : Mapping) : string :=
  if Py.truthy (source_column m) then
    if Py.truthy (transformation m) then
      let expr :=
        Py.replace (fmt_opt (transformation m)) "{source}" (fmt_opt (source_column m)) in
      "  " ++ expr ++ " AS " ++ target_column m
    else "  " ++ fmt_opt (source_column m) ++ " AS " ++ target_column m
  else "  NULL AS " ++ target_column m.

Definition select_clause (mappings : list Mapping) : string :=
  Py.join ("," ++ Py.nl) (map select_column mappings).

Definition qualified (dataset table : string) : string :=
  "`" ++ fmt_opt env_project_id ++ "." ++ dataset ++ "." ++ table ++ "`".

Definition source_dataset : string :=
  environ_get "BQ_DATASET_SOURCE" "commercial_lending_source".

Definition target_dataset : string :=
  environ_get "BQ_DATASET_TARGET" "commercial_lending_target".

(** The f-string [sql]. *)
Definition insert_text (source_table target_table : string)
  (mapping_data : SuggestResult) : string :=
  "-- Generated transformation: " ++ source_table ++ " -> " ++ target_table ++ Py.nl
  ++ "-- Generated at: {timestamp}" ++ Py.nl
  ++ "-- Mapping confidence: "
  ++ format_percent (float_tie_up E) (r_average_confidence mapping_data) ++ "%" ++ Py.nl
  ++ Py.nl
  ++ "INSERT INTO " ++ qualified target_dataset target_table ++ Py.nl
  ++ "SELECT" ++ Py.nl
  ++ select_clause (r_mappings mapping_data) ++ Py.nl
  ++ "FROM " ++ qualified source_dataset source_table ++ ";" ++ Py.nl.

(** [mapping_data['mappings'][0]['target_column']]; an empty list raises
    [IndexError]. *)
Definition merge_key (mapping_data : SuggestResult) : outcome string :=
  match r_mappings mapping_data with
  | m :: _ => Returned (target_column m)
  | [] => Raised "IndexError"
  end.

(** The f-string [merge_sql]. *)
Definition merge_text (source_table target_table : string)
  (mapping_data : SuggestResult) : outcome string :=
  let mappings := r_mappings mapping_data in
  do key <- merge_key mapping_data;
  Returned
    ("-- MERGE transformation: " ++ source_table ++ " -> " ++ target_table ++ Py.nl
     ++ "-- Use this for incremental updates" ++ Py.nl
     ++ Py.nl
     ++ "MERGE " ++ qualified target_dataset target_table ++ " AS target" ++ Py.nl
     ++ "USING (" ++ Py.nl
     ++ "  SELECT" ++ Py.nl
     ++ select_clause mappings ++ Py.nl
     ++ "  FROM " ++ qualified source_dataset source_table ++ Py.nl
     ++ ") AS source" ++ Py.nl
     ++ "ON target." ++ key ++ " = source." ++ key ++ Py.nl
     ++ "WHEN MATCHED THEN" ++ Py.nl
     ++ "  UPDATE SET "
     ++ Py.join ", "
          (map (fun m => "target." ++ target_column m ++ " = source." ++ target_column m)
               (List.filter is_mapped mappings)) ++ Py.nl
     ++ "WHEN NOT MATCHED THEN" ++ Py.nl
     ++ "  INSERT (" ++ Py.join ", " (map target_column mappings) ++ ")" ++ Py.nl
     ++ "  VALUES ("
     ++ Py.join ", " (map (fun m => "source." ++ target_column m) mappings)
     ++ ");" ++ Py.nl)%string.

Definition generate_transformation_sql (source_table target_table : string)
  (w : World) : outcome (reply GeneratedSql) * World :=
  let approved := store_of (approved_mappings (state w)) in
  let key := mapping_key source_table target_table in
  match approved !! key with
  | None =>
      (Returned (Error
         [("error", PStr ("No approved mappings found for " ++ source_table
                          ++ " -> " ++ target_table
                          ++ ". Run approve_mappings first."));
          ("source_table", PStr source_table);
          ("target_table", PStr target_table)]), w)
  | Some mapping_data =>
      let sql := insert_text source_table target_table mapping_data in
      match merge_text source_table target_table mapping_data with
      | Raised e => (Raised e, w)
      | Returned merge =>
          let '(sql_valid, sql_error, warnings) := validate_sql_query E sql in
          if negb sql_valid then
            (Returned (Error
               [("status", PStr "error");
                ("source_table", PStr source_table);
                ("target_table", PStr target_table);
                ("error", PStr sql_error);
                ("message", PStr "Generated SQL failed validation. Please review mappings.")]),
             log_audit_event "SQL_GENERATION" "INVALID_SQL_BLOCKED"
               [("error", PStr sql_error); ("sql_preview", PStr (Py.take 200 sql))]
               "HIGH" w)
          else
            let result :=
              {| g_source_table := source_table;
                 g_target_table := target_table;
                 insert_sql := sql;
                 merge_sql := merge;
                 column_count := length (r_mappings mapping_data);
                 mapped_count := r_mapping_count mapping_data;
                 sql_warnings := warnings;
                 g_risk_assessment :=
                   generate_risk_assessment E "SQL_EXECUTE"
                     [("source_table", PStr source_table);
                      ("target_table", PStr target_table)];
                 generated_at := utcnow_isoformat E |} in
            let w1 :=
              log_audit_event "SQL_GENERATION" "SQL_GENERATED"
                [("source_table", PStr source_table);
                 ("target_table", PStr target_table);
                 ("column_count", pint (column_count result));
                 ("warnings_count", pint (length warnings))]
                "MEDIUM" w in
            let generated := store_of (generated_sql (state w1)) in
            (Returned (Result result),
             set_state (with_generated (<[key := result]> generated) (state w1)) w1)
      end
  end.

(** What the warehouse reports for a query job. *)
Record Job := {
  total_bytes_processed : pyval;
  num_dml_affected_rows : pyval;
  job_id : pyval
}.

(** [client] is what [bigquery.Client(project=project_id)] did, after
    the check for generated SQL and before the [try]: it raised, or it
    gave a client whose [query sql dry_run] is what the [try] block met,
    the text of the exception raised by the warehouse or the job. *)
Definition execute_transformation
  (client : outcome (string -> bool -> string + Job))
  (source_table target_table : string) (dry_run : bool) (w : World)
  : outcome (reply pydict) * World :=
  let generated := store_of (generated_sql (state w)) in
  let key := mapping_key source_table target_table in
  match generated !! key with
  | None =>
      (Returned (Error
         [("error", PStr ("No generated SQL found for " ++ source_table
                          ++ " -> " ++ target_table
                          ++ ". Run generate_transformation_sql first."));
          ("source_table", PStr source_table);
          ("target_table", PStr target_table)]), w)
  | Some sql_data =>
    match client with
    | Raised exn => (Raised exn, w)
    | Returned client_query =>
      let sql := Py.replace (insert_sql sql_data) "{timestamp}" "NOW()" in
      match client_query sql dry_run with
      | inr query_job =>
          if dry_run then
            (Returned (Result
               [("status", PStr "validated");
                ("source_table", PStr source_table);
                ("target_table", PStr target_table);
                ("bytes_processed", total_bytes_processed query_job);
                ("message", PStr "SQL validated successfully. Set dry_run=False to execute.");
                ("risk_note", PStr "Dry run completed - no data was modified")]),
             log_audit_event "SQL_EXECUTION" "SQL_VALIDATED"
               [("source_table", PStr source_table);
                ("target_table", PStr target_table);
                ("bytes_processed", total_bytes_processed query_job)]
               "LOW" w)
          else
            (Returned (Result
               [("status", PStr "executed");
                ("source_table", PStr source_table);
                ("target_table", PStr target_table);
                ("rows_affected", num_dml_affected_rows query_job);
                ("job_id", job_id query_job);
                ("message", PStr "Transformation executed successfully.");
                ("executed_at", PStr (utcnow_isoformat E))]),
             log_audit_event "SQL_EXECUTION" "SQL_EXECUTED"
               [("source_table", PStr source_table);
                ("target_table", PStr target_table);
                ("rows_affected", num_dml_affected_rows query_job);
                ("job_id", job_id query_job)]
               "HIGH" w)
      | inl e =>
          (Returned (Error
             [("status", PStr "error");
              ("source_table", PStr source_table);
              ("target_table", PStr target_table);
              ("error", PStr e);
              ("error_time", PStr (utcnow_isoformat E))]),
           log_audit_event "SQL_EXECUTION" "SQL_ERROR"
             [("source_table", PStr source_table);
              ("target_table", PStr target_table);
              ("error", PStr e)]
             "HIGH" w)
      end
    end
  end.

End Tools.

(** ** A concrete session *)

(** An environment without process variables whose guardrails accept
    everything and report nothing. *)
Definition quiet_env : Env :=
  {| environ := fun _ => None;
     utcnow_isoformat := "2025-01-01T00:00:00";
     float_tie_up := fun _ => false;
     validate_mapping_output := fun _ _ _ => (true, EmptyString, []);
     generate_mapping_explanation := fun _ => PNone;
     validate_confidence_threshold :=
       fun _ => {| recommendation := PNone; analysis_detail := [] |};
     generate_risk_assessment :=
       fun _ _ => {| risk_level := "LOW"; risk_factors := PList [];
                     mitigations := PList []; risk_recommendation := PNone |};
     validate_sql_query := fun _ => (true, EmptyString, []) |}.

Definition always (b : bool) (hint : string) (p : pydict) : bool := b.

Definition row (t c ty : string) (pos : Z) : Row :=
  {| row_table_name := t; row_column_name := c; row_data_type := ty;
     row_is_nullable := "YES"; row_ordinal_position := pos |}.

(** [cust_src(cust_id INT64, cust_name STRING)] *)
Definition cust_src_rows : list Row :=
  [row "cust_src" "cust_id" "INT64" 1; row "cust_src" "cust_name" "STRING" 2].

(** [customer(customer_id INT64, customer_name STRING, customer_status STRING)] *)
Definition customer_rows : list Row :=
  [row "customer" "customer_id" "INT64" 1;
   row "customer" "customer_name" "STRING" 2;
   row "customer" "customer_status" "STRING" 3].

Definition load (E : Env) (source_rows target_rows : list Row) : World :=
  snd (get_target_schema E "tgt" (Returned (inr target_rows))
         (snd (get_source_schema E "src" (Returned (inr source_rows)) initial_world))).

Definition customer_world (E : Env) : World := load E cust_src_rows customer_rows.

(** ** Statements about the inference *)

Definition candidate_scores : list Q :=
  [0.95; 0.95 - 0.1; 0.75; 0.75 - 0.1; 0.60; 0.60 - 0.1]%Q.

Definition score (tn : string) (tc : Column) (item : string * Column)
  : option (Q * option string) :=
  candidate (fst item) (snd item) tn tc.

(** What the inner loop has chosen after the source columns [l]: nothing
    when no column qualifies, otherwise the first column whose score no
    other column exceeds. *)
Inductive selects (tn : string) (tc : Column) (l : list (string * Column))
  : best -> Prop :=
| selects_none :
    Forall (fun x => score tn tc x = None) l ->
    selects tn tc l no_match
| selects_first l1 item l2 c tr :
    l = l1 ++ item :: l2 ->
    score tn tc item = Some (c, tr) ->
    (forall x c' tr', In x l1 -> score tn tc x = Some (c', tr') -> (c' < c)%Q) ->
    (forall x c' tr', In x l2 -> score tn tc x = Some (c', tr') -> (c' <= c)%Q) ->
    selects tn tc l (Some (fst item), c, tr).

(** The dict [mapping] of one target column, in terms of the scores of
    the source columns. *)
Inductive kept (source_cols : list (string * Column)) (target : string * Column)
  (m : Mapping) : Prop :=
| kept_unmapped :
    Forall (fun x => score (fst target) (snd target) x = None) source_cols ->
    source_column m = None ->
    source_type m = None ->
    confidence m = 0.00%Q ->
    transformation m = None ->
    status m = "unmapped" ->
    kept source_cols target m
| kept_best l1 item l2 c tr :
    source_cols = l1 ++ item :: l2 ->
    score (fst target) (snd target) item = Some (c, tr) ->
    (forall x c' tr', In x l1 ->
       score (fst target) (snd target) x = Some (c', tr') -> (c' < c)%Q) ->
    (forall x c' tr', In x l2 ->
       score (fst target) (snd target) x = Some (c', tr') -> (c' <= c)%Q) ->
    source_column m = Some (fst item) ->
    (confidence m == c)%Q ->
    transformation m = tr ->
    kept source_cols target m.

(** The dict [mapping] appended for the target column [target]. *)
Definition inferred (source_cols : list (string * Column))
  (target : string * Column) (m : Mapping) : Prop :=
  target_column m = fst target
  /\ target_type m = col_type (snd target)
  /\ kept source_cols target m.

(** [ledger_src(amount FLOAT64)] and [ledger(amount NUMERIC)] *)
Definition ledger_world (E : Env) : World :=
  load E [row "ledger_src" "amount" "FLOAT64" 1] [row "ledger" "amount" "NUMERIC" 1].

(** [orders_src(order_no INT64, total NUMERIC, cust_id INT64)] and
    [orders(order_no INT64, total NUMERIC, customer_id INT64)] *)
Definition orders_world (E : Env) : World :=
  load E
    [row "orders_src" "order_no" "INT64" 1; row "orders_src" "total" "NUMERIC" 2;
     row "orders_src" "cust_id" "INT64" 3]
    [row "orders" "order_no" "INT64" 1; row "orders" "total" "NUMERIC" 2;
     row "orders" "customer_id" "INT64" 3].

(** [events_src(user_id INT64)] and [events(event_ts TIMESTAMP, user_id INT64)],
    suggested and approved. *)
Definition events_world (E : Env) : World :=
  load E
    [row "events_src" "user_id" "INT64" 1]
    [row "events" "event_ts" "TIMESTAMP" 1; row "events" "user_id" "INT64" 2].

Definition events_approved (E : Env) : World :=
  snd (approve_mappings E (always true) "events_src" "events"
         (snd (suggest_column_mappings E "events_src" "events" (events_world E)))).

(** Source tables [usd] and [usd_to_eur], target tables [eur_to_gbp] and
    [gbp]. *)
Definition rates_world (E : Env) : World :=
  load E
    [row "usd" "rate" "FLOAT64" 1;
     row "usd_to_eur" "rate" "FLOAT64" 1; row "usd_to_eur" "day" "DATE" 2]
    [row "eur_to_gbp" "rate" "FLOAT64" 1;
     row "gbp" "rate" "FLOAT64" 1; row "gbp" "day" "DATE" 2].

(** [s(id STRING, customer INT64)] and [t(customer_id INT64)]: both
    source columns are contained in the name of the target column. *)
Definition tie_world (E : Env) : World :=
  load E
    [row "s" "id" "STRING" 1; row "s" "customer" "INT64" 2]
    [row "t" "customer_id" "INT64" 1].

(** The confidence by which a qualifying source column is ranked: the
    confidence [rc] of its rule, less 0.1 when its declared type is not
    the declared type of the target column. *)
Definition adjusted (rc : Q) (source_col target_col : Column) : Q :=
  if String.eqb (col_type source_col) (col_type target_col)
  then rc else (rc - 0.1)%Q.

(** The dict [mapping] of one target column, in terms of the rule
    cascade and the declared types: unmapped when the cascade gives no
    source column a confidence, otherwise the first source column whose
    adjusted confidence no other source column exceeds. *)
Inductive keeps_best (source_cols : list (string * Column))
  (target : string * Column) (m : Mapping) : Prop :=
| keeps_none :
    Forall (fun x => rule_confidence (fst x) (fst target) = None) source_cols ->
    source_column m = None ->
    confidence m = 0.00%Q ->
    transformation m = None ->
    status m = "unmapped" ->
    keeps_best source_cols target m
| keeps_first l1 item l2 rc :
    source_cols = l1 ++ item :: l2 ->
    rule_confidence (fst item) (fst target) = Some rc ->
    (forall x rc', In x l1 ->
       rule_confidence (fst x) (fst target) = Some rc' ->
       (adjusted rc' (snd x) (snd target) < adjusted rc (snd item) (snd target))%Q) ->
    (forall x rc', In x l2 ->
       rule_confidence (fst x) (fst target) = Some rc' ->
       (adjusted rc' (snd x) (snd target) <= adjusted rc (snd item) (snd target))%Q) ->
    source_column m = Some (fst item) ->
    (confidence m == adjusted rc (snd item) (snd target))%Q ->
    keeps_best source_cols target m.

(** The customer scenario after suggestion and approval. *)
Definition customer_approved (E : Env) : World :=
  snd (approve_mappings E (always true) "cust_src" "customer"
         (snd (suggest_column_mappings E "cust_src" "customer" (customer_world E)))).

(** The unrounded average: the sum of the confidences of the mapped
    candidates over [max(mapped_count, 1)]. *)
Definition mean_confidence (mappings : list Mapping) : Q :=
  (sum_confidence mappings
   / inject_Z (Z.of_nat (Nat.max (count_mapped mappings) 1)))%Q.

(** The error dict names both tables. *)
Definition carries_tables (d : pydict) (source_table target_table : string) : Prop :=
  dict_get "source_table" d = Some (PStr source_table)
  /\ dict_get "target_table" d = Some (PStr target_table).

(** The target column of the first mapped candidate. *)
Definition first_mapped_target (mappings : list Mapping) : option string :=
  option_map target_column (List.find is_mapped mappings).

(** One tool call, with whatever the warehouse or the reviewer answers. *)
Inductive step (E : Env) : World -> World -> Prop :=
| step_get_source_schema dataset answer w :
    step E w (snd (get_source_schema E dataset answer w))
| step_get_target_schema dataset answer w :
    step E w (snd (get_target_schema E dataset answer w))
| step_suggest source_table target_table w :
    step E w (snd (suggest_column_mappings E source_table target_table w))
| step_approve confirm source_table target_table w :
    step E w (snd (approve_mappings E confirm source_table target_table w))
| step_generate source_table target_table w :
    step E w (snd (generate_transformation_sql E source_table target_table w))
| step_execute client source_table target_table dry_run w :
    step E w (snd (execute_transformation E client source_table target_table
                     dry_run w)).

(** The worlds a session can be in. *)
Inductive reachable (E : Env) : World -> Prop :=
| reachable_initial : reachable E initial_world
| reachable_step w w' : reachable E w -> step E w w' -> reachable E w'.

(** Every stored mapping set has at least one candidate and no target
    column twice. *)
Definition well_formed_sets (store : gmap string SuggestResult) : Prop :=
  forall k r, store !! k = Some r ->
    r_mappings r <> [] /\ List.NoDup (map target_column (r_mappings r)).

(** ** Statements about the further properties *)

(** The rows of the metadata query that belong to one table. *)
Definition rows_of (name : string) (rows : list Row) : list Row :=
  List.filter (fun r => String.eqb (row_table_name r) name) rows.

(** What the grouping loop holds after the rows [done]. *)
Definition grouped (d : list (string * Table)) (done : list Row) : Prop :=
  List.NoDup (dict_keys d)
  /\ (forall k t, In (k, t) d ->
        table_name t = k
        /\ columns t = map column_of_row (rows_of k done)
        /\ columns t <> [])
  /\ (forall r, In r done -> In (row_table_name r) (dict_keys d)).

(** The two names exchanged. *)
Definition swap_names (n : string * string) : string * string := (snd n, fst n).

(** An environment whose SQL check rejects every statement. *)
Definition strict_env : Env :=
  {| environ := environ quiet_env;
     utcnow_isoformat := utcnow_isoformat quiet_env;
     float_tie_up := float_tie_up quiet_env;
     validate_mapping_output := validate_mapping_output quiet_env;
     generate_mapping_explanation := generate_mapping_explanation quiet_env;
     validate_confidence_threshold := validate_confidence_threshold quiet_env;
     generate_risk_assessment := generate_risk_assessment quiet_env;
     validate_sql_query := fun _ => (false, "Only one INSERT statement is allowed", []) |}.

(** The customer scenario with SQL generated. *)
Definition customer_generated (E : Env) : World :=
  snd (generate_transformation_sql E "cust_src" "customer" (customer_approved E)).

(** A warehouse that accepts every query. *)
Definition willing_warehouse (sql : string) (dry_run : bool) : string + Job :=
  inr {| total_bytes_processed := PInt 2048;
         num_dml_affected_rows := if dry_run then PNone else PInt 3;
         job_id := PStr "job_1" |}.

(** ** The token authentication of [server.py] *)

Module Server.

(** What the middleware reads of a request. *)
Record Request := {
  path : string;
  header_token : option string;
  query_token : option string;
  cookie_token : option string;
  accept : option string
}.

(** What the middleware answers: the response of the wrapped
    application, or one of its own two 401 responses. *)
Inductive Response :=
| Forwarded
| Unauthorized_json
| Unauthorized_html.

Definition EXCLUDED_PATHS : list string :=
  ["/"; "/auth/login"; "/auth/check"; "/favicon.ico"].

(** [generate_token]; [fresh] is what [secrets.token_urlsafe(32)] drew. *)
Definition generate_token (fresh : string) (valid_tokens : gset string)
  : string * gset string :=
  (fresh, {[fresh]} ∪ valid_tokens).

Definition validate_token (token : string) (valid_tokens : gset string) : bool :=
  bool_decide (token ∈ valid_tokens).

(** [a] when it is truthy, else [b]: the chain of [if not token]. *)
Definition or_next (a b : option string) : option string :=
  if Py.truthy a then a else b.

Definition authorized (token : option string) (valid_tokens : gset string) : bool :=
  Py.truthy token && validate_token (fmt_opt token) valid_tokens.

(** [AuthMiddleware.dispatch] *)
Definition dispatch (request : Request) (valid_tokens : gset string) : Response :=
  if existsb (String.eqb (path request)) EXCLUDED_PATHS then Forwarded
  else
    let token := header_token request in
    let token := or_next token (query_token request) in
    let token := or_next token (cookie_token request) in
    if authorized token valid_tokens then Forwarded
    else if Py.startswith (path request) "/api"
            || match accept request with
               | Some a => String.eqb a "application/json"
               | None => false
               end
         then Unauthorized_json
         else Unauthorized_html.

(** The handler of [/auth/login]: the token, also set as cookie, or the
    [HTTPException] of status 401. *)
Definition login (APP_PASSWORD fresh : string) (password : option string)
  (valid_tokens : gset string) : outcome string * gset string :=
  let password := match password with Some p => p | None => EmptyString end in
  if String.eqb password APP_PASSWORD
  then let '(token, valid_tokens) := generate_token fresh valid_tokens in
       (Returned token, valid_tokens)
  else (Raised "HTTPException(401)", valid_tokens).

(** The handler of [/auth/check]. *)
Definition check_auth (request : Request) (valid_tokens : gset string) : bool :=
  authorized (or_next (header_token request) (cookie_token request)) valid_tokens.

(** The handler of [/auth/logout]: the token store afterwards. *)
Definition logout (request : Request) (valid_tokens : gset string) : gset string :=
  let token := cookie_token request in
  if Py.truthy token && bool_decide (fmt_opt token ∈ valid_tokens)
  then valid_tokens ∖ {[fmt_opt token]}
  else valid_tokens.

(** A request that carries [token] in one of the three places. *)
Definition carries (request : Request) (token : string) : Prop :=
  header_token request = Some token
  \/ query_token request = Some token
  \/ cookie_token request = Some token.

End Server.

(** ** The folder download of [fetch_data.py] *)

Module Fetch.

(** [gcs_folder if gcs_folder.endswith('/') else gcs_folder + '/'] *)
Definition folder_prefix (gcs_folder : string) : string :=
  if Py.endswith gcs_folder "/" then gcs_folder else (gcs_folder ++ "/")%string.

(** [blob.name[len(prefix):]] when the name starts with the prefix. *)
Definition relative_path (prefix name : string) : string :=
  if Py.startswith name prefix then Py.drop (String.length prefix) name else name.

(** [os.path.join(a, b)] of [posixpath]. *)
Definition path_join (a b : string) : string :=
  if Py.startswith b "/" then b
  else if String.eqb a EmptyString || Py.endswith a "/" then (a ++ b)%string
  else (a ++ "/" ++ b)%string.

Definition is_slash (c : ascii) : bool := Ascii.eqb c "/".

(** [p[:p.rfind('/') + 1]] *)
Fixpoint head_of (p : string) : string :=
  match p with
  | EmptyString => EmptyString
  | String c rest =>
      match head_of rest with
      | EmptyString => if is_slash c then String c EmptyString else EmptyString
      | h => String c h
      end
  end.

(** [head == '/' * len(head)] *)
Fixpoint all_slashes (s : string) : bool :=
  match s with
  | EmptyString => true
  | String c rest => is_slash c && all_slashes rest
  end.

(** [head.rstrip('/')] *)
Fixpoint rstrip_slashes (s : string) : string :=
  match s with
  | EmptyString => EmptyString
  | String c rest =>
      match rstrip_slashes rest with
      | EmptyString => if is_slash c then EmptyString else String c EmptyString
      | r => String c r
      end
  end.

(** [os.path.dirname(p)] of [posixpath]. *)
Definition dirname (p : string) : string :=
  let head := head_of p in
  if negb (String.eqb head EmptyString) && negb (all_slashes head)
  then rstrip_slashes head
  else head.

(** [os.path.join(local_folder, relative_path)] for the blob [name]. *)
Definition local_path_of (prefix local_folder name : string) : string :=
  path_join local_folder (relative_path prefix name).

(** The loop [for blob in blobs] inside the [try].  [done] holds the
    downloads completed so far, blob name and local path.
    [os.makedirs('', exist_ok=True)] raises [FileNotFoundError]; whether
    [os.makedirs] of another directory or [blob.download_to_filename]
    raises is up to the file system and the network, which [raises]
    stands for: it is asked with the downloads done so far.  An exception
    ends the loop in the [except] clause, which returns [False]. *)
Fixpoint download_loop (prefix local_folder : string)
  (raises : list (string * string) -> string -> string -> bool)
  (done : list (string * string)) (blobs : list string)
  : list (string * string) * bool :=
  match blobs with
  | [] => (done, true)
  | name :: rest =>
      if Py.endswith name "/" then download_loop prefix local_folder raises done rest
      else
        let local_path := local_path_of prefix local_folder name in
        if String.eqb (dirname local_path) EmptyString || raises done name local_path
        then (done, false)
        else download_loop prefix local_folder raises
               (done ++ [(name, local_path)]) rest
  end.

(** [download_folder]: the downloads completed and the value returned.
    [listing] is what [list(bucket.list_blobs(prefix=prefix))] gave, the
    blob names in order, or [None] when the listing raised, which the
    [except] clause turns into [False]. *)
Definition download_folder (gcs_folder local_folder : string)
  (listing : option (list string))
  (raises : list (string * string) -> string -> string -> bool)
  : list (string * string) * bool :=
  let prefix := folder_prefix gcs_folder in
  match listing with
  | None => ([], false)
  | Some [] => ([], false)
  | Some blobs => download_loop prefix local_folder raises [] blobs
  end.

(** The downloads of a run that meets no exception. *)
Definition planned (prefix local_folder : string) (blobs : list string)
  : list (string * string) :=
  map (fun name => (name, local_path_of prefix local_folder name))
    (List.filter (fun name => negb (Py.endswith name "/")) blobs).

End Fetch.

(** A request for the agent API with a stale header token and a cookie. *)
Definition stale_header_request : Server.Request :=
  {| Server.path := "/api/run";
     Server.header_token := Some "old";
     Server.query_token := None;
     Server.cookie_token := Some "tok1";
     Server.accept := None |}.

(** A request whose cookie holds the token [tok1]. *)
Definition cookie_request : Server.Request :=
  {| Server.path := "/auth/logout";
     Server.header_token := None;
     Server.query_token := None;
     Server.cookie_token := Some "tok1";
     Server.accept := None |}.

(** The first list continued by at most two more events. *)
Definition extended_by (before after : list AuditEvent) : Prop :=
  exists more, after = before ++ more /\ length more <= 2.

(** What holds of every mapping set that [suggest_column_mappings]
    returns, and so of every stored one. *)
Definition sound_set (r : SuggestResult) : Prop :=
  r_mappings r <> []
  /\ r_mapping_count r = count_mapped (r_mappings r)
  /\ r_mapping_count r + r_unmapped_count r = length (r_mappings r)
  /\ (0 <= r_average_confidence r <= 1)%Q
  /\ forall m, In m (r_mappings r) ->
       (0 <= confidence m <= 1)%Q
       /\ (status m = "suggested" <-> is_mapped m = true).

(** The keys of the first store are keys of the second. *)
Definition keys_within {A B} (inner : gmap string A) (outer : gmap string B) : Prop :=
  forall k, is_Some (inner !! k) -> is_Some (outer !! k).

(** ** The rule cascade and the choice of the best source column *)

Example similar_cust_id : _similar_names "cust_id" "customer_id" = true.
Proof. reflexivity. Qed.

Example similar_cust_name : _similar_names "cust_name" "customer_name" = false.
Proof. reflexivity. Qed.

Example similar_inner : _similar_names "order_src_total" "order_total" = true.
Proof. reflexivity. Qed.

Example spec_similar_inner : spec_similar_names "order_src_total" "order_total" = false.
Proof. reflexivity. Qed.



Lemma rule_confidence_values s t c :
  rule_confidence s t = Some c -> c = 0.95%Q \/ c = 0.75%Q \/ c = 0.60%Q.
Proof.
  unfold rule_confidence.
  destruct (String.eqb _ _); [intros [= <-]; auto |].
  destruct (_ || _); [intros [= <-]; auto |].
  destruct (_similar_names s t); [intros [= <-]; auto | discriminate].
Qed.

Lemma candidate_in_scores sn sc tn tc c tr :
  candidate sn sc tn tc = Some (c, tr) -> In c candidate_scores.
Proof.
  unfold candidate.
  destruct (rule_confidence sn tn) as [r|] eqn:Hr; [| discriminate].
  apply rule_confidence_values in Hr.
  destruct (negb _); intros [= <- <-];
    destruct Hr as [-> | [-> | ->]]; simpl; tauto.
Qed.

Lemma scores_positive c : In c candidate_scores -> (0 < c)%Q /\ (c <= 0.95)%Q.
Proof.
  simpl. intros H.
  repeat (destruct H as [<- | H]; [split; reflexivity || discriminate |]).
  destruct H.
Qed.

Lemma round2_scores tie c : In c candidate_scores -> (round2 tie c == c)%Q.
Proof.
  simpl. intros H.
  repeat (destruct H as [<- | H]; [vm_compute; reflexivity |]).
  destruct H.
Qed.

Lemma round2_zero tie : round2 tie 0 = 0.00%Q.
Proof. reflexivity. Qed.



Lemma Qgt_bool_true a b : Qgt_bool a b = true <-> (b < a)%Q.
Proof.
  unfold Qgt_bool. rewrite negb_true_iff, <- not_true_iff_false, Qle_bool_iff.
  split; [apply Qnot_le_lt | apply Qlt_not_le].
Qed.

Lemma Qgt_bool_false a b : Qgt_bool a b = false <-> (a <= b)%Q.
Proof.
  unfold Qgt_bool. rewrite negb_false_iff. apply Qle_bool_iff.
Qed.

Lemma selects_step tn tc l acc x :
  selects tn tc l acc -> selects tn tc (l ++ [x]) (best_step tn tc acc x).
Proof.
  intros Hsel. unfold best_step.
  destruct acc as [[bm bc] btr].
  change (candidate (fst x) (snd x) tn tc) with (score tn tc x).
  destruct (score tn tc x) as [[c' tr']|] eqn:Hx.
  - assert (Hpos : (0 < c')%Q).
    { apply (scores_positive c'). eapply candidate_in_scores. exact Hx. }
    destruct (Qgt_bool c' bc) eqn:Hgt.
    + apply Qgt_bool_true in Hgt.
      apply (selects_first tn tc _ l x [] c' tr'); auto.
      * inversion Hsel as [Hall | l1 item l2 c tr Hl Hit Hlt Hle]; subst.
        -- intros y cy try Hin Hy. rewrite List.Forall_forall in Hall.
           rewrite (Hall y Hin) in Hy. discriminate.
        -- intros y cy try Hin Hy. apply in_app_or in Hin.
           destruct Hin as [Hin | [<- | Hin]].
           ++ eapply Qlt_trans; [eapply Hlt; eauto | exact Hgt].
           ++ rewrite Hit in Hy. injection Hy as <- <-. exact Hgt.
           ++ eapply Qle_lt_trans; [eapply Hle; eauto | exact Hgt].
      * intros y cy try [].
    + apply Qgt_bool_false in Hgt.
      inversion Hsel as [Hall | l1 item l2 c tr Hl Hit Hlt Hle]; subst.
      * exfalso. apply (Qlt_not_le _ _ Hpos). exact Hgt.
      * rewrite <- app_assoc. simpl.
        apply (selects_first tn tc _ l1 item (l2 ++ [x]) bc btr); auto.
        intros y cy try Hin Hy. apply in_app_or in Hin.
        destruct Hin as [Hin | [<- | []]]; [eapply Hle; eauto |].
        rewrite Hx in Hy. injection Hy as <- <-. exact Hgt.
  - inversion Hsel as [Hall | l1 item l2 c tr Hl Hit Hlt Hle]; subst.
    + apply selects_none. apply List.Forall_app. split; [exact Hall |].
      constructor; [exact Hx | constructor].
    + rewrite <- app_assoc. simpl.
      apply (selects_first tn tc _ l1 item (l2 ++ [x]) bc btr); auto.
      intros y cy try Hin Hy. apply in_app_or in Hin.
      destruct Hin as [Hin | [<- | []]]; [eapply Hle; eauto |].
      rewrite Hx in Hy. discriminate.
Qed.

Lemma best_of_selects l tn tc : selects tn tc l (best_of l tn tc).
Proof.
  unfold best_of. induction l as [| x l IH] using rev_ind.
  - apply selects_none. constructor.
  - rewrite fold_left_app. simpl. apply selects_step. exact IH.
Qed.

Lemma dict_get_key {V} k (l : list (string * V)) :
  In k (dict_keys l) -> exists v, dict_get k l = Some v.
Proof.
  induction l as [| [k' v'] l IH]; simpl; [intros [] |].
  intros Hin. destruct (String.eqb k k') eqn:Hk; [eauto |].
  destruct Hin as [<- | Hin]; [| auto].
  rewrite String.eqb_refl in Hk. discriminate.
Qed.


Section Inference.

Context (E : Env).

Lemma mapping_for_kept source_cols target :
  exists m, mapping_for E source_cols target = Returned m
            /\ target_column m = fst target
            /\ target_type m = col_type (snd target)
            /\ kept source_cols target m.
Proof.
  destruct target as [tn tc]. unfold mapping_for.
  pose proof (best_of_selects source_cols tn tc) as Hsel.
  destruct (best_of source_cols tn tc) as [[bm bc] btr].
  inversion Hsel as [Hall | l1 item l2 c tr Hl Hit Hlt Hle]; subst.
  - simpl. eexists. split; [reflexivity |]. split; [reflexivity |].
    split; [reflexivity |].
    apply kept_unmapped; simpl; auto.
  - assert (Hget : exists v, dict_get (fst item) (l1 ++ item :: l2) = Some v).
    { apply dict_get_key. unfold dict_keys. rewrite map_app. simpl.
      apply in_or_app. right. left. reflexivity. }
    destruct Hget as [v Hv].
    simpl fmt_opt. rewrite Hv.
    destruct (Py.truthy (Some (fst item))) eqn:Htr; simpl;
      (eexists; split; [reflexivity |]; split; [reflexivity |];
       split; [reflexivity |];
       eapply kept_best; eauto; simpl;
       apply round2_scores; eapply candidate_in_scores; exact Hit).
Qed.

Lemma build_mappings_kept source_cols target_cols :
  exists ms, build_mappings E source_cols target_cols = Returned ms
             /\ Forall2 (inferred source_cols) target_cols ms
             /\ map target_column ms = dict_keys target_cols.
Proof.
  induction target_cols as [| target rest IH]; simpl.
  - exists []. repeat split; constructor.
  - destruct (mapping_for_kept source_cols target) as (m & -> & Hc & Hty & Hk).
    destruct IH as (ms & -> & Hall & Hkeys). simpl.
    exists (m :: ms). split; [reflexivity |].
    split; [constructor; [repeat split |]; auto |].
    simpl. congruence.
Qed.

(** A successful call, taken apart. *)
Lemma suggest_result source_table target_table w r w' :
  suggest_column_mappings E source_table target_table w = (Returned (Result r), w') ->
  exists ss ts source_cols target_cols,
    source_schema (state w) = Some ss
    /\ target_schema (state w) = Some ts
    /\ find_columns (tables ss) source_table = Some source_cols
    /\ find_columns (tables ts) target_table = Some target_cols
    /\ source_cols <> [] /\ target_cols <> []
    /\ build_mappings E source_cols target_cols = Returned (r_mappings r)
    /\ r_average_confidence r = average_confidence E (r_mappings r)
    /\ r_mapping_count r = count_mapped (r_mappings r)
    /\ r_unmapped_count r = count_unmapped (r_mappings r)
    /\ r_source_table r = source_table /\ r_target_table r = target_table
    /\ state w' =
         with_suggested
           (<[mapping_key source_table target_table := r]>
              (store_of (suggested_mappings (state w)))) (state w).
Proof.
  unfold suggest_column_mappings.
  destruct (source_schema (state w)) as [ss|]; [| discriminate].
  destruct (target_schema (state w)) as [ts|]; [| discriminate].
  destruct (find_columns (tables ss) source_table) as [[| s0 sl]|] eqn:Hs;
    try discriminate.
  destruct (find_columns (tables ts) target_table) as [[| t0 tl]|] eqn:Ht;
    try discriminate.
  destruct (build_mappings E (s0 :: sl) (t0 :: tl)) as [ms|e] eqn:Hb;
    [| discriminate].
  destruct (validate_mapping_output E ms _ _) as [[is_valid error_msg] hallucinated].
  intros [= <- <-].
  exists ss, ts, (s0 :: sl), (t0 :: tl). simpl.
  repeat split; auto; try discriminate.
  destruct is_valid; reflexivity.
Qed.

(** With both snapshots loaded and both tables present with at least one
    column, the call returns a result. *)
Lemma suggest_returns source_table target_table w ss ts s0 sl t0 tl :
  source_schema (state w) = Some ss ->
  target_schema (state w) = Some ts ->
  find_columns (tables ss) source_table = Some (s0 :: sl) ->
  find_columns (tables ts) target_table = Some (t0 :: tl) ->
  exists r w',
    suggest_column_mappings E source_table target_table w = (Returned (Result r), w').
Proof.
  intros Hss Hts Hs Ht. unfold suggest_column_mappings.
  rewrite Hss, Hts, Hs, Ht.
  destruct (build_mappings_kept (s0 :: sl) (t0 :: tl)) as (ms & -> & _).
  destruct (validate_mapping_output E ms _ _) as [[is_valid error_msg] hallucinated].
  eauto.
Qed.

End Inference.

(** ** Dicts built from column lists *)

Lemma dict_set_keys {V} k (v : V) d :
  dict_keys (dict_set k v d) =
  if existsb (String.eqb k) (dict_keys d) then dict_keys d else dict_keys d ++ [k].
Proof.
  induction d as [| [k' v'] d IH]; simpl; [reflexivity |].
  destruct (String.eqb k k') eqn:Hk; simpl; [reflexivity |].
  rewrite IH. destruct (existsb _ _); reflexivity.
Qed.

Lemma dict_set_NoDup {V} k (v : V) d :
  List.NoDup (dict_keys d) -> List.NoDup (dict_keys (dict_set k v d)).
Proof.
  intros Hd. rewrite dict_set_keys.
  destruct (existsb (String.eqb k) (dict_keys d)) eqn:Hex; [exact Hd |].
  apply List.NoDup_app; [exact Hd | repeat constructor; intros [] |].
  intros x Hin [Heq | []]. subst x.
  assert (existsb (String.eqb k) (dict_keys d) = true); [| congruence].
  apply existsb_exists. exists k. split; [exact Hin | apply String.eqb_refl].
Qed.

Lemma dict_of_columns_NoDup cols : List.NoDup (dict_keys (dict_of_columns cols)).
Proof.
  unfold dict_of_columns.
  assert (H : forall acc : list (string * Column),
             List.NoDup (dict_keys acc) ->
             List.NoDup
               (dict_keys (fold_left (fun d c => dict_set (col_name c) c d) cols acc))).
  { induction cols as [| c cols IH]; simpl; intros acc Hacc; [exact Hacc |].
    apply IH. apply dict_set_NoDup. exact Hacc. }
  apply H. constructor.
Qed.

Lemma find_columns_NoDup tbls name d :
  find_columns tbls name = Some d -> List.NoDup (dict_keys d).
Proof.
  induction tbls as [| t tbls IH]; simpl; [discriminate |].
  destruct (String.eqb (table_name t) name); [| exact IH].
  intros [= <-]. apply dict_of_columns_NoDup.
Qed.

Lemma dict_get_unique {V} (d : list (string * V)) k v :
  List.NoDup (dict_keys d) -> In (k, v) d -> dict_get k d = Some v.
Proof.
  induction d as [| [k' v'] d IH]; simpl; [intros _ [] |].
  intros Hnd Hin. inversion Hnd as [| ? ? Hnotin Hnd']; subst.
  destruct (String.eqb k k') eqn:Hk.
  - apply String.eqb_eq in Hk. subst k'.
    destruct Hin as [[= ->] | Hin]; [reflexivity |].
    exfalso. apply Hnotin. unfold dict_keys. apply in_map_iff.
    exists (k, v). split; [reflexivity | exact Hin].
  - destruct Hin as [[= -> ->] | Hin]; [| auto].
    rewrite String.eqb_refl in Hk. discriminate.
Qed.

Lemma Forall2_In_r {A B} (R : A -> B -> Prop) l1 l2 b :
  Forall2 R l1 l2 -> In b l2 -> exists a, In a l1 /\ R a b.
Proof.
  induction 1 as [| a b' l1 l2 HR _ IH]; simpl; [intros [] |].
  intros [<- | Hin]; [eauto |].
  destruct (IH Hin) as (a' & Ha & HRa). eauto.
Qed.

(** ** The rule cascade *)

Lemma rule_cascade s t :
  (Py.lower s = Py.lower t -> rule_confidence s t = Some 0.95%Q)
  /\ (Py.lower s <> Py.lower t ->
      Py.contains (Py.lower s) (Py.lower t) = true
      \/ Py.contains (Py.lower t) (Py.lower s) = true ->
      rule_confidence s t = Some 0.75%Q)
  /\ (Py.lower s <> Py.lower t ->
      Py.contains (Py.lower s) (Py.lower t) = false ->
      Py.contains (Py.lower t) (Py.lower s) = false ->
      _similar_names s t = true ->
      rule_confidence s t = Some 0.60%Q)
  /\ (Py.lower s <> Py.lower t ->
      Py.contains (Py.lower s) (Py.lower t) = false ->
      Py.contains (Py.lower t) (Py.lower s) = false ->
      _similar_names s t = false ->
      rule_confidence s t = None).
Proof.
  unfold rule_confidence. repeat split.
  - intros ->. rewrite String.eqb_refl. reflexivity.
  - intros Hne Hc. apply String.eqb_neq in Hne. rewrite Hne.
    destruct Hc as [-> | ->]; [reflexivity |]. rewrite orb_true_r. reflexivity.
  - intros Hne -> -> ->. apply String.eqb_neq in Hne. rewrite Hne. reflexivity.
  - intros Hne -> -> ->. apply String.eqb_neq in Hne. rewrite Hne. reflexivity.
Qed.

Lemma candidate_adjusted sn sc tn tc :
  candidate sn sc tn tc
  = match rule_confidence sn tn with
    | None => None
    | Some rc =>
        Some (adjusted rc sc tc,
              if String.eqb (col_type sc) (col_type tc) then None
              else Some (cast_template (col_type tc)))
    end.
Proof.
  unfold candidate, adjusted. destruct (rule_confidence sn tn); [| reflexivity].
  destruct (String.eqb _ _); reflexivity.
Qed.

Lemma kept_keeps_best source_cols target m :
  kept source_cols target m -> keeps_best source_cols target m.
Proof.
  intros [Hall Hs Hst Hc Htr Hstat | l1 item l2 c tr Hl Hit Hlt Hle Hs Hc Htr].
  - apply keeps_none; auto.
    eapply List.Forall_impl; [| exact Hall].
    intros x Hx. unfold score in Hx. rewrite candidate_adjusted in Hx.
    destruct (rule_confidence (fst x) (fst target)); [discriminate | reflexivity].
  - unfold score in Hit, Hlt, Hle. rewrite candidate_adjusted in Hit.
    destruct (rule_confidence (fst item) (fst target)) as [rc|] eqn:Hrc;
      [| discriminate].
    injection Hit as <- <-.
    apply (keeps_first source_cols target m l1 item l2 rc); auto.
    + intros x rc' Hin Hx. eapply (Hlt x _ _ Hin).
      rewrite candidate_adjusted, Hx. reflexivity.
    + intros x rc' Hin Hx. eapply (Hle x _ _ Hin).
      rewrite candidate_adjusted, Hx. reflexivity.
Qed.

(** C1, as stated, fails: for the target column [customer_id INT64] the
    cascade gives both source columns, [id STRING] and [customer INT64],
    the confidence 0.75, and the column kept is not the first of the two
    in the source schema, [id], but [customer], whose type matches. *)
Lemma C1_counterexample :
  exists r w' ss source_cols,
    suggest_column_mappings quiet_env "s" "t" (tie_world quiet_env)
    = (Returned (Result r), w')
    /\ source_schema (state (tie_world quiet_env)) = Some ss
    /\ find_columns (tables ss) "s" = Some source_cols
    /\ dict_keys source_cols = ["id"; "customer"]
    /\ rule_confidence "id" "customer_id" = Some 0.75%Q
    /\ rule_confidence "customer" "customer_id" = Some 0.75%Q
    /\ map (fun m => (target_column m, source_column m, confidence m)) (r_mappings r)
       = [("customer_id", Some "customer", 0.75%Q)]
    /\ map source_column (r_mappings r) <> [Some "id"].
Proof.
  eexists _, _, _, _. split; [vm_compute; reflexivity |].
  split; [vm_compute; reflexivity |].
  split; [vm_compute; reflexivity |].
  repeat split; try (vm_compute; reflexivity).
  vm_compute. discriminate.
Qed.

(** C1, amended: the confidence of a source column for a target column
    comes from the first rule of the cascade that applies (equal
    lowercased names 0.95, containment either way 0.75, similar names
    0.60, otherwise the column is no candidate); each target column of a
    returned mapping set keeps the source column whose confidence after
    the adjustment for the types (the rule's confidence, less 0.1 when the
    declared types differ) is highest, the first such column in the order
    of the source schema when several have that highest adjusted
    confidence; and a target column for which the cascade gives no source
    column a confidence is unmapped with confidence 0 and no transform. *)
Theorem C1_cascade_and_adjusted_best (E : Env) source_table target_table w r w' :
  suggest_column_mappings E source_table target_table w = (Returned (Result r), w') ->
  (forall s t,
      (Py.lower s = Py.lower t -> rule_confidence s t = Some 0.95%Q)
      /\ (Py.lower s <> Py.lower t ->
          Py.contains (Py.lower s) (Py.lower t) = true
          \/ Py.contains (Py.lower t) (Py.lower s) = true ->
          rule_confidence s t = Some 0.75%Q)
      /\ (Py.lower s <> Py.lower t ->
          Py.contains (Py.lower s) (Py.lower t) = false ->
          Py.contains (Py.lower t) (Py.lower s) = false ->
          _similar_names s t = true ->
          rule_confidence s t = Some 0.60%Q)
      /\ (Py.lower s <> Py.lower t ->
          Py.contains (Py.lower s) (Py.lower t) = false ->
          Py.contains (Py.lower t) (Py.lower s) = false ->
          _similar_names s t = false ->
          rule_confidence s t = None))
  /\ exists ss ts source_cols target_cols,
       source_schema (state w) = Some ss
       /\ target_schema (state w) = Some ts
       /\ find_columns (tables ss) source_table = Some source_cols
       /\ find_columns (tables ts) target_table = Some target_cols
       /\ Forall2 (fun target m =>
                     target_column m = fst target
                     /\ keeps_best source_cols target m)
            target_cols (r_mappings r).
Proof.
  intros Hcall. split; [apply rule_cascade |].
  destruct (suggest_result E _ _ _ _ _ Hcall)
    as (ss & ts & source_cols & target_cols & Hss & Hts & Hs & Ht & _ & _ & Hb & _).
  exists ss, ts, source_cols, target_cols. repeat split; auto.
  destruct (build_mappings_kept E source_cols target_cols) as (ms & Hms & Hall & _).
  rewrite Hms in Hb. injection Hb as <-.
  eapply Forall2_impl; [exact Hall |].
  intros target m (Htc & _ & Hk). split; [exact Htc |].
  apply kept_keeps_best. exact Hk.
Qed.

Lemma C1_witness :
  exists r w',
    suggest_column_mappings quiet_env "s" "t" (tie_world quiet_env)
    = (Returned (Result r), w')
    /\ forall m, In m (r_mappings r) ->
         target_column m = "customer_id" /\ source_column m = Some "customer".
Proof.
  assert (Hcall : suggest_column_mappings quiet_env "s" "t" (tie_world quiet_env)
                  = (Returned (Result _), _)) by (vm_compute; reflexivity).
  eexists _, _. split; [exact Hcall |].
  destruct (C1_cascade_and_adjusted_best quiet_env _ _ _ _ _ Hcall)
    as (_ & ss & ts & source_cols & target_cols & Hss & Hts & Hs & Ht & Hall).
  injection Hss as <-. injection Hts as <-.
  vm_compute in Hs. injection Hs as <-.
  vm_compute in Ht. injection Ht as <-.
  intros m Hm.
  destruct (Forall2_In_r _ _ _ _ Hall Hm) as (target & Hin & Htc & Hk).
  destruct Hin as [<- | []].
  split; [exact Htc |].
  destruct Hk as [Hnone _ _ _ _ | l1 item l2 rc Hl Hrc Hlt Hle Hsc _].
  - inversion Hnone as [| x l Hx _]. subst. vm_compute in Hx. discriminate.
  - destruct l1 as [| x1 [| x2 l1]].
    + injection Hl as <- <-.
      vm_compute in Hrc. injection Hrc as <-.
      exfalso. apply (Hle _ 0.75%Q (or_introl eq_refl) eq_refl). reflexivity.
    + injection Hl as _ <- _. exact Hsc.
    + injection Hl as _ _ Hl. destruct l1; discriminate.
Defined.

(** ** The adjustment for type compatibility *)

Lemma candidate_adjusts sn sc tn tc :
  (rule_confidence sn tn = None -> candidate sn sc tn tc = None)
  /\ (forall rc, rule_confidence sn tn = Some rc ->
        (col_type sc <> col_type tc ->
         candidate sn sc tn tc
         = Some ((rc - 0.1)%Q, Some ("CAST({source} AS " ++ col_type tc ++ ")")%string))
        /\ (col_type sc = col_type tc -> candidate sn sc tn tc = Some (rc, None))
        /\ (0 <= rc - 0.1)%Q)
  /\ (Py.lower sn = Py.lower tn -> col_type sc = col_type tc ->
      candidate sn sc tn tc = Some (0.95%Q, None))
  /\ (Py.lower sn = Py.lower tn -> col_type sc <> col_type tc ->
      candidate sn sc tn tc
      = Some ((0.95 - 0.1)%Q, Some ("CAST({source} AS " ++ col_type tc ++ ")")%string)
      /\ (0.95 - 0.1 == 0.85)%Q).
Proof.
  unfold candidate, cast_template. split; [intros ->; reflexivity |].
  split.
  { intros rc Hr. rewrite Hr. split; [| split].
    - intros Hne. apply String.eqb_neq in Hne. rewrite Hne. reflexivity.
    - intros ->. rewrite String.eqb_refl. reflexivity.
    - apply rule_confidence_values in Hr.
      destruct Hr as [-> | [-> | ->]]; discriminate. }
  split.
  - intros Hl Ht. rewrite (proj1 (rule_cascade sn tn) Hl), Ht, String.eqb_refl.
    reflexivity.
  - intros Hl Ht. rewrite (proj1 (rule_cascade sn tn) Hl).
    apply String.eqb_neq in Ht. rewrite Ht. split; reflexivity.
Qed.

Lemma kept_nonneg source_cols target m :
  kept source_cols target m -> (0 <= confidence m)%Q.
Proof.
  intros [_ _ _ -> _ _ | l1 item l2 c tr _ Hit _ _ _ Hc _]; [discriminate |].
  rewrite Hc. apply Qlt_le_weak.
  apply (scores_positive c). eapply candidate_in_scores. exact Hit.
Qed.

Lemma kept_unmapped_none source_cols target m :
  kept source_cols target m ->
  source_column m = None ->
  forall x, In x source_cols -> rule_confidence (fst x) (fst target) = None.
Proof.
  intros [Hall _ _ _ _ _ | l1 item l2 c tr _ _ _ _ Hsc _ _] Hnone; [| congruence].
  intros x Hx. rewrite List.Forall_forall in Hall. specialize (Hall x Hx).
  unfold score in Hall. rewrite candidate_adjusted in Hall.
  destruct (rule_confidence (fst x) (fst target)); [discriminate | reflexivity].
Qed.

Lemma kept_source source_cols target m sname :
  List.NoDup (dict_keys source_cols) ->
  kept source_cols target m ->
  source_column m = Some sname ->
  exists scol rc,
    dict_get sname source_cols = Some scol
    /\ rule_confidence sname (fst target) = Some rc
    /\ (col_type scol <> col_type (snd target) ->
        (confidence m == rc - 0.1)%Q
        /\ transformation m
           = Some ("CAST({source} AS " ++ col_type (snd target) ++ ")")%string)
    /\ (col_type scol = col_type (snd target) ->
        (confidence m == rc)%Q /\ transformation m = None).
Proof.
  intros Hnd Hk Hsrc.
  destruct Hk as [_ Hnone _ _ _ _ | l1 item l2 c tr Hl Hit _ _ Hsc Hc Htr];
    [congruence |].
  rewrite Hsrc in Hsc. injection Hsc as ->.
  assert (Hin : In (fst item, snd item) source_cols).
  { rewrite Hl. apply in_or_app. right. left. destruct item; reflexivity. }
  exists (snd item).
  unfold score in Hit.
  destruct (rule_confidence (fst item) (fst target)) as [rc|] eqn:Hr.
  - destruct (candidate_adjusts (fst item) (snd item) (fst target) (snd target))
      as (_ & Hadj & _).
    destruct (Hadj rc Hr) as (Hdiff & Hsame & _).
    exists rc. split; [apply dict_get_unique; assumption |].
    split; [reflexivity |]. split.
    + intros Hne. rewrite (Hdiff Hne) in Hit. injection Hit as <- <-.
      split; [exact Hc | exact Htr].
    + intros Heq. rewrite (Hsame Heq) in Hit. injection Hit as <- <-.
      split; [exact Hc | exact Htr].
  - unfold candidate in Hit. rewrite Hr in Hit. discriminate.
Qed.

(** A candidate worth 0.85 or more comes from the rule of equal names. *)
Lemma candidate_high sn sc tn tc c tr :
  candidate sn sc tn tc = Some (c, tr) ->
  (0.85 <= c)%Q ->
  Py.lower sn = Py.lower tn.
Proof.
  unfold candidate, rule_confidence.
  destruct (String.eqb (Py.lower sn) (Py.lower tn)) eqn:He;
    [intros _ _; apply String.eqb_eq; exact He |].
  destruct (_ || _).
  - destruct (negb _); intros [= <- <-] Hc; exfalso; apply Hc; reflexivity.
  - destruct (_similar_names sn tn); [| discriminate].
    destruct (negb _); intros [= <- <-] Hc; exfalso; apply Hc; reflexivity.
Qed.

(** The score of the column kept is at least the score of any column. *)
Lemma kept_dominates source_cols target m x cx trx :
  kept source_cols target m ->
  In x source_cols ->
  score (fst target) (snd target) x = Some (cx, trx) ->
  exists item c tr,
    In item source_cols
    /\ score (fst target) (snd target) item = Some (c, tr)
    /\ (cx <= c)%Q
    /\ (confidence m == c)%Q
    /\ transformation m = tr.
Proof.
  intros [Hall _ _ _ _ _ | l1 item l2 c tr Hl Hit Hlt Hle _ Hc Htr] Hx Hsx.
  - rewrite List.Forall_forall in Hall. rewrite (Hall x Hx) in Hsx. discriminate.
  - exists item, c, tr.
    split; [rewrite Hl; apply in_or_app; right; left; reflexivity |].
    split; [exact Hit |]. split; [| split; assumption].
    rewrite Hl in Hx. apply in_app_or in Hx.
    destruct Hx as [Hx | [<- | Hx]].
    + apply Qlt_le_weak. eapply Hlt; eauto.
    + rewrite Hit in Hsx. injection Hsx as <- _. apply Qle_refl.
    + eapply Hle; eauto.
Qed.

Lemma kept_exact source_cols target m x :
  kept source_cols target m ->
  In x source_cols ->
  Py.lower (fst x) = Py.lower (fst target) ->
  (col_type (snd x) = col_type (snd target) ->
   (confidence m == 0.95)%Q /\ transformation m = None)
  /\ ((forall y, In y source_cols ->
         Py.lower (fst y) = Py.lower (fst target) ->
         col_type (snd y) <> col_type (snd target)) ->
      (confidence m == 0.85)%Q
      /\ transformation m
         = Some ("CAST({source} AS " ++ col_type (snd target) ++ ")")%string).
Proof.
  intros Hk Hx Hl.
  destruct (candidate_adjusts (fst x) (snd x) (fst target) (snd target))
    as (_ & _ & Hsame & Hdiff).
  split.
  - intros Hty.
    destruct (kept_dominates _ _ _ x _ _ Hk Hx (Hsame Hl Hty))
      as (item & c & tr & Hin & Hit & Hle & Hc & Htr).
    assert (Hli : Py.lower (fst item) = Py.lower (fst target)).
    { eapply candidate_high; [exact Hit |].
      eapply Qle_trans; [| exact Hle]. discriminate. }
    destruct (candidate_adjusts (fst item) (snd item) (fst target) (snd target))
      as (_ & _ & Hsame' & Hdiff').
    unfold score in Hit.
    destruct (String.eqb (col_type (snd item)) (col_type (snd target))) eqn:He.
    + apply String.eqb_eq in He. rewrite (Hsame' Hli He) in Hit.
      injection Hit as <- <-. split; assumption.
    + apply String.eqb_neq in He. rewrite (proj1 (Hdiff' Hli He)) in Hit.
      injection Hit as <- _. exfalso. apply Hle. reflexivity.
  - intros Hall.
    destruct (kept_dominates _ _ _ x _ _ Hk Hx (proj1 (Hdiff Hl (Hall x Hx Hl))))
      as (item & c & tr & Hin & Hit & Hle & Hc & Htr).
    assert (Hli : Py.lower (fst item) = Py.lower (fst target)).
    { eapply candidate_high; [exact Hit |].
      eapply Qle_trans; [| exact Hle]. discriminate. }
    destruct (candidate_adjusts (fst item) (snd item) (fst target) (snd target))
      as (_ & _ & _ & Hdiff').
    unfold score in Hit.
    destruct (Hdiff' Hli (Hall item Hin Hli)) as [Hcand Heq].
    rewrite Hcand in Hit. injection Hit as <- <-.
    split; [rewrite Hc; exact Heq | exact Htr].
Qed.

(** C4: a source column that the cascade gives a confidence gets that
    confidence minus 0.1 and the template CAST({source} AS target_type)
    when its declared type differs from the target's, and keeps it with no
    transform when the types are the same; a column of equal lowercased
    name is worth 0.95 with equal types and 0.85 with different ones.  In
    a returned mapping set no confidence is negative; a target column is
    unmapped only when the cascade gives no source column a confidence; a
    mapped target column carries the adjusted confidence and the
    transform of its source column; and a target column for which a
    source column of equal lowercased name exists has confidence 0.95 and
    no transform when that column has the same type, and confidence 0.85
    with the CAST template when every such column has another type. *)
Theorem C4_cast_penalty (E : Env) source_table target_table w r w' :
  suggest_column_mappings E source_table target_table w = (Returned (Result r), w') ->
  (forall sn sc tn tc,
      (rule_confidence sn tn = None -> candidate sn sc tn tc = None)
      /\ (forall rc, rule_confidence sn tn = Some rc ->
            (col_type sc <> col_type tc ->
             candidate sn sc tn tc
             = Some ((rc - 0.1)%Q,
                     Some ("CAST({source} AS " ++ col_type tc ++ ")")%string))
            /\ (col_type sc = col_type tc -> candidate sn sc tn tc = Some (rc, None))
            /\ (0 <= rc - 0.1)%Q)
      /\ (Py.lower sn = Py.lower tn -> col_type sc = col_type tc ->
          candidate sn sc tn tc = Some (0.95%Q, None))
      /\ (Py.lower sn = Py.lower tn -> col_type sc <> col_type tc ->
          candidate sn sc tn tc
          = Some ((0.95 - 0.1)%Q,
                  Some ("CAST({source} AS " ++ col_type tc ++ ")")%string)
          /\ (0.95 - 0.1 == 0.85)%Q))
  /\ exists ss ts source_cols target_cols,
       source_schema (state w) = Some ss
       /\ target_schema (state w) = Some ts
       /\ find_columns (tables ss) source_table = Some source_cols
       /\ find_columns (tables ts) target_table = Some target_cols
       /\ Forall2
            (fun target m =>
               target_column m = fst target
               /\ target_type m = col_type (snd target)
               /\ (0 <= confidence m)%Q
               /\ (source_column m = None ->
                   forall x, In x source_cols ->
                     rule_confidence (fst x) (fst target) = None)
               /\ (forall sname, source_column m = Some sname ->
                   exists scol rc,
                     dict_get sname source_cols = Some scol
                     /\ rule_confidence sname (fst target) = Some rc
                     /\ (col_type scol <> col_type (snd target) ->
                         (confidence m == rc - 0.1)%Q
                         /\ transformation m
                            = Some ("CAST({source} AS " ++ col_type (snd target)
                                    ++ ")")%string)
                     /\ (col_type scol = col_type (snd target) ->
                         (confidence m == rc)%Q /\ transformation m = None))
               /\ (forall x, In x source_cols ->
                   Py.lower (fst x) = Py.lower (fst target) ->
                   (col_type (snd x) = col_type (snd target) ->
                    (confidence m == 0.95)%Q /\ transformation m = None)
                   /\ ((forall y, In y source_cols ->
                          Py.lower (fst y) = Py.lower (fst target) ->
                          col_type (snd y) <> col_type (snd target)) ->
                       (confidence m == 0.85)%Q
                       /\ transformation m
                          = Some ("CAST({source} AS " ++ col_type (snd target)
                                  ++ ")")%string)))
            target_cols (r_mappings r).
Proof.
  intros Hcall. split; [intros; apply candidate_adjusts |].
  destruct (suggest_result E _ _ _ _ _ Hcall)
    as (ss & ts & source_cols & target_cols & Hss & Hts & Hs & Ht & _ & _ & Hb & _).
  exists ss, ts, source_cols, target_cols.
  split; [exact Hss |]. split; [exact Hts |]. split; [exact Hs |]. split; [exact Ht |].
  destruct (build_mappings_kept E source_cols target_cols) as (ms & Hms & Hall & _).
  rewrite Hms in Hb. injection Hb as <-.
  eapply Forall2_impl; [exact Hall |].
  intros target m (Htc & Hty & Hk).
  split; [exact Htc |]. split; [exact Hty |].
  split; [eapply kept_nonneg; exact Hk |].
  split; [apply kept_unmapped_none; exact Hk |].
  split.
  - intros sname Hsrc. eapply kept_source; eauto.
    eapply find_columns_NoDup. exact Hs.
  - intros x Hx Hl. eapply kept_exact; eauto.
Qed.

Lemma C4_witness :
  exists r w',
    suggest_column_mappings quiet_env "ledger_src" "ledger" (ledger_world quiet_env)
    = (Returned (Result r), w')
    /\ forall m, In m (r_mappings r) ->
         target_column m = "amount"
         /\ (confidence m == 0.85)%Q
         /\ transformation m = Some "CAST({source} AS NUMERIC)".
Proof.
  assert (Hcall : suggest_column_mappings quiet_env "ledger_src" "ledger"
                    (ledger_world quiet_env) = (Returned (Result _), _))
    by (vm_compute; reflexivity).
  eexists _, _. split; [exact Hcall |].
  destruct (C4_cast_penalty quiet_env _ _ _ _ _ Hcall)
    as (_ & ss & ts & source_cols & target_cols & Hss & Hts & Hs & Ht & Hall).
  injection Hss as <-. injection Hts as <-.
  vm_compute in Hs. injection Hs as <-.
  vm_compute in Ht. injection Ht as <-.
  intros m Hm.
  destruct (Forall2_In_r _ _ _ _ Hall Hm)
    as (target & Hin & Htc & _ & _ & _ & _ & Hexact).
  destruct Hin as [<- | []].
  split; [exact Htc |].
  destruct (Hexact _ (or_introl eq_refl) eq_refl) as [_ Hdiff].
  apply Hdiff. intros y [<- | []] _. discriminate.
Defined.

(** ** Approval and SQL synthesis, taken apart *)

Section Pipeline.

Context (E : Env).

Lemma approve_accepts confirm source_table target_table w md :
  store_of (suggested_mappings (state w)) !! mapping_key source_table target_table
  = Some md ->
  confirm approval_hint (confirmation_payload E source_table target_table md) = true ->
  exists a,
    approve_mappings E confirm source_table target_table w
    = (Returned (Result a),
       log_audit_event "MAPPING" "MAPPINGS_APPROVED"
         [("source_table", PStr source_table);
          ("target_table", PStr target_table);
          ("mapping_count", pint (r_mapping_count md));
          ("avg_confidence", PFloat (r_average_confidence md))]
         "LOW"
         (set_state
            (with_approved
               (<[mapping_key source_table target_table := md]>
                  (store_of (approved_mappings (state w)))) (state w)) w)).
Proof.
  intros Hmd Hyes. unfold approve_mappings. rewrite Hmd, Hyes. eauto.
Qed.

Lemma approve_declines confirm source_table target_table w md :
  store_of (suggested_mappings (state w)) !! mapping_key source_table target_table
  = Some md ->
  confirm approval_hint (confirmation_payload E source_table target_table md) = false ->
  exists a,
    approve_mappings E confirm source_table target_table w
    = (Returned (Result a),
       log_audit_event "MAPPING" "MAPPINGS_REJECTED"
         [("source_table", PStr source_table); ("target_table", PStr target_table)]
         "LOW" w).
Proof.
  intros Hmd Hno. unfold approve_mappings. rewrite Hmd, Hno. eauto.
Qed.

Lemma generate_result source_table target_table w g w' :
  generate_transformation_sql E source_table target_table w
  = (Returned (Result g), w') ->
  exists md,
    store_of (approved_mappings (state w)) !! mapping_key source_table target_table
    = Some md
    /\ insert_sql g = insert_text E source_table target_table md
    /\ merge_text E source_table target_table md = Returned (merge_sql g)
    /\ fst (fst (validate_sql_query E (insert_text E source_table target_table md)))
       = true
    /\ state w' =
         with_generated
           (<[mapping_key source_table target_table := g]>
              (store_of (generated_sql (state w)))) (state w).
Proof.
  unfold generate_transformation_sql.
  destruct (store_of (approved_mappings (state w)) !! _) as [md|]; [| discriminate].
  destruct (merge_text E source_table target_table md) as [merge|e] eqn:Hm;
    [| discriminate].
  destruct (validate_sql_query E _) as [[sql_valid sql_error] warnings] eqn:Hv.
  destruct sql_valid; simpl; [| discriminate].
  intros [= <- <-]. exists md. simpl. rewrite Hv. repeat split; auto.
Qed.

Lemma generate_returns source_table target_table w md m ms :
  store_of (approved_mappings (state w)) !! mapping_key source_table target_table
  = Some md ->
  r_mappings md = m :: ms ->
  fst (fst (validate_sql_query E (insert_text E source_table target_table md))) = true ->
  exists g w',
    generate_transformation_sql E source_table target_table w
    = (Returned (Result g), w').
Proof.
  intros Hmd Hms Hv. unfold generate_transformation_sql. rewrite Hmd.
  unfold merge_text, merge_key. rewrite Hms. simpl.
  destruct (validate_sql_query E _) as [[sql_valid sql_error] warnings].
  simpl in Hv. subst sql_valid. simpl. eauto.
Qed.

End Pipeline.

(** ** The customer scenario *)

Lemma customer_mappings (E : Env) :
  build_mappings E
    [("cust_id", {| col_name := "cust_id"; col_type := "INT64";
                    col_nullable := true; col_position := 1 |});
     ("cust_name", {| col_name := "cust_name"; col_type := "STRING";
                      col_nullable := true; col_position := 2 |})]
    [("customer_id", {| col_name := "customer_id"; col_type := "INT64";
                        col_nullable := true; col_position := 1 |});
     ("customer_name", {| col_name := "customer_name"; col_type := "STRING";
                          col_nullable := true; col_position := 2 |});
     ("customer_status", {| col_name := "customer_status"; col_type := "STRING";
                            col_nullable := true; col_position := 3 |})]
  = Returned
      [{| target_column := "customer_id"; target_type := "INT64";
          source_column := Some "cust_id"; source_type := Some "INT64";
          confidence := 0.60; transformation := None; status := "suggested" |};
       {| target_column := "customer_name"; target_type := "STRING";
          source_column := None; source_type := None;
          confidence := 0.00; transformation := None; status := "unmapped" |};
       {| target_column := "customer_status"; target_type := "STRING";
          source_column := None; source_type := None;
          confidence := 0.00; transformation := None; status := "unmapped" |}].
Proof. vm_compute. reflexivity. Qed.

Lemma customer_suggestion (E : Env) r w' :
  suggest_column_mappings E "cust_src" "customer" (customer_world E)
  = (Returned (Result r), w') ->
  r_mappings r
  = [{| target_column := "customer_id"; target_type := "INT64";
        source_column := Some "cust_id"; source_type := Some "INT64";
        confidence := 0.60; transformation := None; status := "suggested" |};
     {| target_column := "customer_name"; target_type := "STRING";
        source_column := None; source_type := None;
        confidence := 0.00; transformation := None; status := "unmapped" |};
     {| target_column := "customer_status"; target_type := "STRING";
        source_column := None; source_type := None;
        confidence := 0.00; transformation := None; status := "unmapped" |}].
Proof.
  intros Hcall.
  destruct (suggest_result E _ _ _ _ _ Hcall)
    as (ss & ts & source_cols & target_cols & Hss & Hts & Hs & Ht & _ & _ & Hb & _).
  injection Hss as <-. injection Hts as <-.
  vm_compute in Hs. injection Hs as <-.
  vm_compute in Ht. injection Ht as <-.
  rewrite customer_mappings in Hb. congruence.
Qed.

(** C2, as stated, fails: in the scenario no mapping of [customer_name] to
    [cust_name] with confidence 0.60 is returned. *)
Lemma C2_counterexample :
  ~ exists r w' m,
      suggest_column_mappings quiet_env "cust_src" "customer" (customer_world quiet_env)
      = (Returned (Result r), w')
      /\ In m (r_mappings r)
      /\ target_column m = "customer_name"
      /\ source_column m = Some "cust_name"
      /\ (confidence m == 0.60)%Q.
Proof.
  intros (r & w' & m & Hcall & Hin & Htc & Hsc & _).
  rewrite (customer_suggestion quiet_env r w' Hcall) in Hin.
  simpl in Hin.
  destruct Hin as [<- | [<- | [<- | []]]]; simpl in *; discriminate.
Qed.

Lemma append_assoc (a b c : string) : ((a ++ b) ++ c = a ++ b ++ c)%string.
Proof.
  induction a as [| x a IH]; [reflexivity |].
  change (String x ((a ++ b) ++ c) = String x (a ++ b ++ c))%string.
  f_equal. exact IH.
Qed.

(** Where the select clause stands in the two statements. *)
Lemma insert_text_emits (E : Env) source_table target_table md :
  exists pre post,
    (insert_text E source_table target_table md
     = pre ++ ("SELECT" ++ Py.nl ++ select_clause (r_mappings md) ++ Py.nl ++ "FROM ")
           ++ post)%string.
Proof.
  unfold insert_text.
  exists ("-- Generated transformation: " ++ source_table ++ " -> " ++ target_table
          ++ Py.nl ++ "-- Generated at: {timestamp}" ++ Py.nl
          ++ "-- Mapping confidence: "
          ++ format_percent (float_tie_up E) (r_average_confidence md) ++ "%" ++ Py.nl
          ++ Py.nl ++ "INSERT INTO " ++ qualified E (target_dataset E) target_table
          ++ Py.nl)%string,
         (qualified E (source_dataset E) source_table ++ ";" ++ Py.nl)%string.
  rewrite !append_assoc. reflexivity.
Qed.

Lemma merge_text_emits (E : Env) source_table target_table md merge :
  merge_text E source_table target_table md = Returned merge ->
  exists m ms pre mid post,
    r_mappings md = m :: ms
    /\ (merge
        = pre ++ ("  SELECT" ++ Py.nl ++ select_clause (r_mappings md) ++ Py.nl
                  ++ "  FROM ") ++ mid
              ++ (Py.nl ++ "ON target." ++ target_column m ++ " = source."
                  ++ target_column m ++ Py.nl ++ "WHEN MATCHED THEN") ++ post)%string.
Proof.
  unfold merge_text, merge_key.
  destruct (r_mappings md) as [| m ms] eqn:Hms; [discriminate |].
  unfold bind. intros [= <-]. exists m, ms.
  exists ("-- MERGE transformation: " ++ source_table ++ " -> " ++ target_table
          ++ Py.nl ++ "-- Use this for incremental updates" ++ Py.nl ++ Py.nl
          ++ "MERGE " ++ qualified E (target_dataset E) target_table ++ " AS target"
          ++ Py.nl ++ "USING (" ++ Py.nl)%string,
         (qualified E (source_dataset E) source_table ++ Py.nl ++ ") AS source")%string.
  eexists. split; [reflexivity |].
  rewrite !append_assoc. reflexivity.
Qed.

Lemma customer_world_tables (E : Env) :
  exists ss ts s0 sl t0 tl,
    source_schema (state (customer_world E)) = Some ss
    /\ target_schema (state (customer_world E)) = Some ts
    /\ find_columns (tables ss) "cust_src" = Some (s0 :: sl)
    /\ find_columns (tables ts) "customer" = Some (t0 :: tl).
Proof. do 6 eexists. repeat split; reflexivity. Qed.

(** C2, amended: in the scenario [customer_id] is mapped to [cust_id]
    with confidence 0.60 and no cast, [customer_name] and
    [customer_status] are both unmapped with confidence 0 and status
    unmapped, the average confidence is 0.60, and the INSERT text built
    from the suggestion selects NULL for both unmapped columns; when the
    reviewer approves the payload shown for this suggestion and the SQL
    check accepts this INSERT, approval and generation succeed and the
    generated INSERT is that text. *)
Theorem C2_customer_scenario (E : Env) (confirm : string -> pydict -> bool) :
  exists r w1,
    suggest_column_mappings E "cust_src" "customer" (customer_world E)
    = (Returned (Result r), w1)
    /\ map (fun m => (target_column m, source_column m, transformation m, status m))
         (r_mappings r)
       = [("customer_id", Some "cust_id", None, "suggested");
          ("customer_name", None, None, "unmapped");
          ("customer_status", None, None, "unmapped")]
    /\ map confidence (r_mappings r) = [0.60; 0.00; 0.00]%Q
    /\ r_average_confidence r = 0.60%Q
    /\ (exists pre post,
          (insert_text E "cust_src" "customer" r
           = pre ++ ("SELECT" ++ Py.nl
                     ++ "  cust_id AS customer_id," ++ Py.nl
                     ++ "  NULL AS customer_name," ++ Py.nl
                     ++ "  NULL AS customer_status" ++ Py.nl
                     ++ "FROM ") ++ post)%string)
    /\ (confirm approval_hint (confirmation_payload E "cust_src" "customer" r) = true ->
        fst (fst (validate_sql_query E (insert_text E "cust_src" "customer" r))) = true ->
        exists a w2 g w3,
          approve_mappings E confirm "cust_src" "customer" w1
          = (Returned (Result a), w2)
          /\ generate_transformation_sql E "cust_src" "customer" w2
             = (Returned (Result g), w3)
          /\ insert_sql g = insert_text E "cust_src" "customer" r).
Proof.
  destruct (customer_world_tables E) as (ss & ts & s0 & sl & t0 & tl & Hss & Hts & Hs & Ht).
  destruct (suggest_returns E _ _ _ _ _ _ _ _ _ Hss Hts Hs Ht) as (r & w1 & Hcall).
  pose proof (customer_suggestion E r w1 Hcall) as Hms.
  destruct (suggest_result E _ _ _ _ _ Hcall)
    as (_ & _ & _ & _ & _ & _ & _ & _ & _ & _ & _ & Havg & _ & _ & _ & _ & Hst).
  exists r, w1.
  split; [exact Hcall |].
  split; [rewrite Hms; reflexivity |].
  split; [rewrite Hms; reflexivity |].
  split; [rewrite Havg, Hms; vm_compute; reflexivity |].
  split.
  { destruct (insert_text_emits E "cust_src" "customer" r) as (pre & post & Htxt).
    exists pre, post. rewrite Htxt, Hms. reflexivity. }
  intros Hyes Hvalid.
  assert (Hsug : store_of (suggested_mappings (state w1))
                 !! mapping_key "cust_src" "customer" = Some r).
  { rewrite Hst. simpl. apply lookup_insert_eq. }
  destruct (approve_accepts E confirm _ _ _ _ Hsug Hyes) as (a & Happ).
  set (w2 := log_audit_event _ _ _ _ _) in Happ.
  assert (Hapd : store_of (approved_mappings (state w2))
                 !! mapping_key "cust_src" "customer" = Some r).
  { subst w2. simpl. apply lookup_insert_eq. }
  destruct (generate_returns E _ _ _ _ _ _ Hapd Hms Hvalid) as (g & w3 & Hgen).
  exists a, w2, g, w3.
  split; [exact Happ |]. split; [exact Hgen |].
  destruct (generate_result E _ _ _ _ _ Hgen) as (md & Hmd & Hins & _).
  rewrite Hapd in Hmd. injection Hmd as <-. exact Hins.
Qed.

Lemma C2_witness :
  exists r w1 a w2 g w3,
    suggest_column_mappings quiet_env "cust_src" "customer" (customer_world quiet_env)
    = (Returned (Result r), w1)
    /\ r_average_confidence r = 0.60%Q
    /\ approve_mappings quiet_env (always true) "cust_src" "customer" w1
       = (Returned (Result a), w2)
    /\ generate_transformation_sql quiet_env "cust_src" "customer" w2
       = (Returned (Result g), w3)
    /\ Py.contains "  NULL AS customer_name," (insert_sql g) = true
    /\ Py.contains "  NULL AS customer_status" (insert_sql g) = true.
Proof.
  destruct (C2_customer_scenario quiet_env (always true))
    as (r & w1 & Hcall & Hms & _ & Havg & _ & Hrest).
  destruct (Hrest eq_refl eq_refl) as (a & w2 & g & w3 & Happ & Hgen & Hins).
  exists r, w1, a, w2, g, w3.
  split; [exact Hcall |]. split; [exact Havg |].
  split; [exact Happ |]. split; [exact Hgen |].
  assert (Hr : suggest_column_mappings quiet_env "cust_src" "customer"
                 (customer_world quiet_env) = (Returned (Result _), _))
    by (vm_compute; reflexivity).
  rewrite Hr in Hcall. injection Hcall as <- _.
  rewrite Hins. split; vm_compute; reflexivity.
Defined.

(** ** Name similarity *)

Lemma replace_absent old s :
  Py.contains old s = false -> Py.replace s old EmptyString = s.
Proof.
  unfold Py.replace. induction s as [| c s IH]; [reflexivity |].
  cbn [Py.contains Py.replace_from]. intros H.
  apply orb_false_iff in H. destruct H as [Hp Hc].
  rewrite Hp, (IH Hc). reflexivity.
Qed.

Lemma strip_leading_absent old s :
  Py.contains old s = false -> strip_leading s old = s.
Proof.
  unfold strip_leading, Py.startswith. intros H.
  assert (Hp : String.prefix old s = false).
  { destruct s; cbn [Py.contains] in H; apply orb_false_iff in H; tauto. }
  rewrite Hp. reflexivity.
Qed.

(** Where none of the five tokens occurs in either name, the code and
    the reading of the specification agree. *)
Lemma similar_names_agree name1 name2 :
  (forall p, In p prefixes ->
     Py.contains p (Py.lower name1) = false /\ Py.contains p (Py.lower name2) = false) ->
  _similar_names name1 name2 = spec_similar_names name1 name2.
Proof.
  intros H. unfold _similar_names, spec_similar_names.
  assert (Hn : normalized_names name1 name2 = spec_normalized_names name1 name2).
  { unfold normalized_names, spec_normalized_names.
    generalize dependent (Py.lower name2). generalize dependent (Py.lower name1).
    intros n1 n2 H.
    assert (Hfold : forall ps, (forall p, In p ps -> In p prefixes) ->
              fold_left strip_prefix_step ps (n1, n2) = (n1, n2)
              /\ fold_left strip_leading ps n1 = n1
              /\ fold_left strip_leading ps n2 = n2).
    { induction ps as [| p ps IH]; intros Hsub; [auto |].
      destruct (H p (Hsub p (or_introl eq_refl))) as [H1 H2].
      cbn [fold_left]. unfold strip_prefix_step at 2. cbn [fst snd].
      rewrite (replace_absent p n1 H1), (replace_absent p n2 H2).
      rewrite (strip_leading_absent p n1 H1), (strip_leading_absent p n2 H2).
      apply IH. intros q Hq. apply Hsub. right. exact Hq. }
    destruct (Hfold prefixes (fun p Hp => Hp)) as (-> & -> & ->). reflexivity. }
  rewrite Hn. reflexivity.
Qed.

(** C3: for the names [order_src_total] and [order_total] the code finds
    the names similar, because [replace] removes the token [src_] from
    the middle of the first name, while stripping the listed prefixes
    and the shared suffix leaves two names neither equal nor contained
    in one another; the pair is scored 0.60 by the cascade. *)
Theorem C3_inner_token_removed :
  _similar_names "order_src_total" "order_total" = true
  /\ normalized_names "order_src_total" "order_total" = ("order_total", "order_total")
  /\ spec_similar_names "order_src_total" "order_total" = false
  /\ rule_confidence "order_src_total" "order_total" = Some 0.60%Q.
Proof. repeat split; reflexivity. Qed.

(** ** Rounding and the average confidence *)

Lemma round_half_near tie x :
  (x - (1 # 2) <= inject_Z (round_half tie x) <= x + (1 # 2))%Q.
Proof.
  unfold round_half.
  pose proof (Qfloor_le x) as Hlo. pose proof (Qlt_floor x) as Hhi.
  rewrite inject_Z_plus in Hhi. change (inject_Z 1) with 1%Q in Hhi.
  destruct (x - inject_Z (Qfloor x) ?= 1 # 2)%Q eqn:Hc.
  - apply Qeq_alt in Hc.
    destruct (tie x); [rewrite inject_Z_plus; change (inject_Z 1) with 1%Q |]; lra.
  - apply Qlt_alt in Hc. lra.
  - apply Qgt_alt in Hc. rewrite inject_Z_plus. change (inject_Z 1) with 1%Q. lra.
Qed.

Lemma round2_value tie x :
  (round2 tie x == inject_Z (round_half tie (x * 100)) / 100)%Q.
Proof. unfold round2. rewrite Qmake_Qdiv. reflexivity. Qed.

Lemma round2_near tie x :
  (x - (1 # 200) <= round2 tie x <= x + (1 # 200))%Q.
Proof.
  rewrite round2_value.
  pose proof (round_half_near tie (x * 100)) as [Hlo Hhi].
  split.
  - apply Qle_shift_div_l; [reflexivity | lra].
  - apply Qle_shift_div_r; [reflexivity | lra].
Qed.

Lemma round2_unit tie x :
  (0 <= x <= 1)%Q -> (0 <= round2 tie x <= 1)%Q.
Proof.
  intros [H0 H1].
  pose proof (round_half_near tie (x * 100)) as [Hlo Hhi].
  set (z := round_half tie (x * 100)) in *.
  assert (Hz : (0 <= z <= 100)%Z).
  { split.
    - assert (H : (inject_Z (-1) < inject_Z z)%Q) by (change (inject_Z (-1)) with (-1)%Q; lra).
      rewrite <- Zlt_Qlt in H. lia.
    - assert (H : (inject_Z z < inject_Z 101)%Q) by (change (inject_Z 101) with 101%Q; lra).
      rewrite <- Zlt_Qlt in H. lia. }
  unfold round2. fold z. unfold Qle. simpl. lia.
Qed.

Lemma sum_bounds (l : list Q) a :
  (forall c, In c l -> (0 <= c <= 1)%Q) ->
  (a <= fold_left Qplus l a <= a + inject_Z (Z.of_nat (length l)))%Q.
Proof.
  revert a. induction l as [| c l IH]; intros a Hall.
  - simpl. change (inject_Z (Z.of_nat 0)) with 0%Q. lra.
  - cbn [fold_left length].
    destruct (Hall c (or_introl eq_refl)) as [Hc0 Hc1].
    destruct (IH (a + c)%Q (fun c' Hc' => Hall c' (or_intror Hc'))) as [Hlo Hhi].
    rewrite Nat2Z.inj_succ, <- Z.add_1_r, inject_Z_plus.
    change (inject_Z 1) with 1%Q. lra.
Qed.

Lemma kept_unit source_cols target m :
  kept source_cols target m -> (0 <= confidence m <= 1)%Q.
Proof.
  intros [_ _ _ -> _ _ | l1 item l2 c tr _ Hit _ _ _ Hc _].
  - split; discriminate.
  - rewrite Hc.
    destruct (scores_positive c (candidate_in_scores _ _ _ _ _ _ Hit)) as [Hpos Hle].
    split; [apply Qlt_le_weak; exact Hpos |].
    eapply Qle_trans; [exact Hle | discriminate].
Qed.

Lemma mean_confidence_unit (mappings : list Mapping) :
  (forall m, In m mappings -> (0 <= confidence m <= 1)%Q) ->
  (0 <= mean_confidence mappings <= 1)%Q.
Proof.
  intros Hall. unfold mean_confidence, sum_confidence, count_mapped.
  set (l := map confidence (List.filter is_mapped mappings)).
  assert (Hl : forall c, In c l -> (0 <= c <= 1)%Q).
  { intros c Hc. apply in_map_iff in Hc. destruct Hc as (m & <- & Hm).
    apply filter_In in Hm. apply Hall. tauto. }
  destruct (sum_bounds l 0 Hl) as [Hlo Hhi].
  assert (Hlen : length l = length (List.filter is_mapped mappings))
    by (unfold l; apply length_map).
  rewrite Hlen in Hhi.
  set (n := length (List.filter is_mapped mappings)) in *.
  assert (Hn : (inject_Z (Z.of_nat n) <= inject_Z (Z.of_nat (Nat.max n 1)))%Q)
    by (rewrite <- Zle_Qle; lia).
  assert (Hpos : (0 < inject_Z (Z.of_nat (Nat.max n 1)))%Q).
  { change 0%Q with (inject_Z 0). rewrite <- Zlt_Qlt. lia. }
  split.
  - apply Qle_shift_div_l; [exact Hpos | lra].
  - apply Qle_shift_div_r; [exact Hpos | lra].
Qed.

(** C5, as stated, fails: with three mapped columns of confidence 0.95,
    0.95 and 0.60 the returned average is 0.83, not 2.5 / 3. *)
Lemma C5_counterexample :
  exists r w',
    suggest_column_mappings quiet_env "orders_src" "orders" (orders_world quiet_env)
    = (Returned (Result r), w')
    /\ map confidence (r_mappings r) = [0.95; 0.95; 0.60]%Q
    /\ r_average_confidence r = 0.83%Q
    /\ ~ (r_average_confidence r == mean_confidence (r_mappings r))%Q.
Proof.
  eexists _, _. split; [vm_compute; reflexivity |].
  split; [reflexivity |]. split; [reflexivity |].
  vm_compute. discriminate.
Qed.

(** C5, amended: the returned average confidence is the sum of the
    confidences of the mapped candidates divided by max(mapped_count, 1),
    rounded to two decimals; it lies in [0,1], differs from the unrounded
    quotient by at most 0.005, and is 0 when no column is mapped. *)
Theorem C5_average_confidence (E : Env) source_table target_table w r w' :
  suggest_column_mappings E source_table target_table w = (Returned (Result r), w') ->
  r_mapping_count r = count_mapped (r_mappings r)
  /\ r_average_confidence r
     = round2 (float_tie_up E)
         (sum_confidence (r_mappings r)
          / inject_Z (Z.of_nat (Nat.max (r_mapping_count r) 1)))%Q
  /\ (0 <= r_average_confidence r <= 1)%Q
  /\ (mean_confidence (r_mappings r) - (1 # 200)
      <= r_average_confidence r
      <= mean_confidence (r_mappings r) + (1 # 200))%Q
  /\ (r_mapping_count r = 0 -> r_average_confidence r = 0.00%Q).
Proof.
  intros Hcall.
  destruct (suggest_result E _ _ _ _ _ Hcall)
    as (ss & ts & source_cols & target_cols & _ & _ & _ & _ & _ & _ & Hb & Havg
        & Hcount & _).
  destruct (build_mappings_kept E source_cols target_cols) as (ms & Hms & Hall & _).
  rewrite Hms in Hb. injection Hb as ->.
  assert (Hunit : forall m, In m (r_mappings r) -> (0 <= confidence m <= 1)%Q).
  { intros m Hm. destruct (Forall2_In_r _ _ _ _ Hall Hm) as (target & _ & _ & _ & Hk).
    eapply kept_unit. exact Hk. }
  split; [exact Hcount |].
  split; [rewrite Hcount; exact Havg |].
  rewrite Havg. unfold average_confidence. fold (mean_confidence (r_mappings r)).
  split; [apply round2_unit; apply mean_confidence_unit; exact Hunit |].
  split; [apply round2_near |].
  rewrite Hcount. unfold mean_confidence, sum_confidence, count_mapped.
  intros H0. apply length_zero_iff_nil in H0. rewrite H0. reflexivity.
Qed.

Lemma C5_witness :
  exists r w',
    suggest_column_mappings quiet_env "orders_src" "orders" (orders_world quiet_env)
    = (Returned (Result r), w')
    /\ (0 <= r_average_confidence r <= 1)%Q.
Proof.
  eexists _, _. split; [vm_compute; reflexivity |].
  assert (Hcall : suggest_column_mappings quiet_env "orders_src" "orders"
                    (orders_world quiet_env) = (Returned (Result _), _))
    by (vm_compute; reflexivity).
  apply (C5_average_confidence quiet_env _ _ _ _ _ Hcall).
Defined.

(** ** The select clause and the MERGE key *)

(** C6: with the target table [events(event_ts TIMESTAMP, user_id INT64)]
    and the source table [events_src(user_id INT64)], suggested and
    approved, the first candidate of the approved mapping set is the
    unmapped column [event_ts], and the first mapped target column is
    [user_id]; the generated MERGE selects NULL AS event_ts in its source
    query and matches ON target.event_ts = source.event_ts, not on
    [user_id], while its UPDATE SET clause lists the mapped column only. *)
Theorem C6_merge_keyed_on_unmapped_column :
  exists md g w',
    store_of (approved_mappings (state (events_approved quiet_env)))
      !! mapping_key "events_src" "events" = Some md
    /\ generate_transformation_sql quiet_env "events_src" "events"
         (events_approved quiet_env)
       = (Returned (Result g), w')
    /\ map (fun m => (target_column m, source_column m)) (r_mappings md)
       = [("event_ts", None); ("user_id", Some "user_id")]
    /\ first_mapped_target (r_mappings md) = Some "user_id"
    /\ Py.contains ("  NULL AS event_ts," ++ Py.nl ++ "  user_id AS user_id" ++ Py.nl)
         (merge_sql g) = true
    /\ Py.contains "ON target.event_ts = source.event_ts" (merge_sql g) = true
    /\ Py.contains "ON target.user_id" (merge_sql g) = false
    /\ Py.contains ("  UPDATE SET target.user_id = source.user_id" ++ Py.nl)
         (merge_sql g) = true.
Proof.
  eexists _, _, _. split; [vm_compute; reflexivity |].
  split; [vm_compute; reflexivity |].
  repeat split; vm_compute; reflexivity.
Qed.

(** ** Keys of the stores *)

(** C7: the pairs (usd, eur_to_gbp) and (usd_to_eur, gbp) are different
    and are filed under the same key, so the suggestion stored for the
    second pair replaces the one stored for the first. *)
Theorem C7_key_collision :
  ("usd", "eur_to_gbp") <> ("usd_to_eur", "gbp")
  /\ mapping_key "usd" "eur_to_gbp" = mapping_key "usd_to_eur" "gbp"
  /\ option_map (fun r => (r_source_table r, r_target_table r, length (r_mappings r)))
       (store_of
          (suggested_mappings
             (state (snd (suggest_column_mappings quiet_env "usd" "eur_to_gbp"
                            (rates_world quiet_env)))))
        !! mapping_key "usd" "eur_to_gbp")
     = Some ("usd", "eur_to_gbp", 1)
  /\ option_map (fun r => (r_source_table r, r_target_table r, length (r_mappings r)))
       (store_of
          (suggested_mappings
             (state (snd (suggest_column_mappings quiet_env "usd_to_eur" "gbp"
                            (snd (suggest_column_mappings quiet_env "usd" "eur_to_gbp"
                                    (rates_world quiet_env)))))))
        !! mapping_key "usd" "eur_to_gbp")
     = Some ("usd_to_eur", "gbp", 2).
Proof.
  split; [discriminate |]. split; [reflexivity |].
  split; vm_compute; reflexivity.
Qed.

(** ** Precondition failures *)

(** C8: with both snapshots loaded, asking for a source table or a
    target table that is not in its snapshot returns a dict that holds
    only the key error; the world is unchanged and nothing is raised, but
    the dict has neither the key source_table nor the key target_table. *)
Theorem C8_table_not_found_drops_names (E : Env) :
  suggest_column_mappings E "orders" "customer" (customer_world E)
  = (Returned (Error [("error", PStr "Source table 'orders' not found in schema.")]),
     customer_world E)
  /\ suggest_column_mappings E "cust_src" "clients" (customer_world E)
     = (Returned (Error [("error", PStr "Target table 'clients' not found in schema.")]),
        customer_world E)
  /\ ~ carries_tables [("error", PStr "Source table 'orders' not found in schema.")]
         "orders" "customer"
  /\ ~ carries_tables [("error", PStr "Target table 'clients' not found in schema.")]
         "cust_src" "clients".
Proof.
  split; [vm_compute; reflexivity |]. split; [vm_compute; reflexivity |].
  split; intros [H _]; vm_compute in H; discriminate.
Qed.

Section Preconditions.

Context (E : Env).

Lemma suggest_schema_not_loaded source_table target_table w :
  source_schema (state w) = None \/ target_schema (state w) = None ->
  exists d,
    suggest_column_mappings E source_table target_table w = (Returned (Error d), w)
    /\ carries_tables d source_table target_table.
Proof.
  intros H. unfold suggest_column_mappings.
  eexists. split.
  - destruct H as [-> | ->]; [reflexivity |].
    destruct (source_schema (state w)); reflexivity.
  - split; reflexivity.
Qed.

Lemma approve_no_suggestion confirm source_table target_table w :
  store_of (suggested_mappings (state w)) !! mapping_key source_table target_table
  = None ->
  exists d,
    approve_mappings E confirm source_table target_table w = (Returned (Error d), w)
    /\ carries_tables d source_table target_table.
Proof.
  intros H. unfold approve_mappings. rewrite H.
  eexists. split; [reflexivity | split; reflexivity].
Qed.

Lemma generate_not_approved source_table target_table w :
  store_of (approved_mappings (state w)) !! mapping_key source_table target_table
  = None ->
  exists d,
    generate_transformation_sql E source_table target_table w = (Returned (Error d), w)
    /\ carries_tables d source_table target_table.
Proof.
  intros H. unfold generate_transformation_sql. rewrite H.
  eexists. split; [reflexivity | split; reflexivity].
Qed.

Lemma execute_no_sql client source_table target_table dry_run w :
  store_of (generated_sql (state w)) !! mapping_key source_table target_table = None ->
  exists d,
    execute_transformation E client source_table target_table dry_run w
    = (Returned (Error d), w)
    /\ carries_tables d source_table target_table.
Proof.
  intros H. unfold execute_transformation. rewrite H.
  eexists. split; [reflexivity | split; reflexivity].
Qed.

End Preconditions.

(** ** Approval *)

(** C9: approving a pair that has a suggestion stores that suggestion as
    the approved mapping set; approving it again leaves the whole
    session state as the first approval left it; a rejection leaves the
    session state, and so the approved store, untouched; each of the
    calls appends exactly one audit event, of LOW risk. *)
Theorem C9_approval_idempotent (E : Env) (yes1 yes2 no : string -> pydict -> bool)
  source_table target_table w md :
  store_of (suggested_mappings (state w)) !! mapping_key source_table target_table
  = Some md ->
  yes1 approval_hint (confirmation_payload E source_table target_table md) = true ->
  yes2 approval_hint (confirmation_payload E source_table target_table md) = true ->
  no approval_hint (confirmation_payload E source_table target_table md) = false ->
  let w1 := snd (approve_mappings E yes1 source_table target_table w) in
  let w2 := snd (approve_mappings E yes2 source_table target_table w1) in
  let w3 := snd (approve_mappings E no source_table target_table w) in
  store_of (approved_mappings (state w1)) !! mapping_key source_table target_table
  = Some md
  /\ state w2 = state w1
  /\ (exists e, audit w1 = audit w ++ [e]
                /\ event_type e = "MAPPINGS_APPROVED" /\ event_risk e = "LOW")
  /\ (exists e, audit w2 = audit w1 ++ [e]
                /\ event_type e = "MAPPINGS_APPROVED" /\ event_risk e = "LOW")
  /\ state w3 = state w
  /\ (exists e, audit w3 = audit w ++ [e]
                /\ event_type e = "MAPPINGS_REJECTED" /\ event_risk e = "LOW").
Proof.
  intros Hmd Hy1 Hy2 Hno w1 w2 w3.
  destruct (approve_accepts E yes1 _ _ _ _ Hmd Hy1) as (a1 & H1).
  assert (Hw1 : w1 = snd (approve_mappings E yes1 source_table target_table w))
    by reflexivity.
  rewrite H1 in Hw1. simpl in Hw1.
  assert (Hmd1 : store_of (suggested_mappings (state w1))
                 !! mapping_key source_table target_table = Some md).
  { rewrite Hw1. simpl. exact Hmd. }
  destruct (approve_accepts E yes2 _ _ _ _ Hmd1 Hy2) as (a2 & H2).
  assert (Hw2 : w2 = snd (approve_mappings E yes2 source_table target_table w1))
    by reflexivity.
  rewrite H2 in Hw2. simpl in Hw2.
  destruct (approve_declines E no _ _ _ _ Hmd Hno) as (a3 & H3).
  assert (Hw3 : w3 = snd (approve_mappings E no source_table target_table w))
    by reflexivity.
  rewrite H3 in Hw3. simpl in Hw3.
  clearbody w1 w2 w3.
  split; [rewrite Hw1; simpl; apply lookup_insert_eq |].
  split.
  { rewrite Hw2. simpl. rewrite Hw1. simpl. unfold with_approved. simpl.
    rewrite insert_insert_eq. reflexivity. }
  split; [rewrite Hw1; simpl; eexists; repeat split |].
  split; [rewrite Hw2; simpl; eexists; repeat split |].
  split; [rewrite Hw3; reflexivity |].
  rewrite Hw3. simpl. eexists. repeat split.
Qed.

Lemma C9_witness :
  exists md,
    store_of (suggested_mappings
                (state (snd (suggest_column_mappings quiet_env "cust_src" "customer"
                               (customer_world quiet_env)))))
      !! mapping_key "cust_src" "customer" = Some md
    /\ store_of (approved_mappings (state (customer_approved quiet_env)))
         !! mapping_key "cust_src" "customer" = Some md.
Proof.
  eexists. split; [vm_compute; reflexivity |].
  refine (proj1 (C9_approval_idempotent quiet_env (always true) (always true)
                   (always false) "cust_src" "customer"
                   (snd (suggest_column_mappings quiet_env "cust_src" "customer"
                           (customer_world quiet_env))) _ _ eq_refl eq_refl eq_refl)).
  vm_compute; reflexivity.
Defined.

(** ** Stored mapping sets are never empty *)

Section Invariant.

Context (E : Env).

Lemma suggest_one_per_target source_table target_table w r w' :
  suggest_column_mappings E source_table target_table w = (Returned (Result r), w') ->
  exists ts target_cols,
    target_schema (state w) = Some ts
    /\ find_columns (tables ts) target_table = Some target_cols
    /\ map target_column (r_mappings r) = dict_keys target_cols
    /\ List.NoDup (dict_keys target_cols)
    /\ r_mappings r <> [].
Proof.
  intros Hcall.
  destruct (suggest_result E _ _ _ _ _ Hcall)
    as (ss & ts & source_cols & target_cols & _ & Hts & _ & Ht & _ & Hne & Hb & _).
  destruct (build_mappings_kept E source_cols target_cols) as (ms & Hms & _ & Hkeys).
  rewrite Hms in Hb. injection Hb as ->.
  exists ts, target_cols. repeat split; auto.
  - eapply find_columns_NoDup. exact Ht.
  - intros Hnil. rewrite Hnil in Hkeys. destruct target_cols; [auto | discriminate].
Qed.

(** A call that does not return a result leaves the world as it was. *)
Lemma suggest_cases source_table target_table w :
  (exists r w',
      suggest_column_mappings E source_table target_table w = (Returned (Result r), w'))
  \/ snd (suggest_column_mappings E source_table target_table w) = w.
Proof.
  unfold suggest_column_mappings.
  destruct (source_schema (state w)) as [ss|]; [| right; reflexivity].
  destruct (target_schema (state w)) as [ts|]; [| right; reflexivity].
  destruct (find_columns (tables ss) source_table) as [[| s0 sl]|];
    try (right; reflexivity).
  destruct (find_columns (tables ts) target_table) as [[| t0 tl]|];
    try (right; reflexivity).
  destruct (build_mappings E (s0 :: sl) (t0 :: tl)) as [ms|e]; [| right; reflexivity].
  destruct (validate_mapping_output E ms _ _) as [[is_valid error_msg] hallucinated].
  left. eauto.
Qed.

Lemma approve_cases confirm source_table target_table w :
  state (snd (approve_mappings E confirm source_table target_table w)) = state w
  \/ exists md,
       store_of (suggested_mappings (state w)) !! mapping_key source_table target_table
       = Some md
       /\ state (snd (approve_mappings E confirm source_table target_table w))
          = with_approved
              (<[mapping_key source_table target_table := md]>
                 (store_of (approved_mappings (state w)))) (state w).
Proof.
  unfold approve_mappings.
  destruct (store_of (suggested_mappings (state w)) !! _) as [md|] eqn:Hmd;
    [| left; reflexivity].
  destruct (confirm _ _); [right; exists md; split; reflexivity | left; reflexivity].
Qed.

Lemma generate_keeps_sets source_table target_table w :
  suggested_mappings (state (snd (generate_transformation_sql E source_table target_table w)))
  = suggested_mappings (state w)
  /\ approved_mappings (state (snd (generate_transformation_sql E source_table target_table w)))
     = approved_mappings (state w).
Proof.
  unfold generate_transformation_sql.
  destruct (store_of (approved_mappings (state w)) !! _) as [md|]; [| auto].
  destruct (merge_text E source_table target_table md) as [merge|e]; [| auto].
  destruct (validate_sql_query E _) as [[sql_valid sql_error] warnings].
  destruct sql_valid; simpl; auto.
Qed.

Lemma execute_keeps_state client source_table target_table dry_run w :
  state (snd (execute_transformation E client source_table target_table dry_run w))
  = state w.
Proof.
  unfold execute_transformation.
  destruct (store_of (generated_sql (state w)) !! _) as [sql_data|]; [| reflexivity].
  destruct client as [client_query|exn]; [| reflexivity].
  destruct (client_query _ dry_run) as [e|job]; [reflexivity |].
  destruct dry_run; reflexivity.
Qed.

Lemma well_formed_insert (store : gmap string SuggestResult) k r :
  well_formed_sets store ->
  r_mappings r <> [] -> List.NoDup (map target_column (r_mappings r)) ->
  well_formed_sets (<[k := r]> store).
Proof.
  intros Hwf Hne Hnd k' r' Hlook.
  destruct (decide (k = k')) as [<- | Hk].
  - rewrite lookup_insert_eq in Hlook. injection Hlook as <-. auto.
  - rewrite lookup_insert_ne in Hlook by exact Hk. eapply Hwf. exact Hlook.
Qed.

Lemma step_well_formed w w' :
  step E w w' ->
  well_formed_sets (store_of (suggested_mappings (state w)))
  /\ well_formed_sets (store_of (approved_mappings (state w))) ->
  well_formed_sets (store_of (suggested_mappings (state w')))
  /\ well_formed_sets (store_of (approved_mappings (state w'))).
Proof.
  intros Hstep [Hs Ha].
  destruct Hstep as [dataset answer w | dataset answer w | s t w | confirm s t w
                    | s t w | cq s t dry w].
  - destruct answer as [[e|rows]|exn]; simpl; auto.
  - destruct answer as [[e|rows]|exn]; simpl; auto.
  - destruct (suggest_cases s t w) as [(r & w' & Hcall) | ->]; [| auto].
    destruct (suggest_one_per_target _ _ _ _ _ Hcall)
      as (ts & target_cols & _ & _ & Hkeys & Hnd & Hne).
    destruct (suggest_result E _ _ _ _ _ Hcall)
      as (_ & _ & _ & _ & _ & _ & _ & _ & _ & _ & _ & _ & _ & _ & _ & _ & Hst).
    rewrite Hcall. simpl. rewrite Hst. simpl.
    split; [| exact Ha].
    apply well_formed_insert; auto. rewrite Hkeys. exact Hnd.
  - destruct (approve_cases confirm s t w) as [-> | (md & Hmd & ->)]; [auto |].
    simpl. split; [exact Hs |].
    destruct (Hs _ _ Hmd) as [Hne Hnd].
    apply well_formed_insert; auto.
  - destruct (generate_keeps_sets s t w) as [-> ->]. auto.
  - rewrite execute_keeps_state. auto.
Qed.

Lemma reachable_well_formed w :
  reachable E w ->
  well_formed_sets (store_of (suggested_mappings (state w)))
  /\ well_formed_sets (store_of (approved_mappings (state w))).
Proof.
  induction 1 as [| w w' _ IH Hstep].
  - split; intros k r Hlook; simpl in Hlook; rewrite lookup_empty in Hlook;
      discriminate.
  - eapply step_well_formed; eauto.
Qed.

End Invariant.

(** C10: a returned mapping set has exactly one candidate per column of
    the target table, in the order of the table and without repetition,
    and at least one; in every world a session can reach each stored
    suggested or approved mapping set is of that kind, and
    [generate_transformation_sql] returns without raising. *)
Theorem C10_mapping_sets_non_empty (E : Env) w source_table target_table :
  reachable E w ->
  (forall r w',
      suggest_column_mappings E source_table target_table w
      = (Returned (Result r), w') ->
      exists ts target_cols,
        target_schema (state w) = Some ts
        /\ find_columns (tables ts) target_table = Some target_cols
        /\ map target_column (r_mappings r) = dict_keys target_cols
        /\ List.NoDup (dict_keys target_cols)
        /\ r_mappings r <> [])
  /\ well_formed_sets (store_of (suggested_mappings (state w)))
  /\ well_formed_sets (store_of (approved_mappings (state w)))
  /\ exists v,
       fst (generate_transformation_sql E source_table target_table w) = Returned v.
Proof.
  intros Hreach.
  destruct (reachable_well_formed E w Hreach) as [Hs Ha].
  split; [intros r w'; apply suggest_one_per_target |].
  split; [exact Hs |]. split; [exact Ha |].
  unfold generate_transformation_sql.
  destruct (store_of (approved_mappings (state w)) !! _) as [md|] eqn:Hmd;
    [| eexists; reflexivity].
  destruct (Ha _ _ Hmd) as [Hne _].
  unfold merge_text, merge_key.
  destruct (r_mappings md) as [| m ms]; [contradiction |].
  unfold bind.
  destruct (validate_sql_query E _) as [[sql_valid sql_error] warnings].
  destruct sql_valid; simpl; eexists; reflexivity.
Qed.

Lemma customer_approved_reachable : reachable quiet_env (customer_approved quiet_env).
Proof.
  unfold customer_approved, customer_world, load.
  eapply reachable_step; [| apply step_approve].
  eapply reachable_step; [| apply step_suggest].
  eapply reachable_step; [| apply step_get_target_schema].
  eapply reachable_step; [| apply step_get_source_schema].
  apply reachable_initial.
Defined.

Lemma C10_witness :
  reachable quiet_env (customer_approved quiet_env)
  /\ exists v,
       fst (generate_transformation_sql quiet_env "cust_src" "customer"
              (customer_approved quiet_env)) = Returned v.
Proof.
  split; [exact customer_approved_reachable |].
  apply (C10_mapping_sets_non_empty quiet_env (customer_approved quiet_env)
           "cust_src" "customer" customer_approved_reachable).
Defined.

(** * Further properties of the tools *)

(** ** Dicts kept as association lists *)

Lemma dict_get_In {V} k (v : V) d : dict_get k d = Some v -> In (k, v) d.
Proof.
  induction d as [| [k' v'] d IH]; simpl; [discriminate |].
  destruct (String.eqb k k') eqn:Hk.
  - apply String.eqb_eq in Hk. intros [= ->]. left. congruence.
  - intros H. right. auto.
Qed.

Lemma dict_get_None {V} k (d : list (string * V)) :
  dict_get k d = None -> ~ In k (dict_keys d).
Proof.
  intros Hnone Hin. destruct (dict_get_key k d Hin) as [v Hv]. congruence.
Qed.

Lemma dict_set_In {V} k (v : V) d k' v' :
  List.NoDup (dict_keys d) ->
  In (k', v') (dict_set k v d) <->
  (k' = k /\ v' = v) \/ (k' <> k /\ In (k', v') d).
Proof.
  induction d as [| [k0 v0] d IH]; simpl; intros Hnd.
  - split.
    + intros [[= <- <-] | []]. auto.
    + intros [[-> ->] | [_ []]]. auto.
  - inversion Hnd as [| ? ? Hnotin Hnd']; subst.
    destruct (String.eqb k k0) eqn:Hk.
    + apply String.eqb_eq in Hk. subst k0. simpl. split.
      * intros [[= <- <-] | Hin]; [auto |].
        right. split; [| auto].
        intros ->. apply Hnotin. unfold dict_keys. apply in_map_iff.
        exists (k, v'). auto.
      * intros [[-> ->] | [Hne [[= <- <-] | Hin]]]; auto. contradiction.
    + apply String.eqb_neq in Hk. simpl. rewrite (IH Hnd'). split.
      * intros [[= <- <-] | [[-> ->] | [Hne Hin]]]; auto.
      * intros [[-> ->] | [Hne [[= <- <-] | Hin]]]; auto.
Qed.

(** ** Grouping the metadata rows into tables *)

Lemma rows_of_app name l1 l2 : rows_of name (l1 ++ l2) = rows_of name l1 ++ rows_of name l2.
Proof. unfold rows_of. apply List.filter_app. Qed.

Lemma rows_of_absent name rows :
  (forall r, In r rows -> row_table_name r <> name) -> rows_of name rows = [].
Proof.
  induction rows as [| r rows IH]; intros H; [reflexivity |].
  unfold rows_of. simpl.
  destruct (String.eqb (row_table_name r) name) eqn:Hr.
  - apply String.eqb_eq in Hr. exfalso. apply (H r); auto. left. reflexivity.
  - apply IH. intros r' Hr'. apply H. right. exact Hr'.
Qed.

Lemma add_row_grouped d done row :
  grouped d done -> grouped (add_row d row) (done ++ [row]).
Proof.
  intros (Hnd & Hent & Hcov). unfold add_row.
  set (k := row_table_name row).
  assert (Hone : rows_of k [row] = [row]).
  { unfold rows_of. simpl. unfold k. rewrite String.eqb_refl. reflexivity. }
  assert (Hother : forall k', k' <> k -> rows_of k' [row] = []).
  { intros k' Hne. unfold rows_of. simpl. fold k.
    destruct (String.eqb k k') eqn:Hk; [| reflexivity].
    apply String.eqb_eq in Hk. congruence. }
  split; [apply dict_set_NoDup; exact Hnd |]. split.
  - intros k' t' Hin. apply (dict_set_In _ _ _ _ _ Hnd) in Hin.
    destruct Hin as [[-> ->] | [Hne Hin]].
    + simpl. rewrite rows_of_app, Hone, map_app. simpl.
      destruct (dict_get k d) as [t|] eqn:Hget.
      * apply dict_get_In in Hget. destruct (Hent k t Hget) as (Hn & Hc & _).
        simpl. rewrite Hn, Hc. repeat split. intros H.
        apply app_eq_nil in H. destruct H; discriminate.
      * simpl. rewrite rows_of_absent; [repeat split; discriminate |].
        intros r Hr Heq. apply (dict_get_None _ _ Hget). rewrite <- Heq.
        apply Hcov. exact Hr.
    + destruct (Hent k' t' Hin) as (Hn & Hc & Hne').
      rewrite rows_of_app, (Hother k' Hne), app_nil_r. auto.
  - intros r Hr. rewrite dict_set_keys.
    apply in_app_or in Hr.
    destruct (existsb (String.eqb k) (dict_keys d)) eqn:Hex.
    + destruct Hr as [Hr | [<- | []]]; [apply Hcov; exact Hr |].
      apply existsb_exists in Hex. destruct Hex as (x & Hx & Hxk).
      apply String.eqb_eq in Hxk. subst x. exact Hx.
    + apply in_or_app. destruct Hr as [Hr | [<- | []]]; [left; apply Hcov; exact Hr |].
      right. left. reflexivity.
Qed.

Lemma fold_add_row_grouped rows : grouped (fold_left add_row rows []) rows.
Proof.
  induction rows as [| row rows IH] using rev_ind.
  - split; [constructor |]. split; [intros k t [] | intros r []].
  - rewrite fold_left_app. simpl. apply add_row_grouped. exact IH.
Qed.

Lemma group_rows_tables rows :
  List.NoDup (map table_name (group_rows rows))
  /\ (forall t, In t (group_rows rows) ->
        columns t = map column_of_row (rows_of (table_name t) rows)
        /\ columns t <> [])
  /\ (forall r, In r rows ->
        exists t, In t (group_rows rows) /\ table_name t = row_table_name r).
Proof.
  unfold group_rows.
  destruct (fold_add_row_grouped rows) as (Hnd & Hent & Hcov).
  set (d := fold_left add_row rows []) in *.
  assert (Hnames : map table_name (map snd d) = dict_keys d).
  { unfold dict_keys. rewrite map_map. apply map_ext_in.
    intros [k t] Hin. simpl. apply (Hent k t Hin). }
  split; [rewrite Hnames; exact Hnd |]. split.
  - intros t Hin. apply in_map_iff in Hin. destruct Hin as ([k t'] & <- & Hin).
    simpl. destruct (Hent k t' Hin) as (Hn & Hc & Hne). rewrite Hn. auto.
  - intros r Hr. specialize (Hcov r Hr). unfold dict_keys in Hcov.
    apply in_map_iff in Hcov. destruct Hcov as ([k t] & Hk & Hin).
    exists t. split; [apply in_map_iff; exists (k, t); auto |].
    simpl in Hk. subst k. apply (Hent _ t Hin).
Qed.

(** X1: the snapshot built from the rows of the metadata query has one
    table per table name that occurs among the rows, no name twice; the
    columns of a table are the rows of that name, in the order of the
    rows, so no table of a snapshot is without columns; [table_count] is
    the number of tables. *)
Theorem X1_snapshot_groups_rows (E : Env) dataset rows :
  let schema_info := schema_info_of E dataset rows in
  List.NoDup (map table_name (tables schema_info))
  /\ (forall t, In t (tables schema_info) ->
        columns t = map column_of_row (rows_of (table_name t) rows)
        /\ columns t <> [])
  /\ (forall r, In r rows ->
        exists t, In t (tables schema_info) /\ table_name t = row_table_name r)
  /\ table_count schema_info = length (tables schema_info).
Proof.
  simpl.
  destruct (group_rows_tables rows) as (Hnd & Hcols & Hcov).
  split; [exact Hnd |]. split; [exact Hcols |].
  split; [exact Hcov | reflexivity].
Qed.

(** ** Looking a table up in a snapshot *)

Lemma find_columns_Some tbls name d :
  find_columns tbls name = Some d ->
  exists t, In t tbls /\ table_name t = name /\ d = dict_of_columns (columns t).
Proof.
  induction tbls as [| t tbls IH]; simpl; [discriminate |].
  destruct (String.eqb (table_name t) name) eqn:Hn.
  - apply String.eqb_eq in Hn. intros [= <-]. exists t. auto.
  - intros H. destruct (IH H) as (t' & Hin & Ht'). exists t'. auto.
Qed.

Lemma find_columns_None tbls name :
  find_columns tbls name = None -> forall t, In t tbls -> table_name t <> name.
Proof.
  induction tbls as [| t tbls IH]; simpl; [intros _ t [] |].
  destruct (String.eqb (table_name t) name) eqn:Hn; [discriminate |].
  apply String.eqb_neq in Hn.
  intros H t' [<- | Hin]; [exact Hn | apply IH; assumption].
Qed.

Lemma dict_set_not_nil {V} k (v : V) d : dict_set k v d <> [].
Proof. destruct d as [| [k' v'] d]; simpl; [| destruct (String.eqb k k')]; discriminate. Qed.

Lemma dict_of_columns_not_nil cols : cols <> [] -> dict_of_columns cols <> [].
Proof.
  unfold dict_of_columns.
  assert (H : forall (l : list Column) acc, acc <> [] ->
              fold_left (fun d c => dict_set (col_name c) c d) l acc <> []).
  { induction l as [| c l IH]; simpl; intros acc Hacc; [exact Hacc |].
    apply IH. apply dict_set_not_nil. }
  destruct cols as [| c cols]; [contradiction |]. intros _. simpl.
  apply H. discriminate.
Qed.

Lemma snapshot_table_found (E : Env) dataset rows name :
  (exists c cs,
      find_columns (tables (schema_info_of E dataset rows)) name = Some (c :: cs))
  <-> exists r, In r rows /\ row_table_name r = name.
Proof.
  destruct (group_rows_tables rows) as (_ & Hcols & Hcov).
  change (tables (schema_info_of E dataset rows)) with (group_rows rows).
  split.
  - intros (c & cs & Hfind).
    destruct (find_columns_Some _ _ _ Hfind) as (t & Hin & Hn & _).
    destruct (Hcols t Hin) as [Hc Hne]. rewrite Hn in Hc.
    destruct (rows_of name rows) as [| r rs] eqn:Hr; [rewrite Hc in Hne; contradiction |].
    exists r. assert (Hrin : In r (rows_of name rows)) by (rewrite Hr; left; reflexivity).
    unfold rows_of in Hrin. apply filter_In in Hrin. destruct Hrin as [H1 H2].
    apply String.eqb_eq in H2. auto.
  - intros (r & Hr & Hn).
    destruct (Hcov r Hr) as (t & Hin & Ht).
    destruct (find_columns (tables (schema_info_of E dataset rows)) name)
      as [d|] eqn:Hfind.
    + destruct (find_columns_Some _ _ _ Hfind) as (t' & Hin' & _ & ->).
      destruct (Hcols t' Hin') as [_ Hne].
      apply dict_of_columns_not_nil in Hne.
      destruct (dict_of_columns (columns t')) as [| c cs]; [contradiction | eauto].
    + exfalso. apply (find_columns_None _ _ Hfind t Hin). congruence.
Qed.

(** X2: when both snapshots were built from metadata rows,
    [suggest_column_mappings] returns a mapping set exactly when the
    source table name occurs among the source rows and the target table
    name among the target rows; when the source table name does not
    occur, it returns the error dict that names the source table, and
    when the source table name occurs and the target table name does not,
    the error dict that names the target table, in both cases leaving the
    world unchanged. *)
Theorem X2_suggest_succeeds_iff_tables_listed (E : Env) d1 d2 rows1 rows2
  source_table target_table w :
  source_schema (state w) = Some (schema_info_of E d1 rows1) ->
  target_schema (state w) = Some (schema_info_of E d2 rows2) ->
  ((exists r w',
       suggest_column_mappings E source_table target_table w
       = (Returned (Result r), w'))
   <-> (exists r1, In r1 rows1 /\ row_table_name r1 = source_table)
       /\ (exists r2, In r2 rows2 /\ row_table_name r2 = target_table))
  /\ (~ (exists r1, In r1 rows1 /\ row_table_name r1 = source_table) ->
      suggest_column_mappings E source_table target_table w
      = (Returned (Error [("error", PStr ("Source table '" ++ source_table
                                           ++ "' not found in schema."))]), w))
  /\ ((exists r1, In r1 rows1 /\ row_table_name r1 = source_table) ->
      ~ (exists r2, In r2 rows2 /\ row_table_name r2 = target_table) ->
      suggest_column_mappings E source_table target_table w
      = (Returned (Error [("error", PStr ("Target table '" ++ target_table
                                           ++ "' not found in schema."))]), w)).
Proof.
  intros Hss Hts. split; [split |].
  - intros (r & w' & Hcall).
    destruct (suggest_result E _ _ _ _ _ Hcall)
      as (ss & ts & sc & tc & Hss' & Hts' & Hs & Ht & Hne1 & Hne2 & _).
    rewrite Hss in Hss'. injection Hss' as <-.
    rewrite Hts in Hts'. injection Hts' as <-.
    split.
    + apply (snapshot_table_found E d1 rows1 source_table).
      destruct sc as [| c cs]; [contradiction | eauto].
    + apply (snapshot_table_found E d2 rows2 target_table).
      destruct tc as [| c cs]; [contradiction | eauto].
  - intros [H1 H2].
    apply (snapshot_table_found E d1) in H1. destruct H1 as (c1 & cs1 & H1).
    apply (snapshot_table_found E d2) in H2. destruct H2 as (c2 & cs2 & H2).
    eapply suggest_returns; eauto.
  - split.
    + intros Hno. unfold suggest_column_mappings. rewrite Hss, Hts.
      destruct (find_columns (tables (schema_info_of E d1 rows1)) source_table)
        as [[| c cs]|] eqn:Hs; try reflexivity.
      exfalso. apply Hno. apply (snapshot_table_found E d1 rows1 source_table). eauto.
    + intros H1 Hno.
      apply (snapshot_table_found E d1) in H1. destruct H1 as (c1 & cs1 & H1).
      unfold suggest_column_mappings. rewrite Hss, Hts, H1.
      destruct (find_columns (tables (schema_info_of E d2 rows2)) target_table)
        as [[| c cs]|] eqn:Ht; try reflexivity.
      exfalso. apply Hno. apply (snapshot_table_found E d2 rows2 target_table). eauto.
Qed.

Lemma X2_witness :
  ((exists r w',
       suggest_column_mappings quiet_env "cust_src" "customer" (customer_world quiet_env)
       = (Returned (Result r), w'))
   <-> (exists r1, In r1 cust_src_rows /\ row_table_name r1 = "cust_src")
       /\ (exists r2, In r2 customer_rows /\ row_table_name r2 = "customer"))
  /\ suggest_column_mappings quiet_env "orders" "customer" (customer_world quiet_env)
     = (Returned (Error [("error", PStr "Source table 'orders' not found in schema.")]),
        customer_world quiet_env).
Proof.
  split.
  - apply (X2_suggest_succeeds_iff_tables_listed quiet_env "src" "tgt"
             cust_src_rows customer_rows "cust_src" "customer"
             (customer_world quiet_env)); reflexivity.
  - apply (X2_suggest_succeeds_iff_tables_listed quiet_env "src" "tgt"
             cust_src_rows customer_rows "orders" "customer"
             (customer_world quiet_env)); [reflexivity | reflexivity |].
    intros (r1 & Hin & Hn). simpl in Hin.
    destruct Hin as [<- | [<- | []]]; discriminate.
Defined.

(** ** The fields of a suggested mapping *)

Lemma build_mappings_In (E : Env) source_cols target_cols ms m :
  build_mappings E source_cols target_cols = Returned ms ->
  In m ms ->
  exists target, In target target_cols /\ mapping_for E source_cols target = Returned m.
Proof.
  revert ms. induction target_cols as [| target rest IH]; simpl; intros ms.
  - intros [= <-] [].
  - destruct (mapping_for E source_cols target) as [m0|e] eqn:Hm0; [| discriminate].
    destruct (build_mappings E source_cols rest) as [ms0|e] eqn:Hrest; [| discriminate].
    simpl. intros [= <-] [<- | Hin]; [eauto |].
    destruct (IH ms0 eq_refl Hin) as (t & Ht & Hmt). eauto.
Qed.

Lemma mapping_for_status (E : Env) source_cols target m :
  mapping_for E source_cols target = Returned m ->
  status m = (if is_mapped m then "suggested" else "unmapped")
  /\ source_type m
     = (if is_mapped m
        then option_map col_type (dict_get (fmt_opt (source_column m)) source_cols)
        else None).
Proof.
  destruct target as [tn tc]. unfold mapping_for, is_mapped.
  destruct (best_of source_cols tn tc) as [[bm bc] btr].
  destruct (Py.truthy bm) eqn:Htr.
  - destruct (dict_get (fmt_opt bm) source_cols) as [c|] eqn:Hget; [| discriminate].
    simpl. intros [= <-]. simpl. rewrite Htr, Hget. auto.
  - simpl. intros [= <-]. simpl. rewrite Htr. auto.
Qed.

Lemma partition_length {A} (f : A -> bool) l :
  length (List.filter f l) + length (List.filter (fun x => negb (f x)) l) = length l.
Proof.
  induction l as [| x l IH]; simpl; [reflexivity |].
  destruct (f x); simpl; lia.
Qed.

(** X3: in a returned mapping set the counts of mapped and of unmapped
    candidates add up to the number of candidates, which is the number of
    columns of the target table. *)
Theorem X3_counts_add_up (E : Env) source_table target_table w r w' :
  suggest_column_mappings E source_table target_table w = (Returned (Result r), w') ->
  r_mapping_count r + r_unmapped_count r = length (r_mappings r)
  /\ exists ts target_cols,
       target_schema (state w) = Some ts
       /\ find_columns (tables ts) target_table = Some target_cols
       /\ length (r_mappings r) = length target_cols.
Proof.
  intros Hcall.
  destruct (suggest_result E _ _ _ _ _ Hcall)
    as (ss & ts & sc & tc & _ & Hts & _ & Ht & _ & _ & Hb & _ & Hc & Hu & _).
  split.
  - rewrite Hc, Hu. unfold count_mapped, count_unmapped. apply partition_length.
  - exists ts, tc. repeat split; auto.
    destruct (build_mappings_kept E sc tc) as (ms & Hms & _ & Hkeys).
    rewrite Hms in Hb. injection Hb as ->.
    unfold dict_keys in Hkeys.
    rewrite <- (length_map target_column), Hkeys, length_map. reflexivity.
Qed.

Lemma X3_witness :
  exists r w',
    suggest_column_mappings quiet_env "cust_src" "customer" (customer_world quiet_env)
    = (Returned (Result r), w')
    /\ r_mapping_count r + r_unmapped_count r = length (r_mappings r).
Proof.
  eexists _, _. split; [vm_compute; reflexivity |].
  assert (Hcall : suggest_column_mappings quiet_env "cust_src" "customer"
                    (customer_world quiet_env) = (Returned (Result _), _))
    by (vm_compute; reflexivity).
  apply (X3_counts_add_up quiet_env _ _ _ _ _ Hcall).
Defined.

(** X4: a returned mapping set names no column that the tables do not
    have: the target column of every candidate is a column of the target
    table and [target_type] is its declared type; a source column, when
    one is given, is a column of the source table, and for a mapped
    candidate [source_type] is its declared type. *)
Theorem X4_no_invented_columns (E : Env) source_table target_table w r w' :
  suggest_column_mappings E source_table target_table w = (Returned (Result r), w') ->
  exists ss ts source_cols target_cols,
    source_schema (state w) = Some ss
    /\ target_schema (state w) = Some ts
    /\ find_columns (tables ss) source_table = Some source_cols
    /\ find_columns (tables ts) target_table = Some target_cols
    /\ forall m, In m (r_mappings r) ->
         (exists tc, dict_get (target_column m) target_cols = Some tc
                     /\ target_type m = col_type tc)
         /\ (forall s, source_column m = Some s ->
               exists sc, dict_get s source_cols = Some sc
                          /\ (is_mapped m = true -> source_type m = Some (col_type sc))).
Proof.
  intros Hcall.
  destruct (suggest_result E _ _ _ _ _ Hcall)
    as (ss & ts & sc & tc & Hss & Hts & Hs & Ht & _ & _ & Hb & _).
  exists ss, ts, sc, tc. repeat split; auto.
  - destruct (build_mappings_In E _ _ _ _ Hb H) as ([tn tcol] & Hin & Hm).
    destruct (mapping_for_kept E sc (tn, tcol)) as (m' & Hm' & Htc & Hty & _).
    rewrite Hm in Hm'. injection Hm' as <-.
    exists tcol. split; [| exact Hty].
    rewrite Htc. simpl. apply dict_get_unique; [| exact Hin].
    eapply find_columns_NoDup. exact Ht.
  - intros s Hsrc.
    destruct (build_mappings_In E _ _ _ _ Hb H) as (target & Hin & Hm).
    destruct (mapping_for_kept E sc target) as (m' & Hm' & _ & _ & Hk).
    rewrite Hm in Hm'. injection Hm' as <-.
    destruct Hk as [_ Hnone _ _ _ _ | l1 item l2 c tr Hl Hit _ _ Hsc _ _];
      [congruence |].
    rewrite Hsrc in Hsc. injection Hsc as ->.
    assert (Hitem : In (fst item, snd item) sc).
    { rewrite Hl. apply in_or_app. right. left. destruct item; reflexivity. }
    assert (Hget : dict_get (fst item) sc = Some (snd item)).
    { apply dict_get_unique; [| exact Hitem]. eapply find_columns_NoDup. exact Hs. }
    exists (snd item). split; [exact Hget |].
    intros Hmapped.
    destruct (mapping_for_status E _ _ _ Hm) as [_ Hst].
    rewrite Hmapped, Hsrc in Hst. simpl in Hst. rewrite Hget in Hst. exact Hst.
Qed.

Lemma X4_witness :
  exists r w',
    suggest_column_mappings quiet_env "cust_src" "customer" (customer_world quiet_env)
    = (Returned (Result r), w')
    /\ exists ss source_cols,
         source_schema (state (customer_world quiet_env)) = Some ss
         /\ find_columns (tables ss) "cust_src" = Some source_cols.
Proof.
  eexists _, _. split; [vm_compute; reflexivity |].
  assert (Hcall : suggest_column_mappings quiet_env "cust_src" "customer"
                    (customer_world quiet_env) = (Returned (Result _), _))
    by (vm_compute; reflexivity).
  destruct (X4_no_invented_columns quiet_env _ _ _ _ _ Hcall)
    as (ss & ts & sc & tc & Hss & _ & Hs & _).
  exists ss, sc. split; assumption.
Defined.

(** X5: in a returned mapping set the status of a candidate is suggested
    exactly when its source column is a non-empty name and unmapped
    otherwise; an unmapped candidate has no source type; a candidate has
    no source column exactly when its confidence is 0; and when no column
    of the source table has the empty name, a candidate is unmapped
    exactly when it has no source column. *)
Theorem X5_status_agrees_with_source (E : Env) source_table target_table w r w' :
  suggest_column_mappings E source_table target_table w = (Returned (Result r), w') ->
  exists ss source_cols,
    source_schema (state w) = Some ss
    /\ find_columns (tables ss) source_table = Some source_cols
    /\ forall m, In m (r_mappings r) ->
         (status m = "suggested" <-> is_mapped m = true)
         /\ (status m = "unmapped" <-> is_mapped m = false)
         /\ (is_mapped m = false -> source_type m = None)
         /\ (source_column m = None <-> (confidence m == 0)%Q)
         /\ ((forall k, In k (dict_keys source_cols) -> k <> EmptyString) ->
             (status m = "unmapped" <-> source_column m = None)).
Proof.
  intros Hcall.
  destruct (suggest_result E _ _ _ _ _ Hcall)
    as (ss & ts & sc & tc & Hss & _ & Hs & _ & _ & _ & Hb & _).
  exists ss, sc. split; [exact Hss |]. split; [exact Hs |].
  intros m Hm.
  destruct (build_mappings_In E _ _ _ _ Hb Hm) as (target & Hin & Hfor).
  destruct (mapping_for_status E _ _ _ Hfor) as [Hst Hty].
  destruct (mapping_for_kept E sc target) as (m' & Hm' & _ & _ & Hk).
  rewrite Hfor in Hm'. injection Hm' as <-.
  assert (Hstat : (status m = "suggested" <-> is_mapped m = true)
                  /\ (status m = "unmapped" <-> is_mapped m = false)).
  { rewrite Hst. destruct (is_mapped m); split; split; auto; discriminate. }
  destruct Hstat as [Hsug Hunm].
  split; [exact Hsug |]. split; [exact Hunm |].
  split; [intros Hf; rewrite Hf in Hty; exact Hty |].
  split.
  - destruct Hk as [_ Hnone _ Hc _ _ | l1 item l2 c tr Hl Hit _ _ Hsc Hc _].
    + rewrite Hnone, Hc. split; reflexivity.
    + rewrite Hsc, Hc. split; [discriminate |].
      intros H0. exfalso.
      destruct (scores_positive c (candidate_in_scores _ _ _ _ _ _ Hit)) as [Hpos _].
      rewrite H0 in Hpos. discriminate.
  - intros Hnames. rewrite Hunm. unfold is_mapped.
    destruct Hk as [_ Hnone _ _ _ _ | l1 item l2 c tr Hl Hit _ _ Hsc _ _].
    + rewrite Hnone. split; reflexivity.
    + rewrite Hsc.
      assert (Hkey : fst item <> EmptyString).
      { apply Hnames. rewrite Hl. unfold dict_keys. rewrite map_app.
        apply in_or_app. right. left. reflexivity. }
      destruct (fst item) as [| c0 s0]; [contradiction |].
      simpl. split; discriminate.
Qed.

Lemma X5_witness :
  exists r w',
    suggest_column_mappings quiet_env "cust_src" "customer" (customer_world quiet_env)
    = (Returned (Result r), w')
    /\ forall m, In m (r_mappings r) ->
         (source_column m = None <-> (confidence m == 0)%Q).
Proof.
  eexists _, _. split; [vm_compute; reflexivity |].
  assert (Hcall : suggest_column_mappings quiet_env "cust_src" "customer"
                    (customer_world quiet_env) = (Returned (Result _), _))
    by (vm_compute; reflexivity).
  destruct (X5_status_agrees_with_source quiet_env _ _ _ _ _ Hcall)
    as (ss & sc & _ & _ & Hall).
  intros m Hm. apply (Hall m Hm).
Defined.

(** ** Symmetry and letter case in the cascade *)

Lemma fold_left_swap (f : string * string -> string -> string * string) l n :
  (forall n p, f (swap_names n) p = swap_names (f n p)) ->
  fold_left f l (swap_names n) = swap_names (fold_left f l n).
Proof.
  intros Hf. revert n. induction l as [| p l IH]; intros n; [reflexivity |].
  simpl. rewrite Hf. apply IH.
Qed.

Lemma normalized_names_swap name1 name2 :
  normalized_names name2 name1 = swap_names (normalized_names name1 name2).
Proof.
  unfold normalized_names.
  change (Py.lower name2, Py.lower name1)
    with (swap_names (Py.lower name1, Py.lower name2)).
  rewrite fold_left_swap by reflexivity.
  apply fold_left_swap.
  intros n suffix. unfold strip_suffix_step, swap_names. simpl.
  rewrite andb_comm. destruct (_ && _); reflexivity.
Qed.

(** X6: the name rules do not depend on which of the two names is the
    source and which the target: [_similar_names] and the rule cascade
    give the same answer with the two names exchanged. *)
Theorem X6_cascade_symmetric name1 name2 :
  _similar_names name1 name2 = _similar_names name2 name1
  /\ rule_confidence name1 name2 = rule_confidence name2 name1.
Proof.
  assert (Hsim : _similar_names name1 name2 = _similar_names name2 name1).
  { unfold _similar_names. rewrite (normalized_names_swap name1 name2).
    destruct (normalized_names name1 name2) as [n1 n2]. simpl.
    rewrite (String.eqb_sym n2 n1), <- !orb_assoc.
    f_equal. apply orb_comm. }
  split; [exact Hsim |].
  unfold rule_confidence. rewrite Hsim.
  rewrite (String.eqb_sym (Py.lower name2) (Py.lower name1)).
  rewrite (orb_comm (Py.contains (Py.lower name2) (Py.lower name1))).
  reflexivity.
Qed.

Lemma normalized_names_equal name1 name2 :
  Py.lower name1 = Py.lower name2 ->
  fst (normalized_names name1 name2) = snd (normalized_names name1 name2).
Proof.
  intros Heq. unfold normalized_names. rewrite Heq.
  assert (H : forall (f : string * string -> string -> string * string) l n,
             (forall n p, fst n = snd n -> fst (f n p) = snd (f n p)) ->
             fst n = snd n -> fst (fold_left f l n) = snd (fold_left f l n)).
  { intros f l. induction l as [| p l IH]; intros n Hf Hn; [exact Hn |].
    simpl. apply IH; [exact Hf | apply Hf; exact Hn]. }
  apply H.
  - intros n p Hn. unfold strip_suffix_step. rewrite Hn.
    destruct (_ && _); [reflexivity | exact Hn].
  - apply H; [| reflexivity].
    intros n p Hn. unfold strip_prefix_step. simpl. rewrite Hn. reflexivity.
Qed.

(** X7: the name rules look at the lowercased names only: two pairs of
    names that agree up to the case of ASCII letters get the same
    answer from [_similar_names] and the same rule confidence; and names
    that are equal up to case are also similar, so that the exact-match
    rule is reached first only because of its place in the cascade. *)
Theorem X7_cascade_ignores_case s s' t t' :
  Py.lower s = Py.lower s' ->
  Py.lower t = Py.lower t' ->
  _similar_names s t = _similar_names s' t'
  /\ rule_confidence s t = rule_confidence s' t'
  /\ (Py.lower s = Py.lower t ->
      _similar_names s t = true /\ rule_confidence s t = Some 0.95%Q).
Proof.
  intros Hs Ht.
  assert (Hsim : _similar_names s t = _similar_names s' t').
  { unfold _similar_names, normalized_names. rewrite Hs, Ht. reflexivity. }
  split; [exact Hsim |]. split.
  - unfold rule_confidence. rewrite Hsim, Hs, Ht. reflexivity.
  - intros Heq. split.
    + pose proof (normalized_names_equal s t Heq) as Hn.
      unfold _similar_names. destruct (normalized_names s t) as [n1 n2].
      simpl in Hn. subst n2. rewrite String.eqb_refl. reflexivity.
    + apply (rule_cascade s t). exact Heq.
Qed.

Lemma X7_witness :
  Py.lower "Cust_ID" = Py.lower "cust_id"
  /\ Py.lower "CUSTOMER_ID" = Py.lower "customer_id"
  /\ rule_confidence "Cust_ID" "CUSTOMER_ID" = rule_confidence "cust_id" "customer_id".
Proof.
  split; [reflexivity |]. split; [reflexivity |].
  apply (X7_cascade_ignores_case "Cust_ID" "cust_id" "CUSTOMER_ID" "customer_id");
    reflexivity.
Defined.

(** ** What a suggestion writes *)

(** X8: [suggest_column_mappings] writes nothing but the entry of its own
    key in the store of suggestions: both snapshots, the approved
    mapping sets, the generated SQL and the suggestions filed under any
    other key are as before, and a returned mapping set is the one found
    under the key afterwards. *)
Theorem X8_suggest_writes_one_entry (E : Env) source_table target_table w :
  let w' := snd (suggest_column_mappings E source_table target_table w) in
  source_schema (state w') = source_schema (state w)
  /\ target_schema (state w') = target_schema (state w)
  /\ approved_mappings (state w') = approved_mappings (state w)
  /\ generated_sql (state w') = generated_sql (state w)
  /\ (forall k, k <> mapping_key source_table target_table ->
        store_of (suggested_mappings (state w')) !! k
        = store_of (suggested_mappings (state w)) !! k)
  /\ (forall r,
        fst (suggest_column_mappings E source_table target_table w)
        = Returned (Result r) ->
        store_of (suggested_mappings (state w'))
          !! mapping_key source_table target_table = Some r).
Proof.
  intros w'. subst w'.
  destruct (suggest_cases E source_table target_table w)
    as [(r & w' & Hcall) | Hsame].
  - destruct (suggest_result E _ _ _ _ _ Hcall)
      as (_ & _ & _ & _ & _ & _ & _ & _ & _ & _ & _ & _ & _ & _ & _ & _ & Hst).
    rewrite Hcall. simpl. rewrite Hst. simpl.
    repeat split; auto.
    + intros k Hk. apply lookup_insert_ne. congruence.
    + intros r' [= <-]. apply lookup_insert_eq.
  - rewrite Hsame. repeat split; auto.
    intros r Hr.
    destruct (suggest_column_mappings E source_table target_table w) as [o w1] eqn:Hc.
    simpl in Hr, Hsame. subst o w1.
    destruct (suggest_result E _ _ _ _ _ Hc)
      as (_ & _ & _ & _ & _ & _ & _ & _ & _ & _ & _ & _ & _ & _ & _ & _ & Hst).
    rewrite Hst. simpl. apply lookup_insert_eq.
Qed.

(** X9: asking again for the same pair, with the snapshots unchanged,
    returns the same mapping set and leaves the session state as the
    first call left it. *)
Theorem X9_suggest_again_same (E : Env) source_table target_table w r w1 :
  suggest_column_mappings E source_table target_table w = (Returned (Result r), w1) ->
  exists w2,
    suggest_column_mappings E source_table target_table w1 = (Returned (Result r), w2)
    /\ state w2 = state w1.
Proof.
  unfold suggest_column_mappings.
  destruct (source_schema (state w)) as [ss|] eqn:Hss; [| discriminate].
  destruct (target_schema (state w)) as [ts|] eqn:Hts; [| discriminate].
  destruct (find_columns (tables ss) source_table) as [[| s0 sl]|] eqn:Hs;
    try discriminate.
  destruct (find_columns (tables ts) target_table) as [[| t0 tl]|] eqn:Ht;
    try discriminate.
  destruct (build_mappings E (s0 :: sl) (t0 :: tl)) as [ms|e] eqn:Hb;
    [| discriminate].
  destruct (validate_mapping_output E ms _ _) as [[is_valid error_msg] hallucinated]
    eqn:Hv.
  intros [= <- <-].
  destruct is_valid; simpl; rewrite Hss, Hts, Hs, Ht, Hb, Hv;
    (eexists; split; [reflexivity |]);
    simpl; unfold with_suggested; simpl; rewrite insert_insert_eq; reflexivity.
Qed.

Lemma X9_witness :
  exists r w1 w2,
    suggest_column_mappings quiet_env "cust_src" "customer" (customer_world quiet_env)
    = (Returned (Result r), w1)
    /\ suggest_column_mappings quiet_env "cust_src" "customer" w1
       = (Returned (Result r), w2)
    /\ state w2 = state w1.
Proof.
  assert (Hcall : suggest_column_mappings quiet_env "cust_src" "customer"
                    (customer_world quiet_env) = (Returned (Result _), _))
    by (vm_compute; reflexivity).
  destruct (X9_suggest_again_same quiet_env _ _ _ _ _ Hcall) as (w2 & H2 & Hst).
  eexists _, _, w2. split; [exact Hcall |]. split; assumption.
Defined.

(** ** Where the key of a pair is unambiguous *)

Lemma length_append (a b : string) :
  String.length (a ++ b) = String.length a + String.length b.
Proof.
  induction a as [| c a IH]; [reflexivity |].
  change (S (String.length (a ++ b)) = S (String.length a + String.length b)).
  rewrite IH. reflexivity.
Qed.

Lemma append_cancel_l (a x y : string) : (a ++ x = a ++ y)%string -> x = y.
Proof.
  induction a as [| c a IH]; intros H; [exact H |].
  change (String c (a ++ x) = String c (a ++ y))%string in H.
  injection H as H. auto.
Qed.

Lemma append_cancel_r (a b x : string) : (a ++ x = b ++ x)%string -> a = b.
Proof.
  revert b. induction a as [| c a IH]; intros [| c' b] H.
  - reflexivity.
  - exfalso. apply (f_equal String.length) in H.
    rewrite !length_append in H. simpl in H. lia.
  - exfalso. apply (f_equal String.length) in H.
    rewrite !length_append in H. simpl in H. lia.
  - change (String c (a ++ x) = String c' (b ++ x))%string in H.
    injection H as -> H. f_equal. auto.
Qed.

Lemma no_underscore_cons c s :
  Py.contains "_" (String c s) = false -> c <> "_"%char /\ Py.contains "_" s = false.
Proof.
  cbn [Py.contains]. intros H. apply orb_false_iff in H. destruct H as [Hp Hc].
  split; [| exact Hc].
  intros ->. simpl in Hp. destruct s; discriminate.
Qed.

Lemma key_split s s' t t' :
  Py.contains "_" s = false -> Py.contains "_" s' = false ->
  mapping_key s t = mapping_key s' t' -> s = s' /\ t = t'.
Proof.
  unfold mapping_key. revert s'.
  induction s as [| c s IH]; intros [| c' s'] Hs Hs' H.
  - split; [reflexivity |]. eapply append_cancel_l. exact H.
  - exfalso. apply no_underscore_cons in Hs'. destruct Hs' as [Hc' _].
    change (String "_" ("to_" ++ t) = String c' (s' ++ "_to_" ++ t'))%string in H.
    injection H as Hc _. congruence.
  - exfalso. apply no_underscore_cons in Hs. destruct Hs as [Hc _].
    change (String c (s ++ "_to_" ++ t) = String "_" ("to_" ++ t'))%string in H.
    injection H as Hc' _. congruence.
  - apply no_underscore_cons in Hs. apply no_underscore_cons in Hs'.
    change (String c (s ++ "_to_" ++ t) = String c' (s' ++ "_to_" ++ t'))%string in H.
    injection H as -> H.
    destruct (IH s' (proj2 Hs) (proj2 Hs') H) as [-> ->]. auto.
Qed.

(** X10: two pairs filed under the same key are the same pair when they
    have the same source table, or the same target table, or when neither
    source table name contains an underscore. *)
Theorem X10_key_identifies_pair s s' t t' :
  mapping_key s t = mapping_key s' t' ->
  (s = s' -> t = t')
  /\ (t = t' -> s = s')
  /\ (Py.contains "_" s = false -> Py.contains "_" s' = false -> s = s' /\ t = t').
Proof.
  intros H. split; [| split].
  - intros <-. unfold mapping_key in H.
    apply append_cancel_l in H. apply append_cancel_l in H. exact H.
  - intros <-. unfold mapping_key in H. eapply append_cancel_r. exact H.
  - intros Hs Hs'. eapply key_split; eauto.
Qed.

Lemma X10_witness :
  mapping_key "usd" "eur" = mapping_key "usd" "eur"
  /\ (Py.contains "_" "usd" = false -> Py.contains "_" "usd" = false ->
      "usd" = "usd" /\ "eur" = "eur").
Proof.
  split; [reflexivity |].
  apply (X10_key_identifies_pair "usd" "usd" "eur" "eur"). reflexivity.
Defined.

(** ** What the later stages write *)

(** X11: [approve_mappings] leaves the snapshots, the suggestions and
    the generated SQL alone and changes the approved store at its own
    key at most; [generate_transformation_sql] leaves the snapshots, the
    suggestions and the approved mapping sets alone and changes the store
    of generated SQL at its own key at most; [execute_transformation]
    leaves the whole session state alone. *)
Theorem X11_stages_write_own_store (E : Env) confirm client dry_run
  source_table target_table w :
  let wa := snd (approve_mappings E confirm source_table target_table w) in
  let wg := snd (generate_transformation_sql E source_table target_table w) in
  let we := snd (execute_transformation E client source_table target_table
                   dry_run w) in
  (source_schema (state wa) = source_schema (state w)
   /\ target_schema (state wa) = target_schema (state w)
   /\ suggested_mappings (state wa) = suggested_mappings (state w)
   /\ generated_sql (state wa) = generated_sql (state w)
   /\ forall k, k <> mapping_key source_table target_table ->
        store_of (approved_mappings (state wa)) !! k
        = store_of (approved_mappings (state w)) !! k)
  /\ (source_schema (state wg) = source_schema (state w)
      /\ target_schema (state wg) = target_schema (state w)
      /\ suggested_mappings (state wg) = suggested_mappings (state w)
      /\ approved_mappings (state wg) = approved_mappings (state w)
      /\ forall k, k <> mapping_key source_table target_table ->
           store_of (generated_sql (state wg)) !! k
           = store_of (generated_sql (state w)) !! k)
  /\ state we = state w.
Proof.
  intros wa wg we. split; [| split].
  - subst wa.
    destruct (approve_cases E confirm source_table target_table w)
      as [-> | (md & _ & ->)]; [repeat split; auto |].
    simpl. repeat split; auto.
    intros k Hk. apply lookup_insert_ne. congruence.
  - subst wg. unfold generate_transformation_sql.
    destruct (store_of (approved_mappings (state w)) !! _) as [md|];
      [| repeat split; auto].
    destruct (merge_text E source_table target_table md) as [merge|e];
      [| repeat split; auto].
    destruct (validate_sql_query E _) as [[sql_valid sql_error] warnings].
    destruct sql_valid; simpl; repeat split; auto.
    intros k Hk. apply lookup_insert_ne. congruence.
  - apply execute_keeps_state.
Qed.

(** X12: when the SQL check rejects the generated INSERT, the error of
    the check is returned in a dict with status error and both table
    names, no SQL is stored (the session state is unchanged), and the
    audit log grows by the one event INVALID_SQL_BLOCKED of HIGH risk. *)
Theorem X12_rejected_sql_not_stored (E : Env) source_table target_table w md m ms :
  store_of (approved_mappings (state w)) !! mapping_key source_table target_table
  = Some md ->
  r_mappings md = m :: ms ->
  fst (fst (validate_sql_query E (insert_text E source_table target_table md)))
  = false ->
  exists d e,
    generate_transformation_sql E source_table target_table w
    = (Returned (Error d), {| state := state w; audit := audit w ++ [e] |})
    /\ dict_get "status" d = Some (PStr "error")
    /\ dict_get "error" d
       = Some (PStr (snd (fst (validate_sql_query E
                                 (insert_text E source_table target_table md)))))
    /\ carries_tables d source_table target_table
    /\ event_type e = "INVALID_SQL_BLOCKED" /\ event_risk e = "HIGH".
Proof.
  intros Hmd Hms Hv. unfold generate_transformation_sql. rewrite Hmd.
  unfold merge_text, merge_key. rewrite Hms. unfold bind.
  destruct (validate_sql_query E _) as [[sql_valid sql_error] warnings].
  simpl in Hv. subst sql_valid. simpl.
  eexists _, _. split; [reflexivity |].
  repeat split.
Qed.

Lemma X12_witness :
  exists md d w',
    store_of (approved_mappings (state (customer_approved strict_env)))
      !! mapping_key "cust_src" "customer" = Some md
    /\ generate_transformation_sql strict_env "cust_src" "customer"
         (customer_approved strict_env)
       = (Returned (Error d), w')
    /\ state w' = state (customer_approved strict_env).
Proof.
  assert (Hmd : store_of (approved_mappings (state (customer_approved strict_env)))
                !! mapping_key "cust_src" "customer" = Some _)
    by (vm_compute; reflexivity).
  destruct (X12_rejected_sql_not_stored strict_env "cust_src" "customer"
              (customer_approved strict_env) _ _ _ Hmd eq_refl eq_refl)
    as (d & e & Hgen & _).
  eexists _, d, _. split; [exact Hmd |]. split; [exact Hgen | reflexivity].
Defined.

(** X13: generating SQL does not use up the approved mapping set: after a
    successful call the set is still stored, and a second call succeeds
    with the same INSERT and MERGE text, overwriting the stored entry. *)
Theorem X13_generate_again_same_sql (E : Env) source_table target_table w g w1 :
  generate_transformation_sql E source_table target_table w
  = (Returned (Result g), w1) ->
  approved_mappings (state w1) = approved_mappings (state w)
  /\ store_of (generated_sql (state w1)) !! mapping_key source_table target_table
     = Some g
  /\ exists g' w2,
       generate_transformation_sql E source_table target_table w1
       = (Returned (Result g'), w2)
       /\ insert_sql g' = insert_sql g
       /\ merge_sql g' = merge_sql g
       /\ column_count g' = column_count g
       /\ mapped_count g' = mapped_count g.
Proof.
  intros Hgen.
  destruct (generate_result E _ _ _ _ _ Hgen) as (md & Hmd & Hins & Hmerge & Hv & Hst).
  destruct (generate_keeps_sets E source_table target_table w) as [_ Hap].
  rewrite Hgen in Hap. simpl in Hap.
  split; [exact Hap |].
  split; [rewrite Hst; simpl; apply lookup_insert_eq |].
  assert (Hmd1 : store_of (approved_mappings (state w1))
                 !! mapping_key source_table target_table = Some md)
    by (rewrite Hap; exact Hmd).
  destruct (merge_text_emits E _ _ _ _ Hmerge) as (m & ms & _ & _ & _ & Hms & _).
  destruct (generate_returns E _ _ _ _ _ _ Hmd1 Hms Hv) as (g' & w2 & Hgen').
  exists g', w2. split; [exact Hgen' |].
  destruct (generate_result E _ _ _ _ _ Hgen') as (md' & Hmd' & Hins' & Hmerge' & _).
  rewrite Hmd1 in Hmd'. injection Hmd' as <-.
  split; [congruence |]. split; [congruence |].
  clear - Hgen Hgen' Hmd Hmd1.
  unfold generate_transformation_sql in Hgen, Hgen'.
  rewrite Hmd in Hgen. rewrite Hmd1 in Hgen'.
  destruct (merge_text E source_table target_table md) as [merge|e]; [| discriminate].
  destruct (validate_sql_query E _) as [[sql_valid sql_error] warnings].
  destruct sql_valid; simpl in *; [| discriminate].
  injection Hgen as <- _. injection Hgen' as <- _. split; reflexivity.
Qed.

Lemma X13_witness :
  exists g w1 g' w2,
    generate_transformation_sql quiet_env "cust_src" "customer"
      (customer_approved quiet_env)
    = (Returned (Result g), w1)
    /\ generate_transformation_sql quiet_env "cust_src" "customer" w1
       = (Returned (Result g'), w2)
    /\ insert_sql g' = insert_sql g.
Proof.
  assert (Hgen : generate_transformation_sql quiet_env "cust_src" "customer"
                   (customer_approved quiet_env) = (Returned (Result _), _))
    by (vm_compute; reflexivity).
  destruct (X13_generate_again_same_sql quiet_env _ _ _ _ _ Hgen)
    as (_ & _ & g' & w2 & Hgen' & Hins & _).
  eexists _, _, g', w2. split; [exact Hgen |]. split; assumption.
Defined.

(** ** Execution *)

(** X14: with SQL generated for the pair, when building the warehouse
    client raises, the exception leaves [execute_transformation] with the
    session state and the audit log unchanged, nothing being logged; when
    the client is built, the tool sends the stored INSERT with the
    placeholder {timestamp} replaced by NOW(), returns, never changes the
    session state, and appends exactly one audit event: a dry run that
    the warehouse accepts returns status validated with the bytes
    processed (event SQL_VALIDATED, LOW), a live run returns status
    executed (event SQL_EXECUTED, HIGH), and a failure of the warehouse
    is returned as an error dict with both table names and the error text
    (event SQL_ERROR, HIGH). *)
Theorem X14_execute_reports (E : Env) client source_table target_table
  dry_run w sql_data :
  store_of (generated_sql (state w)) !! mapping_key source_table target_table
  = Some sql_data ->
  let sql := Py.replace (insert_sql sql_data) "{timestamp}" "NOW()" in
  match client with
  | Raised exn =>
      execute_transformation E client source_table target_table dry_run w
      = (Raised exn, w)
  | Returned client_query =>
      exists reply e,
        execute_transformation E client source_table target_table dry_run w
        = (Returned reply, {| state := state w; audit := audit w ++ [e] |})
        /\ category e = "SQL_EXECUTION"
        /\ match client_query sql dry_run with
           | inr job =>
               exists d,
                 reply = Result d
                 /\ dict_get "source_table" d = Some (PStr source_table)
                 /\ dict_get "target_table" d = Some (PStr target_table)
                 /\ if dry_run
                    then dict_get "status" d = Some (PStr "validated")
                         /\ dict_get "bytes_processed" d
                            = Some (total_bytes_processed job)
                         /\ event_type e = "SQL_VALIDATED" /\ event_risk e = "LOW"
                    else dict_get "status" d = Some (PStr "executed")
                         /\ dict_get "rows_affected" d
                            = Some (num_dml_affected_rows job)
                         /\ dict_get "job_id" d = Some (job_id job)
                         /\ event_type e = "SQL_EXECUTED" /\ event_risk e = "HIGH"
           | inl err =>
               exists d,
                 reply = Error d
                 /\ carries_tables d source_table target_table
                 /\ dict_get "error" d = Some (PStr err)
                 /\ event_type e = "SQL_ERROR" /\ event_risk e = "HIGH"
           end
  end.
Proof.
  intros Hsql sql. subst sql. unfold execute_transformation. rewrite Hsql.
  destruct client as [client_query|exn]; [| reflexivity].
  destruct (client_query _ dry_run) as [err|job].
  - eexists _, _. split; [reflexivity |]. split; [reflexivity |].
    eexists. repeat split.
  - destruct dry_run.
    + eexists _, _. split; [reflexivity |]. split; [reflexivity |].
      eexists. repeat split.
    + eexists _, _. split; [reflexivity |]. split; [reflexivity |].
      eexists. repeat split.
Qed.

Lemma X14_witness :
  exists sql_data,
    store_of (generated_sql (state (customer_generated quiet_env)))
      !! mapping_key "cust_src" "customer" = Some sql_data
    /\ (exists reply w',
          execute_transformation quiet_env (Returned willing_warehouse)
            "cust_src" "customer" true (customer_generated quiet_env)
          = (Returned reply, w')
          /\ state w' = state (customer_generated quiet_env)
          /\ length (audit w') = S (length (audit (customer_generated quiet_env))))
    /\ execute_transformation quiet_env (Raised "DefaultCredentialsError")
         "cust_src" "customer" true (customer_generated quiet_env)
       = (Raised "DefaultCredentialsError", customer_generated quiet_env).
Proof.
  assert (Hsql : store_of (generated_sql (state (customer_generated quiet_env)))
                 !! mapping_key "cust_src" "customer" = Some _)
    by (vm_compute; reflexivity).
  eexists. split; [exact Hsql |]. split.
  - destruct (X14_execute_reports quiet_env (Returned willing_warehouse)
                "cust_src" "customer" true (customer_generated quiet_env) _ Hsql)
      as (reply & e & Hex & _).
    eexists reply, _. split; [exact Hex |]. split; [reflexivity |].
    cbn [audit]. rewrite List.length_app. apply Nat.add_1_r.
  - exact (X14_execute_reports quiet_env (Raised "DefaultCredentialsError")
             "cust_src" "customer" true (customer_generated quiet_env) _ Hsql).
Defined.

(** ** The stages in sequence *)

(** X15: from any session with both snapshots loaded and both tables
    present, the suggestion succeeds; if the reviewer approves the
    payload shown for it, the approval succeeds and stores the suggestion
    as the approved set; if then the SQL check accepts the INSERT
    generated from it, the generation succeeds with one column per column
    of the target table; and if then the client is built and the
    warehouse accepts the dry run of that INSERT, the dry run reports
    status validated with the bytes processed, without changing the
    session state. *)
Theorem X15_pipeline_composes (E : Env) confirm
  source_table target_table w ss ts s0 sl t0 tl :
  source_schema (state w) = Some ss ->
  target_schema (state w) = Some ts ->
  find_columns (tables ss) source_table = Some (s0 :: sl) ->
  find_columns (tables ts) target_table = Some (t0 :: tl) ->
  exists r w1,
    suggest_column_mappings E source_table target_table w = (Returned (Result r), w1)
    /\ (confirm approval_hint (confirmation_payload E source_table target_table r)
        = true ->
        exists a w2,
          approve_mappings E confirm source_table target_table w1
          = (Returned (Result a), w2)
          /\ store_of (approved_mappings (state w2))
               !! mapping_key source_table target_table = Some r
          /\ (fst (fst (validate_sql_query E
                          (insert_text E source_table target_table r))) = true ->
              exists g w3,
                generate_transformation_sql E source_table target_table w2
                = (Returned (Result g), w3)
                /\ store_of (approved_mappings (state w3))
                     !! mapping_key source_table target_table = Some r
                /\ insert_sql g = insert_text E source_table target_table r
                /\ column_count g = length (t0 :: tl)
                /\ mapped_count g = r_mapping_count r
                /\ forall client_query job,
                     client_query (Py.replace (insert_sql g) "{timestamp}" "NOW()") true
                     = inr job ->
                     exists d w4,
                       execute_transformation E (Returned client_query)
                         source_table target_table true w3
                       = (Returned (Result d), w4)
                       /\ dict_get "status" d = Some (PStr "validated")
                       /\ dict_get "bytes_processed" d
                          = Some (total_bytes_processed job)
                       /\ state w4 = state w3)).
Proof.
  intros Hss Hts Hs Ht.
  destruct (suggest_returns E _ _ _ _ _ _ _ _ _ Hss Hts Hs Ht) as (r & w1 & Hcall).
  exists r, w1. split; [exact Hcall |]. intros Hyes.
  destruct (suggest_one_per_target E _ _ _ _ _ Hcall)
    as (ts' & tc & Hts' & Ht' & Hkeys & _ & Hne).
  rewrite Hts in Hts'. injection Hts' as <-. rewrite Ht in Ht'. injection Ht' as <-.
  assert (Hlen : length (r_mappings r) = length (t0 :: tl)).
  { unfold dict_keys in Hkeys.
    rewrite <- (length_map target_column), Hkeys, length_map. reflexivity. }
  destruct (suggest_result E _ _ _ _ _ Hcall)
    as (_ & _ & _ & _ & _ & _ & _ & _ & _ & _ & _ & _ & _ & _ & _ & _ & Hst).
  assert (Hsug : store_of (suggested_mappings (state w1))
                 !! mapping_key source_table target_table = Some r).
  { rewrite Hst. simpl. apply lookup_insert_eq. }
  destruct (approve_accepts E confirm _ _ _ _ Hsug Hyes) as (a & Happ).
  set (w2 := log_audit_event _ _ _ _ _) in Happ.
  assert (Hapd : store_of (approved_mappings (state w2))
                 !! mapping_key source_table target_table = Some r).
  { subst w2. simpl. apply lookup_insert_eq. }
  exists a, w2. split; [exact Happ |]. split; [exact Hapd |]. intros Hvalid.
  destruct (r_mappings r) as [| m ms] eqn:Hms; [contradiction |].
  destruct (generate_returns E _ _ _ _ _ _ Hapd Hms Hvalid) as (g & w3 & Hgen).
  destruct (generate_keeps_sets E source_table target_table w2) as [_ Hap3].
  rewrite Hgen in Hap3. simpl in Hap3.
  destruct (generate_result E _ _ _ _ _ Hgen) as (md & Hmd & Hins & _ & _ & Hst3).
  rewrite Hapd in Hmd. injection Hmd as <-.
  assert (Hg3 : store_of (generated_sql (state w3))
                !! mapping_key source_table target_table = Some g).
  { rewrite Hst3. simpl. apply lookup_insert_eq. }
  exists g, w3. split; [exact Hgen |].
  split; [rewrite Hap3; exact Hapd |].
  split; [exact Hins |].
  assert (Hcounts : column_count g = length (m :: ms)
                    /\ mapped_count g = r_mapping_count r).
  { clear - Hgen Hapd Hms. unfold generate_transformation_sql in Hgen.
    rewrite Hapd in Hgen.
    destruct (merge_text E source_table target_table r) as [merge|e'];
      [| discriminate].
    destruct (validate_sql_query E _) as [[sql_valid sql_error] warnings].
    destruct sql_valid; simpl in *; [| discriminate].
    injection Hgen as <- _. simpl. rewrite Hms. auto. }
  destruct Hcounts as [Hcc Hmc].
  split; [rewrite Hcc, <- Hlen; reflexivity |].
  split; [exact Hmc |].
  intros client_query job Hjob.
  unfold execute_transformation. rewrite Hg3, Hjob.
  eexists _, _. repeat split.
Qed.

Lemma X15_witness :
  exists r w1 a w2 g w3 d w4,
    suggest_column_mappings quiet_env "cust_src" "customer" (customer_world quiet_env)
    = (Returned (Result r), w1)
    /\ approve_mappings quiet_env (always true) "cust_src" "customer" w1
       = (Returned (Result a), w2)
    /\ generate_transformation_sql quiet_env "cust_src" "customer" w2
       = (Returned (Result g), w3)
    /\ execute_transformation quiet_env (Returned willing_warehouse)
         "cust_src" "customer" true w3
       = (Returned (Result d), w4)
    /\ dict_get "status" d = Some (PStr "validated").
Proof.
  destruct (customer_world_tables quiet_env)
    as (ss & ts & s0 & sl & t0 & tl & Hss & Hts & Hs & Ht).
  destruct (X15_pipeline_composes quiet_env (always true)
              "cust_src" "customer" (customer_world quiet_env)
              ss ts s0 sl t0 tl Hss Hts Hs Ht)
    as (r & w1 & H1 & Hrest).
  destruct (Hrest eq_refl) as (a & w2 & H2 & _ & Hrest2).
  destruct (Hrest2 eq_refl) as (g & w3 & H3 & _ & _ & _ & _ & Hrest3).
  destruct (willing_warehouse (Py.replace (insert_sql g) "{timestamp}" "NOW()") true)
    as [err|job] eqn:Hjob; [discriminate |].
  destruct (Hrest3 willing_warehouse job Hjob) as (d & w4 & H4 & H5 & _).
  exists r, w1, a, w2, g, w3, d, w4. repeat split; assumption.
Defined.

(** X16: a returned mapping set is stored and returned whether or not
    the mapping check passes; when it passes, the result carries no
    validation error and the audit log grows by the one event
    MAPPINGS_SUGGESTED, whose risk is the assessed risk level; when it
    fails, the result carries the error and the reported columns, and the
    event HALLUCINATION_PREVENTED of HIGH risk is logged before it. *)
Theorem X16_suggest_audit (E : Env) source_table target_table w r w' :
  suggest_column_mappings E source_table target_table w = (Returned (Result r), w') ->
  exists ss ts source_cols target_cols e,
    source_schema (state w) = Some ss
    /\ target_schema (state w) = Some ts
    /\ find_columns (tables ss) source_table = Some source_cols
    /\ find_columns (tables ts) target_table = Some target_cols
    /\ event_type e = "MAPPINGS_SUGGESTED"
    /\ event_risk e = risk_level (r_risk_assessment r)
    /\ match validate_mapping_output E (r_mappings r)
               (dict_keys source_cols) (dict_keys target_cols) with
       | (true, _, _) =>
           audit w' = audit w ++ [e]
           /\ r_validation_error r = None /\ r_hallucinated_columns r = None
       | (false, error_msg, hallucinated) =>
           exists h,
             audit w' = audit w ++ [h; e]
             /\ event_type h = "HALLUCINATION_PREVENTED" /\ event_risk h = "HIGH"
             /\ r_validation_error r = Some error_msg
             /\ r_hallucinated_columns r = Some hallucinated
       end.
Proof.
  unfold suggest_column_mappings.
  destruct (source_schema (state w)) as [ss|] eqn:Hss; [| discriminate].
  destruct (target_schema (state w)) as [ts|] eqn:Hts; [| discriminate].
  destruct (find_columns (tables ss) source_table) as [[| s0 sl]|] eqn:Hs;
    try discriminate.
  destruct (find_columns (tables ts) target_table) as [[| t0 tl]|] eqn:Ht;
    try discriminate.
  destruct (build_mappings E (s0 :: sl) (t0 :: tl)) as [ms|e] eqn:Hb;
    [| discriminate].
  destruct (validate_mapping_output E ms _ _) as [[is_valid error_msg] hallucinated]
    eqn:Hv.
  intros [= <- <-]. exists ss, ts, (s0 :: sl), (t0 :: tl).
  cbn [r_mappings]. rewrite Hv.
  destruct is_valid.
  - eexists. repeat split; auto.
  - eexists. do 4 (split; [auto |]).
    split; [| split]; cycle 2.
    { eexists. cbn [audit set_state log_audit_event state].
      rewrite <- app_assoc. simpl. repeat split. }
    all: reflexivity.
Qed.

Lemma X16_witness :
  exists r w',
    suggest_column_mappings quiet_env "cust_src" "customer" (customer_world quiet_env)
    = (Returned (Result r), w')
    /\ length (audit w') = 1.
Proof.
  assert (Hcall : suggest_column_mappings quiet_env "cust_src" "customer"
                    (customer_world quiet_env) = (Returned (Result _), _))
    by (vm_compute; reflexivity).
  destruct (X16_suggest_audit quiet_env _ _ _ _ _ Hcall)
    as (ss & ts & sc & tc & e & _ & _ & _ & _ & _ & _ & Hm).
  simpl in Hm. destruct Hm as (Haud & _).
  eexists _, _. split; [exact Hcall |]. rewrite Haud. reflexivity.
Defined.

(** ** The table put before the reviewer *)

Lemma round_half_hundredths tie z : round_half tie ((z # 100) * 100) = z.
Proof.
  unfold round_half.
  assert (Hx : ((z # 100) * 100 == inject_Z z)%Q).
  { unfold Qeq, Qmult, inject_Z. simpl. lia. }
  assert (Hf : Qfloor ((z # 100) * 100) = z).
  { rewrite (Qfloor_comp _ _ Hx). apply Qfloor_Z. }
  rewrite Hf.
  destruct ((z # 100) * 100 - inject_Z z ?= 1 # 2)%Q eqn:Hc.
  - apply Qeq_alt in Hc. exfalso. lra.
  - reflexivity.
  - apply Qgt_alt in Hc. exfalso. lra.
Qed.

Lemma mapping_for_hundredths (E : Env) source_cols target m :
  mapping_for E source_cols target = Returned m ->
  exists k, (0 <= k <= 100)%Z /\ confidence m = k # 100.
Proof.
  intros Hfor.
  destruct (mapping_for_kept E source_cols target) as (m' & Hm' & _ & _ & Hk).
  rewrite Hfor in Hm'. injection Hm' as <-.
  pose proof (kept_unit _ _ _ Hk) as [H0 H1].
  destruct target as [tn tc]. unfold mapping_for in Hfor.
  destruct (best_of source_cols tn tc) as [[bm bc] btr].
  destruct (if Py.truthy bm then _ else _) as [st|e]; [| discriminate].
  simpl in Hfor. injection Hfor as <-. simpl in *.
  unfold round2 in *. eexists. split; [| reflexivity].
  unfold Qle in H0, H1. simpl in H0, H1. lia.
Qed.

(** X17: the row shown to the reviewer for a candidate of a returned
    mapping set gives the target column, the source column or
    (unmapped), the confidence as a whole percentage, exact whichever way
    ties are rounded, or N/A when it is 0, the transform or direct, and
    the status. *)
Theorem X17_review_row (E : Env) source_table target_table w r w' :
  suggest_column_mappings E source_table target_table w = (Returned (Result r), w') ->
  forall m, In m (r_mappings r) ->
    exists k,
      (0 <= k <= 100)%Z
      /\ confidence m = k # 100
      /\ review_row E m
         = PDict
             [("target", PStr (target_column m));
              ("source",
               PStr (if is_mapped m then fmt_opt (source_column m)
                     else "(unmapped)"));
              ("confidence",
               PStr (if (k =? 0)%Z then "N/A"
                     else NilZero.string_of_int (Z.to_int k) ++ "%"));
              ("transform",
               PStr (match transformation m with
                     | Some tr => tr
                     | None => "direct"
                     end));
              ("status", PStr (if is_mapped m then "suggested" else "unmapped"))].
Proof.
  intros Hcall m Hm.
  destruct (suggest_result E _ _ _ _ _ Hcall)
    as (ss & ts & sc & tc & _ & _ & _ & _ & _ & _ & Hb & _).
  destruct (build_mappings_In E _ _ _ _ Hb Hm) as (target & _ & Hfor).
  destruct (mapping_for_hundredths E _ _ _ Hfor) as (k & Hk & Hconf).
  destruct (mapping_for_status E _ _ _ Hfor) as [Hst _].
  destruct (mapping_for_kept E sc target) as (m' & Hm' & _ & _ & Hkept).
  rewrite Hfor in Hm'. injection Hm' as <-.
  exists k. split; [exact Hk |]. split; [exact Hconf |].
  unfold review_row. rewrite Hst, Hconf.
  unfold format_percent. rewrite round_half_hundredths.
  assert (Hzero : Qeq_bool (k # 100) 0 = (k =? 0)%Z).
  { unfold Qeq_bool. simpl. rewrite Z.mul_1_r. reflexivity. }
  rewrite Hzero.
  assert (Hsrc : Py.or_else (source_column m) "(unmapped)"
                 = if is_mapped m then fmt_opt (source_column m) else "(unmapped)").
  { unfold is_mapped. destruct (source_column m) as [[| c s]|]; reflexivity. }
  assert (Htr : Py.or_else (transformation m) "direct"
                = match transformation m with Some tr => tr | None => "direct" end).
  { destruct Hkept as [_ _ _ _ -> _ | l1 item l2 c tr _ Hit _ _ _ _ ->];
      [reflexivity |].
    unfold score, candidate in Hit.
    destruct (rule_confidence _ _); [| discriminate].
    destruct (negb _); injection Hit as _ <-; reflexivity. }
  rewrite Hsrc, Htr. reflexivity.
Qed.

Lemma X17_witness :
  exists r w',
    suggest_column_mappings quiet_env "cust_src" "customer" (customer_world quiet_env)
    = (Returned (Result r), w')
    /\ forall m, In m (r_mappings r) ->
         exists k, (0 <= k <= 100)%Z /\ confidence m = k # 100.
Proof.
  assert (Hcall : suggest_column_mappings quiet_env "cust_src" "customer"
                    (customer_world quiet_env) = (Returned (Result _), _))
    by (vm_compute; reflexivity).
  eexists _, _. split; [exact Hcall |].
  intros m Hm.
  destruct (X17_review_row quiet_env _ _ _ _ _ Hcall m Hm) as (k & Hk & Hc & _).
  exists k. split; assumption.
Defined.

Example customer_review_rows :
  map (review_row quiet_env)
    (match fst (suggest_column_mappings quiet_env "cust_src" "customer"
                  (customer_world quiet_env)) with
     | Returned (Result r) => r_mappings r
     | _ => []
     end)
  = [PDict [("target", PStr "customer_id"); ("source", PStr "cust_id");
            ("confidence", PStr "60%"); ("transform", PStr "direct");
            ("status", PStr "suggested")];
     PDict [("target", PStr "customer_name"); ("source", PStr "(unmapped)");
            ("confidence", PStr "N/A"); ("transform", PStr "direct");
            ("status", PStr "unmapped")];
     PDict [("target", PStr "customer_status"); ("source", PStr "(unmapped)");
            ("confidence", PStr "N/A"); ("transform", PStr "direct");
            ("status", PStr "unmapped")]].
Proof. vm_compute. reflexivity. Qed.

(** * The authentication middleware *)

Lemma truthy_Some (o : option string) :
  Py.truthy o = true -> exists tok, o = Some tok /\ tok <> EmptyString.
Proof.
  destruct o as [[| c s]|]; simpl; try discriminate.
  intros _. eexists. split; [reflexivity | discriminate].
Qed.

Lemma authorized_true (token : option string) (valid_tokens : gset string) :
  Server.authorized token valid_tokens = true <->
  exists tok, token = Some tok /\ tok <> EmptyString /\ tok ∈ valid_tokens.
Proof.
  unfold Server.authorized, Server.validate_token. rewrite andb_true_iff. split.
  - intros [Ht Hv]. destruct (truthy_Some _ Ht) as (tok & -> & Hne).
    apply bool_decide_eq_true in Hv. eauto.
  - intros (tok & -> & Hne & Hin). split.
    + destruct tok; [contradiction | reflexivity].
    + apply bool_decide_eq_true. exact Hin.
Qed.

Lemma or_next_cases (a b : option string) :
  (Py.truthy a = true /\ Server.or_next a b = a)
  \/ (Py.truthy a = false /\ Server.or_next a b = b).
Proof. unfold Server.or_next. destruct (Py.truthy a); auto. Qed.

(** X18: the middleware forwards every request to one of the four
    excluded paths, and forwards a request to any other path only if it
    carries, in the X-Auth-Token header, the token query parameter or the
    auth_token cookie, a non-empty token that is in the token store; with
    an empty store nothing but the excluded paths gets through. *)
Theorem X18_forward_needs_valid_token (request : Server.Request)
  (valid_tokens : gset string) :
  (In (Server.path request) Server.EXCLUDED_PATHS ->
   Server.dispatch request valid_tokens = Server.Forwarded)
  /\ (Server.dispatch request valid_tokens = Server.Forwarded ->
      In (Server.path request) Server.EXCLUDED_PATHS
      \/ exists tok, tok <> EmptyString /\ tok ∈ valid_tokens
                     /\ Server.carries request tok)
  /\ (~ In (Server.path request) Server.EXCLUDED_PATHS ->
      Server.dispatch request ∅ <> Server.Forwarded).
Proof.
  assert (Hex : existsb (String.eqb (Server.path request)) Server.EXCLUDED_PATHS = true
                <-> In (Server.path request) Server.EXCLUDED_PATHS).
  { rewrite existsb_exists. split.
    - intros (x & Hx & Heq). apply String.eqb_eq in Heq. congruence.
    - intros Hin. exists (Server.path request). split; [exact Hin |].
      apply String.eqb_refl. }
  assert (Hfwd : forall vt, Server.dispatch request vt = Server.Forwarded ->
                   In (Server.path request) Server.EXCLUDED_PATHS
                   \/ exists tok, tok <> EmptyString /\ tok ∈ vt
                                  /\ Server.carries request tok).
  { intros vt. unfold Server.dispatch.
    destruct (existsb _ _) eqn:He; [left; apply Hex; reflexivity |].
    destruct (Server.authorized _ vt) eqn:Ha; [| destruct (_ || _); discriminate].
    intros _. right. apply authorized_true in Ha.
    destruct Ha as (tok & Htok & Hne & Hin). exists tok. split; [exact Hne |].
    split; [exact Hin |]. unfold Server.carries.
    unfold Server.or_next in Htok.
    destruct (Py.truthy (Server.header_token request)) eqn:T1.
    - rewrite T1 in Htok. left. exact Htok.
    - destruct (Py.truthy (Server.query_token request)) eqn:T2;
        [right; left | right; right]; exact Htok. }
  split; [| split].
  - intros Hin. unfold Server.dispatch. apply Hex in Hin. rewrite Hin. reflexivity.
  - apply Hfwd.
  - intros Hnot Hd. destruct (Hfwd ∅ Hd) as [Hin | (tok & _ & Hin & _)];
      [contradiction | set_solver].
Qed.

(** X19: on a path that is not excluded the three places are not
    alternatives: a non-empty X-Auth-Token header alone decides, so the
    request is forwarded exactly when that token is in the store,
    whatever the query parameter and the cookie hold; a refused request
    gets the JSON 401 exactly when the path starts with /api or the
    Accept header is application/json, and the HTML 401 otherwise. *)
Theorem X19_header_token_decides (request : Server.Request)
  (valid_tokens : gset string) h :
  ~ In (Server.path request) Server.EXCLUDED_PATHS ->
  Server.header_token request = Some h ->
  h <> EmptyString ->
  (Server.dispatch request valid_tokens = Server.Forwarded <-> h ∈ valid_tokens)
  /\ (h ∉ valid_tokens ->
      Server.dispatch request valid_tokens
      = if Py.startswith (Server.path request) "/api"
           || bool_decide (Server.accept request = Some "application/json")
        then Server.Unauthorized_json else Server.Unauthorized_html).
Proof.
  intros Hnot Hh Hne.
  assert (He : existsb (String.eqb (Server.path request)) Server.EXCLUDED_PATHS = false).
  { apply not_true_iff_false. intros He. apply Hnot.
    apply existsb_exists in He. destruct He as (x & Hx & Heq).
    apply String.eqb_eq in Heq. congruence. }
  assert (Htok : Server.or_next
                   (Server.or_next (Server.header_token request)
                      (Server.query_token request))
                   (Server.cookie_token request) = Some h).
  { rewrite Hh. unfold Server.or_next.
    destruct h as [| c s]; [contradiction | reflexivity]. }
  assert (Hacc : match Server.accept request with
                 | Some a => String.eqb a "application/json"
                 | None => false
                 end = bool_decide (Server.accept request = Some "application/json")).
  { destruct (Server.accept request) as [a|]; [| reflexivity].
    destruct (String.eqb a "application/json") eqn:Ha.
    - apply String.eqb_eq in Ha. subst a. reflexivity.
    - apply String.eqb_neq in Ha. symmetry. apply bool_decide_eq_false. congruence. }
  unfold Server.dispatch. rewrite He. cbv zeta. rewrite Htok, Hacc.
  destruct (Server.authorized (Some h) valid_tokens) eqn:Ha.
  - apply authorized_true in Ha. destruct Ha as (tok & [= <-] & _ & Hin).
    split; [split; auto | contradiction].
  - assert (Hnin : h ∉ valid_tokens).
    { intros Hin. apply not_true_iff_false in Ha. apply Ha.
      apply authorized_true. eauto. }
    split; [| reflexivity].
    split; [destruct (_ || _); discriminate | contradiction].
Qed.

Lemma X19_witness :
  ~ In (Server.path stale_header_request) Server.EXCLUDED_PATHS
  /\ Server.dispatch stale_header_request {["tok1"]} = Server.Unauthorized_json.
Proof.
  assert (Hnot : ~ In (Server.path stale_header_request) Server.EXCLUDED_PATHS).
  { simpl. intros [H | [H | [H | [H | []]]]]; discriminate. }
  split; [exact Hnot |].
  destruct (X19_header_token_decides stale_header_request {["tok1"]} "old"
              Hnot eq_refl) as [_ Hrefused]; [discriminate |].
  rewrite Hrefused; [reflexivity |].
  intros Hin. apply elem_of_singleton in Hin. discriminate.
Defined.

(** X20: a login with the right password returns the drawn token and
    adds it to the store, keeping the tokens already there; a login with
    any other password raises the 401 exception and leaves the store as it
    was; a logout with the token in the cookie removes that token and no
    other, so the token stops being valid. *)
Theorem X20_login_logout (APP_PASSWORD fresh : string) (valid_tokens : gset string)
  (request : Server.Request) :
  Server.cookie_token request = Some fresh ->
  fresh <> EmptyString ->
  let '(reply, after_login) :=
    Server.login APP_PASSWORD fresh (Some APP_PASSWORD) valid_tokens in
  let after_logout := Server.logout request after_login in
  reply = Returned fresh
  /\ Server.validate_token fresh after_login = true
  /\ (forall t, t ∈ valid_tokens -> t ∈ after_login)
  /\ Server.validate_token fresh after_logout = false
  /\ (forall t, t <> fresh -> (t ∈ after_logout <-> t ∈ valid_tokens))
  /\ (forall password,
        password <> APP_PASSWORD ->
        Server.login APP_PASSWORD fresh (Some password) valid_tokens
        = (Raised "HTTPException(401)", valid_tokens))
  /\ (APP_PASSWORD <> EmptyString ->
      Server.login APP_PASSWORD fresh None valid_tokens
      = (Raised "HTTPException(401)", valid_tokens)).
Proof.
  intros Hcookie Hne. unfold Server.login, Server.generate_token.
  rewrite String.eqb_refl.
  assert (Hlogout : Server.logout request ({[fresh]} ∪ valid_tokens)
                    = ({[fresh]} ∪ valid_tokens) ∖ {[fresh]}).
  { unfold Server.logout. rewrite Hcookie. simpl.
    destruct fresh as [| c s]; [contradiction |]. simpl.
    rewrite bool_decide_eq_true_2; [reflexivity |].
    apply elem_of_union_l, elem_of_singleton. reflexivity. }
  rewrite Hlogout. unfold Server.validate_token.
  split; [reflexivity |].
  split; [apply bool_decide_eq_true, elem_of_union_l, elem_of_singleton; reflexivity |].
  split; [intros t Ht; apply elem_of_union_r; exact Ht |].
  split.
  { apply bool_decide_eq_false. rewrite elem_of_difference, elem_of_singleton. tauto. }
  split.
  { intros t Ht. rewrite elem_of_difference, elem_of_union, !elem_of_singleton. tauto. }
  split.
  - intros password Hp. apply String.eqb_neq in Hp. rewrite Hp. reflexivity.
  - intros Hp. assert (Hq : EmptyString <> APP_PASSWORD) by congruence.
    apply String.eqb_neq in Hq. rewrite Hq. reflexivity.
Qed.

Lemma X20_witness :
  Server.cookie_token cookie_request = Some "tok1"
  /\ Server.validate_token "tok1"
       (Server.logout cookie_request
          (snd (Server.login "aimagna@2025" "tok1" (Some "aimagna@2025") ∅)))
     = false.
Proof.
  split; [reflexivity |].
  pose proof (X20_login_logout "aimagna@2025" "tok1" ∅ cookie_request eq_refl) as H.
  destruct (Server.login "aimagna@2025" "tok1" (Some "aimagna@2025") ∅)
    as [reply after_login].
  apply H. discriminate.
Defined.

(** * The folder download *)

Lemma drop_append (a b : string) : Py.drop (String.length a) (a ++ b) = b.
Proof. induction a as [| c a IH]; [reflexivity | exact IH]. Qed.

Lemma endswith_append (a b : string) : Py.endswith (a ++ b) b = true.
Proof.
  unfold Py.endswith. rewrite length_append.
  replace (String.length a + String.length b - String.length b)
    with (String.length a) by lia.
  rewrite drop_append, String.eqb_refl, andb_true_r.
  apply Nat.leb_le. lia.
Qed.

Lemma startswith_split (name prefix : string) :
  Py.startswith name prefix = true ->
  (prefix ++ Py.drop (String.length prefix) name)%string = name.
Proof.
  unfold Py.startswith. revert name.
  induction prefix as [| c p IH]; intros name H; [reflexivity |].
  destruct name as [| c' n]; [discriminate |].
  simpl in H. destruct (Ascii.ascii_dec c c') as [<- |]; [| discriminate].
  change (String c (p ++ Py.drop (String.length p) n) = String c n)%string.
  f_equal. apply IH. exact H.
Qed.

Lemma planned_cons prefix local_folder name rest :
  Fetch.planned prefix local_folder (name :: rest)
  = if Py.endswith name "/" then Fetch.planned prefix local_folder rest
    else (name, Fetch.local_path_of prefix local_folder name)
         :: Fetch.planned prefix local_folder rest.
Proof.
  unfold Fetch.planned. simpl. destruct (Py.endswith name "/"); reflexivity.
Qed.

(** The loop over the listing: it returns True after all the planned
    downloads, none of whose steps raised, and False at the first planned
    download a step of which raised. *)
Lemma download_loop_runs prefix local_folder raises blobs :
  forall got,
    let res := Fetch.download_loop prefix local_folder raises got blobs in
    (snd res = true ->
     fst res = got ++ Fetch.planned prefix local_folder blobs
     /\ forall made name rest,
          Fetch.planned prefix local_folder blobs
          = made ++ (name, Fetch.local_path_of prefix local_folder name) :: rest ->
          Fetch.dirname (Fetch.local_path_of prefix local_folder name) <> EmptyString
          /\ raises (got ++ made) name (Fetch.local_path_of prefix local_folder name)
             = false)
    /\ (snd res = false ->
        exists made name rest,
          fst res = got ++ made
          /\ Fetch.planned prefix local_folder blobs
             = made ++ (name, Fetch.local_path_of prefix local_folder name) :: rest
          /\ (Fetch.dirname (Fetch.local_path_of prefix local_folder name) = EmptyString
              \/ raises (fst res) name (Fetch.local_path_of prefix local_folder name)
                 = true)).
Proof.
  induction blobs as [| name blobs IH]; intros got; simpl.
  - split; [| discriminate]. intros _. split; [rewrite app_nil_r; reflexivity |].
    intros made name rest H. destruct made; discriminate.
  - rewrite planned_cons.
    destruct (Py.endswith name "/"); [apply IH |].
    destruct (String.eqb (Fetch.dirname (Fetch.local_path_of prefix local_folder name))
                EmptyString
              || raises got name (Fetch.local_path_of prefix local_folder name))
      eqn:Hfail.
    + simpl. split; [discriminate |]. intros _.
      exists [], name, (Fetch.planned prefix local_folder blobs).
      split; [rewrite app_nil_r; reflexivity |]. split; [reflexivity |].
      apply orb_true_iff in Hfail. destruct Hfail as [Hd | Hr]; [left | right; exact Hr].
      apply String.eqb_eq. exact Hd.
    + apply orb_false_iff in Hfail. destruct Hfail as [Hd Hr].
      apply String.eqb_neq in Hd.
      destruct (IH (got ++ [(name, Fetch.local_path_of prefix local_folder name)]))
        as [Hok Hbad].
      split.
      * intros Ht. destruct (Hok Ht) as [Hres Hsteps].
        split; [rewrite Hres, <- app_assoc; reflexivity |].
        intros made name' rest Hplan. destruct made as [| x made].
        -- simpl in Hplan. injection Hplan as <- _. rewrite app_nil_r. auto.
        -- simpl in Hplan. injection Hplan as <- Hplan.
           destruct (Hsteps made name' rest Hplan) as [H1 H2].
           split; [exact H1 |]. rewrite <- app_assoc in H2. exact H2.
      * intros Hf. destruct (Hbad Hf) as (made & name' & rest & Hres & Hplan & Hwhy).
        exists ((name, Fetch.local_path_of prefix local_folder name) :: made), name', rest.
        split; [rewrite Hres, <- app_assoc; reflexivity |].
        split; [rewrite Hplan; reflexivity | exact Hwhy].
Qed.

Lemma planned_In prefix local_folder blobs name local_path :
  In (name, local_path) (Fetch.planned prefix local_folder blobs) ->
  In name blobs /\ Py.endswith name "/" = false
  /\ local_path = Fetch.path_join local_folder (Fetch.relative_path prefix name).
Proof.
  unfold Fetch.planned. intros Hin. apply in_map_iff in Hin.
  destruct Hin as (n & [= <- <-] & Hn). apply filter_In in Hn.
  destruct Hn as [Hn1 Hn2]. apply negb_true_iff in Hn2. auto.
Qed.

(** X21: the prefix that [download_folder] lists always ends with a
    slash and is the folder itself when that already ends with one, so
    computing it twice changes nothing; the relative path of a blob whose
    name starts with the prefix is the name without the prefix; a listing
    that raises or is empty returns False with nothing downloaded; every
    download made is of a listed blob whose name does not end with a
    slash, to the join of the local folder and the relative path; when
    the function returns True it has downloaded, in the order of the
    listing, exactly those blobs, and no step raised; when it returns
    False on a non-empty listing a step raised, the downloads made being
    those planned before the blob at which the directory to create was
    the empty path or the file system or the network failed; and with the
    empty local folder a blob directly under the prefix is not
    downloaded. *)
Theorem X21_download_folder (gcs_folder local_folder : string)
  (listing : option (list string))
  (raises : list (string * string) -> string -> string -> bool) :
  let prefix := Fetch.folder_prefix gcs_folder in
  let downloaded :=
    fst (Fetch.download_folder gcs_folder local_folder listing raises) in
  let returned :=
    snd (Fetch.download_folder gcs_folder local_folder listing raises) in
  Py.endswith prefix "/" = true
  /\ Fetch.folder_prefix prefix = prefix
  /\ (Py.endswith gcs_folder "/" = true -> prefix = gcs_folder)
  /\ (forall name, Py.startswith name prefix = true ->
        (prefix ++ Fetch.relative_path prefix name)%string = name)
  /\ (listing = None \/ listing = Some [] -> downloaded = [] /\ returned = false)
  /\ (forall blobs, listing = Some blobs ->
        (forall name local_path, In (name, local_path) downloaded ->
           In name blobs /\ Py.endswith name "/" = false
           /\ local_path
              = Fetch.path_join local_folder (Fetch.relative_path prefix name))
        /\ (returned = true ->
            blobs <> []
            /\ map fst downloaded
               = List.filter (fun name => negb (Py.endswith name "/")) blobs
            /\ downloaded = Fetch.planned prefix local_folder blobs
            /\ forall made name rest,
                 Fetch.planned prefix local_folder blobs
                 = made ++ (name, Fetch.local_path_of prefix local_folder name) :: rest ->
                 Fetch.dirname (Fetch.local_path_of prefix local_folder name)
                 <> EmptyString
                 /\ raises made name (Fetch.local_path_of prefix local_folder name)
                    = false)
        /\ (returned = false -> blobs <> [] ->
            exists name rest,
              Fetch.planned prefix local_folder blobs
              = downloaded
                ++ (name, Fetch.local_path_of prefix local_folder name) :: rest
              /\ (Fetch.dirname (Fetch.local_path_of prefix local_folder name)
                  = EmptyString
                  \/ raises downloaded name
                       (Fetch.local_path_of prefix local_folder name) = true)))
  /\ Fetch.download_folder "data" EmptyString (Some ["data/a.csv"]) (fun _ _ _ => false)
     = ([], false).
Proof.
  intros prefix downloaded returned.
  assert (Hend : Py.endswith prefix "/" = true).
  { unfold prefix, Fetch.folder_prefix.
    destruct (Py.endswith gcs_folder "/") eqn:He; [exact He | apply endswith_append]. }
  split; [exact Hend |].
  split; [unfold Fetch.folder_prefix at 1; rewrite Hend; reflexivity |].
  split; [intros He; unfold prefix, Fetch.folder_prefix; rewrite He; reflexivity |].
  split.
  { intros name Hs. unfold Fetch.relative_path. rewrite Hs.
    apply startswith_split. exact Hs. }
  split.
  { subst downloaded returned. intros [-> | ->]; split; reflexivity. }
  split; [| vm_compute; reflexivity].
  intros blobs ->.
  destruct blobs as [| b0 bl].
  { subst downloaded returned. simpl.
    split; [intros ? ? [] |]. split; [discriminate |]. intros _ H. contradiction. }
  assert (Hrun : Fetch.download_folder gcs_folder local_folder (Some (b0 :: bl)) raises
                 = Fetch.download_loop prefix local_folder raises [] (b0 :: bl))
    by reflexivity.
  subst downloaded returned. rewrite Hrun.
  destruct (download_loop_runs prefix local_folder raises (b0 :: bl) []) as [Hok Hbad].
  set (res := Fetch.download_loop prefix local_folder raises [] (b0 :: bl)) in *.
  split; [| split].
  - intros name local_path Hin.
    apply (planned_In prefix local_folder (b0 :: bl)).
    destruct (snd res) eqn:Hr.
    + rewrite (proj1 (Hok eq_refl)) in Hin. exact Hin.
    + destruct (Hbad eq_refl) as (made & name' & rest & Hres & Hplan & _).
      rewrite Hplan. apply in_or_app. left.
      rewrite Hres in Hin. exact Hin.
  - intros Ht. split; [discriminate |].
    destruct (Hok Ht) as [Hres Hsteps]. rewrite Hres. simpl app.
    split; [| split; [reflexivity | exact Hsteps]].
    unfold Fetch.planned. rewrite map_map. simpl. apply map_id.
  - intros Hf _. destruct (Hbad Hf) as (made & name' & rest & Hres & Hplan & Hwhy).
    exists name', rest. simpl in Hres. rewrite Hres in *. split; assumption.
Qed.

(** * The session as a whole *)

(** Loading a snapshot writes its own snapshot key and nothing
    else: the other snapshot, the suggestions, the approved sets, the
    generated SQL and the audit log are as before, so mapping sets stored
    for an earlier snapshot stay stored; a failed metadata query returns
    the error text with the dataset id and leaves the world unchanged; an
    exception raised while the client is built leaves the tool and the
    world is unchanged. *)
Theorem snapshot_load_writes_own_key (E : Env) dataset client w :
  let ws := snd (get_source_schema E dataset client w) in
  let wt := snd (get_target_schema E dataset client w) in
  (target_schema (state ws) = target_schema (state w)
   /\ suggested_mappings (state ws) = suggested_mappings (state w)
   /\ approved_mappings (state ws) = approved_mappings (state w)
   /\ generated_sql (state ws) = generated_sql (state w)
   /\ audit ws = audit w)
  /\ (source_schema (state wt) = source_schema (state w)
      /\ suggested_mappings (state wt) = suggested_mappings (state w)
      /\ approved_mappings (state wt) = approved_mappings (state w)
      /\ generated_sql (state wt) = generated_sql (state w)
      /\ audit wt = audit w)
  /\ match client with
     | Returned (inr rows) =>
         source_schema (state ws) = Some (schema_info_of E dataset rows)
         /\ target_schema (state wt) = Some (schema_info_of E dataset rows)
         /\ fst (get_source_schema E dataset client w)
            = Returned (Result (schema_info_of E dataset rows))
         /\ fst (get_target_schema E dataset client w)
            = Returned (Result (schema_info_of E dataset rows))
     | Returned (inl e) =>
         ws = w /\ wt = w
         /\ fst (get_source_schema E dataset client w)
            = Returned (Error [("error", PStr e); ("dataset_id", PStr dataset)])
         /\ fst (get_target_schema E dataset client w)
            = Returned (Error [("error", PStr e); ("dataset_id", PStr dataset)])
     | Raised exn =>
         get_source_schema E dataset client w = (Raised exn, w)
         /\ get_target_schema E dataset client w = (Raised exn, w)
     end.
Proof. destruct client as [[e|rows]|exn]; simpl; repeat split; reflexivity. Qed.

Lemma extended_by_refl l : extended_by l l.
Proof. exists []. rewrite app_nil_r. split; [reflexivity | simpl; lia]. Qed.

Lemma extended_by_one l e : extended_by l (l ++ [e]).
Proof. exists [e]. split; [reflexivity | simpl; lia]. Qed.

(** X22: the audit log is append-only: a tool call leaves the events
    already logged in place and adds at most two, the snapshot loaders
    none at all; hence the log of an earlier world is always a prefix of
    the log of a later one. *)
Theorem X22_audit_append_only (E : Env) w w' :
  step E w w' -> extended_by (audit w) (audit w').
Proof.
  intros Hstep.
  destruct Hstep as [dataset answer w | dataset answer w | s t w | confirm s t w
                    | s t w | cq s t dry w].
  - destruct answer as [[e|rows]|exn]; apply extended_by_refl.
  - destruct answer as [[e|rows]|exn]; apply extended_by_refl.
  - unfold suggest_column_mappings.
    destruct (source_schema (state w)) as [ss|]; [| apply extended_by_refl].
    destruct (target_schema (state w)) as [ts|]; [| apply extended_by_refl].
    destruct (find_columns (tables ss) s) as [[| s0 sl]|];
      try apply extended_by_refl.
    destruct (find_columns (tables ts) t) as [[| t0 tl]|];
      try apply extended_by_refl.
    destruct (build_mappings E (s0 :: sl) (t0 :: tl)) as [ms|e];
      [| apply extended_by_refl].
    destruct (validate_mapping_output E ms _ _) as [[is_valid error_msg] hallucinated].
    destruct is_valid; simpl.
    + apply extended_by_one.
    + eexists [_; _]. rewrite <- app_assoc. split; [reflexivity | simpl; lia].
  - unfold approve_mappings.
    destruct (store_of (suggested_mappings (state w)) !! _) as [md|];
      [| apply extended_by_refl].
    destruct (confirm _ _); apply extended_by_one.
  - unfold generate_transformation_sql.
    destruct (store_of (approved_mappings (state w)) !! _) as [md|];
      [| apply extended_by_refl].
    destruct (merge_text E s t md) as [merge|e]; [| apply extended_by_refl].
    destruct (validate_sql_query E _) as [[sql_valid sql_error] warnings].
    destruct sql_valid; apply extended_by_one.
  - unfold execute_transformation.
    destruct (store_of (generated_sql (state w)) !! _) as [sql_data|];
      [| apply extended_by_refl].
    destruct cq as [cq|exn]; [| apply extended_by_refl].
    destruct (cq _ dry) as [e|job]; [apply extended_by_one |].
    destruct dry; apply extended_by_one.
Qed.

Lemma X22_witness :
  step quiet_env (customer_world quiet_env)
    (snd (suggest_column_mappings quiet_env "cust_src" "customer"
            (customer_world quiet_env)))
  /\ extended_by (audit (customer_world quiet_env))
       (audit (snd (suggest_column_mappings quiet_env "cust_src" "customer"
                      (customer_world quiet_env)))).
Proof.
  split; [apply step_suggest |].
  apply (X22_audit_append_only quiet_env). apply step_suggest.
Defined.

Lemma generate_cases (E : Env) source_table target_table w :
  state (snd (generate_transformation_sql E source_table target_table w)) = state w
  \/ exists g md,
       store_of (approved_mappings (state w)) !! mapping_key source_table target_table
       = Some md
       /\ state (snd (generate_transformation_sql E source_table target_table w))
          = with_generated
              (<[mapping_key source_table target_table := g]>
                 (store_of (generated_sql (state w)))) (state w).
Proof.
  unfold generate_transformation_sql.
  destruct (store_of (approved_mappings (state w)) !! _) as [md|] eqn:Hmd;
    [| left; reflexivity].
  destruct (merge_text E source_table target_table md) as [merge|e];
    [| left; reflexivity].
  destruct (validate_sql_query E _) as [[sql_valid sql_error] warnings].
  destruct sql_valid; simpl; [right; eexists _, md; split; reflexivity | left; reflexivity].
Qed.

Lemma keys_within_insert_outer {A B} (inner : gmap string A) (outer : gmap string B)
  k v :
  keys_within inner outer -> keys_within inner (<[k := v]> outer).
Proof.
  intros H k' Hk'. destruct (decide (k = k')) as [<- | Hne].
  - rewrite lookup_insert_eq. eauto.
  - rewrite lookup_insert_ne by exact Hne. apply H. exact Hk'.
Qed.

Lemma keys_within_insert_inner {A B} (inner : gmap string A) (outer : gmap string B)
  k v :
  keys_within inner outer -> is_Some (outer !! k) ->
  keys_within (<[k := v]> inner) outer.
Proof.
  intros H Hout k' Hk'. destruct (decide (k = k')) as [<- | Hne]; [exact Hout |].
  rewrite lookup_insert_ne in Hk' by exact Hne. apply H. exact Hk'.
Qed.

(** X23: the stages happen in order for every pair: in any world a
    session can reach, SQL is stored only under keys that have an
    approved mapping set, and an approved mapping set only under keys
    that have a suggestion. *)
Theorem X23_stores_nested (E : Env) w :
  reachable E w ->
  keys_within (store_of (generated_sql (state w)))
    (store_of (approved_mappings (state w)))
  /\ keys_within (store_of (approved_mappings (state w)))
       (store_of (suggested_mappings (state w))).
Proof.
  induction 1 as [| w w' _ [IHg IHa] Hstep].
  - split; intros k [x Hx]; simpl in Hx; rewrite lookup_empty in Hx; discriminate.
  - destruct Hstep as [dataset answer w | dataset answer w | s t w | confirm s t w
                      | s t w | cq s t dry w].
    + destruct answer as [[e|rows]|exn]; simpl; auto.
    + destruct answer as [[e|rows]|exn]; simpl; auto.
    + destruct (suggest_cases E s t w) as [(r & w' & Hcall) | ->]; [| auto].
      destruct (suggest_result E _ _ _ _ _ Hcall)
        as (_ & _ & _ & _ & _ & _ & _ & _ & _ & _ & _ & _ & _ & _ & _ & _ & Hst).
      rewrite Hcall. simpl. rewrite Hst. simpl.
      split; [exact IHg | apply keys_within_insert_outer; exact IHa].
    + destruct (approve_cases E confirm s t w) as [-> | (md & Hmd & ->)]; [auto |].
      simpl. split.
      * apply keys_within_insert_outer. exact IHg.
      * apply keys_within_insert_inner; [exact IHa | eauto].
    + destruct (generate_cases E s t w) as [-> | (g & md & Hmd & ->)]; [auto |].
      simpl. split; [| exact IHa].
      apply keys_within_insert_inner; [exact IHg | eauto].
    + rewrite execute_keeps_state. auto.
Qed.

Lemma customer_generated_reachable : reachable quiet_env (customer_generated quiet_env).
Proof.
  unfold customer_generated.
  eapply reachable_step; [| apply step_generate].
  unfold customer_approved, customer_world, load.
  eapply reachable_step; [| apply step_approve].
  eapply reachable_step; [| apply step_suggest].
  eapply reachable_step; [| apply step_get_target_schema].
  eapply reachable_step; [| apply step_get_source_schema].
  apply reachable_initial.
Defined.

Lemma X23_witness :
  reachable quiet_env (customer_generated quiet_env)
  /\ keys_within (store_of (generated_sql (state (customer_generated quiet_env))))
       (store_of (approved_mappings (state (customer_generated quiet_env)))).
Proof.
  split; [exact customer_generated_reachable |].
  apply (X23_stores_nested quiet_env _ customer_generated_reachable).
Defined.

Lemma suggest_sound (E : Env) source_table target_table w r w' :
  suggest_column_mappings E source_table target_table w = (Returned (Result r), w') ->
  sound_set r.
Proof.
  intros Hcall.
  destruct (suggest_one_per_target E _ _ _ _ _ Hcall) as (_ & _ & _ & _ & _ & _ & Hne).
  destruct (suggest_result E _ _ _ _ _ Hcall)
    as (ss & ts & sc & tc & _ & _ & _ & _ & _ & _ & Hb & Havg & Hc & Hu & _).
  destruct (build_mappings_kept E sc tc) as (ms & Hms & Hf2 & _).
  rewrite Hms in Hb. injection Hb as ->.
  assert (Hunit : forall m, In m (r_mappings r) -> (0 <= confidence m <= 1)%Q).
  { intros m Hm. destruct (Forall2_In_r _ _ _ _ Hf2 Hm) as (target & _ & _ & _ & Hk).
    eapply kept_unit. exact Hk. }
  split; [exact Hne |]. split; [exact Hc |].
  split; [rewrite Hc, Hu; apply partition_length |].
  split.
  { rewrite Havg. unfold average_confidence. fold (mean_confidence (r_mappings r)).
    apply round2_unit, mean_confidence_unit. exact Hunit. }
  intros m Hm. split; [apply Hunit; exact Hm |].
  destruct (build_mappings_In E _ _ _ _ Hms Hm) as (target & _ & Hfor).
  destruct (mapping_for_status E _ _ _ Hfor) as [Hst _].
  rewrite Hst. destruct (is_mapped m); split; auto; discriminate.
Qed.

Lemma sound_insert (store : gmap string SuggestResult) k r :
  (forall k' r', store !! k' = Some r' -> sound_set r') ->
  sound_set r ->
  forall k' r', <[k := r]> store !! k' = Some r' -> sound_set r'.
Proof.
  intros Hall Hr k' r' Hlook. destruct (decide (k = k')) as [<- | Hne].
  - rewrite lookup_insert_eq in Hlook. injection Hlook as <-. exact Hr.
  - rewrite lookup_insert_ne in Hlook by exact Hne. eapply Hall. exact Hlook.
Qed.

(** X24: whatever sequence of tool calls a session makes, every mapping
    set it holds, suggested or approved, is one that the inference
    returned: it has at least one candidate, its counts of mapped and
    unmapped candidates add up to the number of candidates, its average
    confidence and every confidence in it lie in [0,1], and the status of
    each candidate is suggested exactly when it is mapped; no tool edits
    a stored mapping set. *)
Theorem X24_stored_sets_are_inferred (E : Env) w :
  reachable E w ->
  (forall k r, store_of (suggested_mappings (state w)) !! k = Some r -> sound_set r)
  /\ (forall k r, store_of (approved_mappings (state w)) !! k = Some r -> sound_set r).
Proof.
  induction 1 as [| w w' _ [IHs IHa] Hstep].
  - split; intros k r Hlook; simpl in Hlook; rewrite lookup_empty in Hlook;
      discriminate.
  - destruct Hstep as [dataset answer w | dataset answer w | s t w | confirm s t w
                      | s t w | cq s t dry w].
    + destruct answer as [[e|rows]|exn]; simpl; auto.
    + destruct answer as [[e|rows]|exn]; simpl; auto.
    + destruct (suggest_cases E s t w) as [(r & w' & Hcall) | ->]; [| auto].
      pose proof (suggest_sound E _ _ _ _ _ Hcall) as Hsound.
      destruct (suggest_result E _ _ _ _ _ Hcall)
        as (_ & _ & _ & _ & _ & _ & _ & _ & _ & _ & _ & _ & _ & _ & _ & _ & Hst).
      rewrite Hcall. simpl. rewrite Hst. simpl.
      split; [| exact IHa]. apply sound_insert; assumption.
    + destruct (approve_cases E confirm s t w) as [-> | (md & Hmd & ->)]; [auto |].
      simpl. split; [exact IHs |].
      apply sound_insert; [exact IHa | eapply IHs; exact Hmd].
    + destruct (generate_keeps_sets E s t w) as [-> ->]. auto.
    + rewrite execute_keeps_state. auto.
Qed.

Lemma X24_witness :
  reachable quiet_env (customer_generated quiet_env)
  /\ forall k r,
       store_of (approved_mappings (state (customer_generated quiet_env))) !! k = Some r ->
       sound_set r.
Proof.
  split; [exact customer_generated_reachable |].
  apply (X24_stored_sets_are_inferred quiet_env _ customer_generated_reachable).
Defined.
